(** * FBI hate-crime table 5 / table 8 preprocessing

    A shallow embedding of [scripts/fbi/hate_crime/table5/preprocess.py] and
    [scripts/fbi/hate_crime/table8/preprocess.py], with the properties of the
    schema normaliser, the dependent-property filter, the observation writer
    and the metadata serialiser stated and proved over it.

    Python objects are modelled as follows.
    - A [str] is a [string]; each character is a code point below 256.
    - A JSON scalar that the scripts handle is a [pyval]: a string or [None].
    - A [dict] is an association list in insertion order ([dict V]); its keys
      are strings.  Dictionaries that the scripts mutate or share live in a
      heap and are handled through references.
    - An exception is a value of [exn]; a computation that may raise returns
      a [result]. *)

From Stdlib Require Import String Ascii List ZArith Lia Bool.
From stdpp Require Import base decidable option list countable strings gmap.

Open Scope string_scope.
Open Scope list_scope.

(** ** Python values and dictionaries *)

Inductive pyval : Type :=
| PyNone
| PyStr (s : string).

#[global] Instance pyval_eq_dec : EqDecision pyval.
Proof. solve_decision. Defined.

#[global] Instance pyval_countable : Countable pyval.
Proof.
  refine (inj_countable'
            (fun v => match v with PyNone => None | PyStr s => Some s end)
            (fun o => match o with None => PyNone | Some s => PyStr s end) _).
  intros []; reflexivity.
Defined.

(** [str(v)], as used by f-string interpolation. *)
Definition py_str (v : pyval) : string :=
  match v with
  | PyNone => "None"
  | PyStr s => s
  end.

(** An insertion-ordered dictionary with string keys. *)
Abbreviation dict V := (list (string * V)%type).

Section Dict.
Context {V : Type}.

(** [d.get(k)] as an option: [None] when the key is absent. *)
Fixpoint dict_get (k : string) (d : dict V) : option V :=
  match d with
  | [] => None
  | (k', v) :: d' => if decide (k = k') then Some v else dict_get k d'
  end.

(** [k in d]. *)
Definition dict_mem (k : string) (d : dict V) : bool :=
  match dict_get k d with
  | Some _ => true
  | None => false
  end.

(** [d[k] = v]: an existing key keeps its position, a new key goes last. *)
Fixpoint dict_set (k : string) (v : V) (d : dict V) : dict V :=
  match d with
  | [] => [(k, v)]
  | (k', v') :: d' =>
      if decide (k = k') then (k', v) :: d' else (k', v') :: dict_set k v d'
  end.

(** [d.update(kv)]: the items of [kv] are stored one by one, in order. *)
Definition dict_update (d kv : dict V) : dict V :=
  fold_left (fun acc '(k, v) => dict_set k v acc) kv d.

(** [{**d}]: a new dictionary that receives the items of [d] in order. *)
Definition dict_copy (d : dict V) : dict V := dict_update [] d.

(** The dictionary without key [k], the other items in their order. *)
Definition dict_del (k : string) (d : dict V) : dict V :=
  filter (fun kv => kv.1 <> k) d.

(** The dictionary without the keys of [ks]. *)
Definition dict_del_all (ks : list string) (d : dict V) : dict V :=
  filter (fun kv => kv.1 ∉ ks) d.

(** A Python dictionary holds each key once. *)
Definition dict_wf (d : dict V) : Prop := NoDup (map fst d).
End Dict.

(** [d.get(k, default)]. *)
Definition dict_get_default {V : Type} (k : string) (default : V) (d : dict V) : V :=
  match dict_get k d with
  | Some v => v
  | None => default
  end.

(** ** Exceptions *)

Inductive exn : Type :=
| KeyError (k : pyval)
| ValueError
| TypeError
| AttributeError
| IndexError
| DanglingRef.

Inductive result (A : Type) : Type :=
| Ok (a : A)
| Raise (e : exn).
Arguments Ok {A} a.
Arguments Raise {A} e.

(** ** Configuration *)

(** One entry of [config['dpv']]:
    [{"cprop": cprop, "dpv": {"prop": dpv_prop, "val": dpv_val}}]. *)
Record dpv_spec : Type := DpvSpec {
  cprop : string;
  dpv_prop : string;
  dpv_val : pyval
}.

#[global] Instance dpv_spec_eq_dec : EqDecision dpv_spec.
Proof. solve_decision. Defined.

(** A reference to a dictionary object in the heap. *)
Abbreviation ref := nat.

(** The configuration document.  [populationType] maps an output column to
    its template dictionary and [pvs] maps a bias-motivation label to its
    property/value dictionary; both hold references, since the dictionaries
    are objects shared with every caller. *)
Record config : Type := Config {
  populationType : dict ref;
  pvs : dict ref;
  dpv : list dpv_spec
}.

(** ** The dependent-property filter *)

(** [_get_dpv]: the loop over [config['dpv']] appends to [ignore_props]. *)
Definition _get_dpv (statvar : dict pyval) (cfg : config) : list string :=
  fold_left
    (fun ignore_props spec =>
       if dict_mem (cprop spec) statvar then
         let dpv_prop := dpv_prop spec in
         let dpv_val := dpv_val spec in
         if decide (dpv_val = dict_get_default dpv_prop PyNone statvar)
         then ignore_props ++ [dpv_prop]
         else ignore_props
       else ignore_props)
    (dpv cfg) [].

(** ** The identifier generator *)

(** [get_statvar_dcid] lives in [util/statvar_dcid_generator.py]; the scripts
    only call it.  It receives the statvar and the properties to ignore, and
    returns the identifier or raises. *)
Class DcidGenerator : Type :=
  get_statvar_dcid : dict pyval -> list string -> result string.

(** The contract of the generator that the scripts rely on: a property in
    [ignore_props] never influences the result, so generating with an ignore
    list is generating for the statvar without those properties. *)
Definition ignores_props (G : DcidGenerator) : Prop :=
  forall (sv : dict pyval) (ignore_props : list string),
    get_statvar_dcid sv ignore_props
    = get_statvar_dcid (dict_del_all ignore_props sv) [].

(** ** Worlds and computations *)

(** A line of the cleaned CSV, as [csv.DictWriter] receives it. *)
Inductive csv_line : Type :=
| CsvHeader (fields : list string)
| CsvRow (cells : list pyval).

(** What a run can read and change: the heap of dictionary objects, the
    cleaned CSV file and the MCF file ([None] until it is written). *)
Record world : Type := World {
  heap : list (dict pyval);
  cleaned_csv : list csv_line;
  output_mcf : option string
}.

(** A computation: it reads and changes the world and returns or raises.
    The world after a raise is the world at the raise. *)
Definition M (A : Type) : Type := world -> result A * world.

Definition ret {A : Type} (a : A) : M A := fun w => (Ok a, w).

Definition raise {A : Type} (e : exn) : M A := fun w => (Raise e, w).

Definition bind {A B : Type} (m : M A) (k : A -> M B) : M B :=
  fun w =>
    match m w with
    | (Ok a, w') => k a w'
    | (Raise e, w') => (Raise e, w')
    end.

Notation "'let*' x ':=' m 'in' k" := (bind m (fun x => k))
  (at level 10, x binder, k at level 200).

Definition lift {A : Type} (r : result A) : M A := fun w => (r, w).

(** [for x in l: body x]. *)
Fixpoint for_each {A : Type} (l : list A) (body : A -> M unit) : M unit :=
  match l with
  | [] => ret tt
  | x :: l' => let* _ := body x in for_each l' body
  end.

(** A loop that appends one result per element to a list. *)
Fixpoint mapM {A B : Type} (f : A -> M B) (l : list A) : M (list B) :=
  match l with
  | [] => ret []
  | x :: l' => let* y := f x in let* ys := mapM f l' in ret (y :: ys)
  end.

(** A loop that threads its local variables through the iterations. *)
Fixpoint foldM {A S : Type} (body : S -> A -> M S) (s : S) (l : list A) : M S :=
  match l with
  | [] => ret s
  | x :: l' => let* s' := body s x in foldM body s' l'
  end.

(** Reading the object behind a reference. *)
Definition deref (r : ref) : M (dict pyval) :=
  fun w =>
    match heap w !! r with
    | Some d => (Ok d, w)
    | None => (Raise DanglingRef, w)
    end.

(** Allocating a new dictionary object. *)
Definition alloc (d : dict pyval) : M ref :=
  fun w =>
    (Ok (length (heap w)),
     World (heap w ++ [d]) (cleaned_csv w) (output_mcf w)).

(** Changing the object behind a reference in place. *)
Definition modify (r : ref) (f : dict pyval -> dict pyval) : M unit :=
  fun w =>
    match heap w !! r with
    | Some d => (Ok tt, World (<[r := f d]> (heap w)) (cleaned_csv w) (output_mcf w))
    | None => (Raise DanglingRef, w)
    end.

(** [d[k]] on a dictionary with string keys. *)
Definition getitem {V : Type} (d : dict V) (k : string) : result V :=
  match dict_get k d with
  | Some v => Ok v
  | None => Raise (KeyError (PyStr k))
  end.

(** [d[k]] where the key is any value: [None] is never a key. *)
Definition getitem_val {V : Type} (d : dict V) (k : pyval) : result V :=
  match k with
  | PyStr s => getitem d s
  | PyNone => Raise (KeyError PyNone)
  end.

(** [l[i]]. *)
Definition list_index {A : Type} (l : list A) (i : nat) : result A :=
  match l !! i with
  | Some x => Ok x
  | None => Raise IndexError
  end.

(** [l.remove(x)]: without the first occurrence of [x]. *)
Fixpoint list_remove (x : string) (l : list string) : result (list string) :=
  match l with
  | [] => Raise ValueError
  | y :: l' =>
      if decide (x = y) then Ok l'
      else match list_remove x l' with
           | Ok r => Ok (y :: r)
           | Raise e => Raise e
           end
  end.

(** [enumerate(l)]. *)
Definition enumerate {A : Type} (l : list A) : list (nat * A) :=
  zip (seq 0 (length l)) l.

(** ** The CSV reader and writer *)

(** A [csv.DictReader] over a file: its header and one dictionary per row. *)
Record DictReader : Type := Reader {
  fieldnames : list string;
  rows : list (dict pyval)
}.

(** Columns in final cleaned CSV *)
Definition OUTPUT_COLUMNS : list string := ["Year"; "StatVar"; "Quantity"].

(** [open(cleaned_csv_path, 'w')]: the file is emptied. *)
Definition open_cleaned_csv : M unit :=
  fun w => (Ok tt, World (heap w) [] (output_mcf w)).

(** [writer.writeheader()], the writer having [fieldnames=OUTPUT_COLUMNS]. *)
Definition writeheader : M unit :=
  fun w =>
    (Ok tt,
     World (heap w) (cleaned_csv w ++ [CsvHeader OUTPUT_COLUMNS]) (output_mcf w)).

(** [writer.writerow(d)]: a key outside the field names is a [ValueError];
    the cells are the values of the field names, [''] for a missing one. *)
Definition writerow (d : dict pyval) : M unit :=
  fun w =>
    if forallb (fun kv => bool_decide (kv.1 ∈ OUTPUT_COLUMNS)) d then
      (Ok tt,
       World (heap w)
             (cleaned_csv w
              ++ [CsvRow (map (fun f => dict_get_default f (PyStr EmptyString) d) OUTPUT_COLUMNS)])
             (output_mcf w))
    else (Raise ValueError, w).

(** ** Building statvars *)

Section Statvars.
Context {G : DcidGenerator}.

(** [_update_statvars]: [d.update(key_value)] for each statvar. *)
Definition _update_statvars (statvar_list : list ref) (key_value : ref) : M unit :=
  for_each statvar_list (fun d =>
    let* kv := deref key_value in
    modify d (fun sv => dict_update sv kv)).

(** [_update_statvar_dcids]: the dcid of each statvar, generated without
    its dependent properties, is stored under ['Node']. *)
Definition _update_statvar_dcids (statvar_list : list ref) (cfg : config) : M unit :=
  for_each statvar_list (fun d =>
    let* sv := deref d in
    let ignore_props := _get_dpv sv cfg in
    let* dcid := lift (get_statvar_dcid sv ignore_props) in
    modify d (dict_set "Node" (PyStr dcid))).

(** [_write_row]: a wrapper to write data to the cleaned CSV. *)
Definition _write_row (year statvar_dcid quantity : pyval) : M unit :=
  let processed_dict :=
    [("Year", year); ("StatVar", statvar_dcid); ("Quantity", quantity)] in
  writerow processed_dict.
End Statvars.

(** The end-of-line character ['\n']. *)
Definition nl : string := String "010"%char EmptyString.

(** [a + b] where [a] is a [str]: only a [str] can be added to it. *)
Definition str_add (a : string) (b : pyval) : result string :=
  match b with
  | PyStr s => Ok (a +:+ s)
  | PyNone => Raise TypeError
  end.

(** ** The observation writer *)

Section Observations.
Context {G : DcidGenerator}.

(** The statvars of the columns of one row:
    [statvar = {**config['populationType'][c]}] for each column. *)
Definition new_statvar (cfg : config) (c : string) : M ref :=
  let* template := lift (getitem (populationType cfg) c) in
  let* d := deref template in
  alloc (dict_copy d).

(** The body of the loop [for crime in reader] of table 5, which returns
    the [statvar_list] of the row. *)
Definition process_crime (columns : list string) (cfg : config)
    (crime : dict pyval) : M (list ref) :=
  let* bias_motivation := lift (getitem crime "bias motivation") in
  let* bias_motivation_key_value := lift (getitem_val (pvs cfg) bias_motivation) in
  let* statvar_list := mapM (new_statvar cfg) columns in
  let* _ := _update_statvars statvar_list bias_motivation_key_value in
  let* _ := _update_statvar_dcids statvar_list cfg in
  let* _ :=
    for_each (enumerate columns) (fun '(idx, c) =>
      let* year := lift (getitem crime "Year") in
      let* sv := lift (list_index statvar_list idx) in
      let* d := deref sv in
      let* node := lift (getitem d "Node") in
      let* quantity := lift (getitem crime c) in
      _write_row year node quantity) in
  ret statvar_list.

(** [for crime in reader: ...; statvars.extend(statvar_list)]. *)
Definition process_reader (body : dict pyval -> M (list ref))
    (reader : DictReader) : M (list ref) :=
  foldM (fun statvars crime =>
           let* statvar_list := body crime in
           ret (statvars ++ statvar_list))
        [] (rows reader).
End Observations.

(** ** The metadata serialiser *)

(** The body lines of a node: one per property other than ['Node'], in the
    order of the dictionary. *)
Definition statvar_mcf_lines (sv : dict pyval) : list string :=
  fold_left
    (fun statvar_mcf_list '(p, v) =>
       if decide (p <> "Node")
       then statvar_mcf_list ++ [p +:+ ": dcs:" +:+ py_str v]
       else statvar_mcf_list)
    sv [].

(** One iteration of the loop of [_create_mcf] over the local variables
    [dcid_set] and [final_mcf]. *)
Definition _create_mcf_step (st : gset pyval * string) (sv_ref : ref)
    : M (gset pyval * string) :=
  let '(dcid_set, final_mcf) := st in
  let* sv := deref sv_ref in
  let* dcid := lift (getitem sv "Node") in
  if decide (dcid ∈ dcid_set) then ret (dcid_set, final_mcf)
  else
    let dcid_set := dcid_set ∪ {[dcid]} in
    let statvar_mcf_list := statvar_mcf_lines sv in
    let* header := lift (str_add "Node: dcid:" dcid) in
    let statvar_mcf := header +:+ nl +:+ String.concat nl statvar_mcf_list in
    ret (dcid_set, final_mcf +:+ statvar_mcf +:+ nl +:+ nl).

(** [_create_mcf]: writes all statvars to the MCF file.  The file is the
    same for table 5 and table 8. *)
Definition _create_mcf (stat_vars : list ref) : M unit :=
  let* st := foldM _create_mcf_step (∅, EmptyString) stat_vars in
  fun w => (Ok tt, World (heap w) (cleaned_csv w) (Some st.2)).

(** ** Strings and regular expressions of the schema normaliser *)

(** [\d] on code points below 256: the ASCII digits. *)
Definition is_digit (c : ascii) : bool :=
  let n := nat_of_ascii c in (48 <=? n)%nat && (n <=? 57)%nat.

(** The character class [[\d:]]. *)
Definition is_digit_or_colon (c : ascii) : bool :=
  is_digit c || bool_decide (c = ":"%char).

(** [\s], and the characters that [str.strip] removes, on code points below
    256: tab to carriage return, the separators 28 to 31, the space, NEL and
    the no-break space. *)
Definition is_space (c : ascii) : bool :=
  let n := nat_of_ascii c in
  ((9 <=? n)%nat && (n <=? 13)%nat) || ((28 <=? n)%nat && (n <=? 32)%nat)
  || (n =? 133)%nat || (n =? 160)%nat.

(** [re.sub('[cls]+', repl, s)]: scanning from the left, each maximal run of
    characters of the class is replaced by [repl].  [in_match] tells that the
    previous character belongs to a run already replaced. *)
Fixpoint re_sub_run (cls : ascii -> bool) (repl : string) (in_match : bool)
    (s : string) : string :=
  match s with
  | EmptyString => EmptyString
  | String c s' =>
      if cls c then
        if in_match then re_sub_run cls repl true s'
        else repl +:+ re_sub_run cls repl true s'
      else String c (re_sub_run cls repl false s')
  end.

Definition re_sub_plus (cls : ascii -> bool) (repl : string) (s : string) : string :=
  re_sub_run cls repl false s.

(** [s.lstrip()], [s.rstrip()] and [s.strip()]. *)
Fixpoint str_lstrip (s : string) : string :=
  match s with
  | EmptyString => EmptyString
  | String c s' => if is_space c then str_lstrip s' else s
  end.

Fixpoint str_rstrip (s : string) : string :=
  match s with
  | EmptyString => EmptyString
  | String c s' =>
      match str_rstrip s' with
      | EmptyString => if is_space c then EmptyString else String c EmptyString
      | r => String c r
      end
  end.

Definition str_strip (s : string) : string := str_rstrip (str_lstrip s).

(** ** Data frames *)

(** A cell of a data frame: a string, a number or a missing value. *)
Inductive cell : Type :=
| CStr (s : string)
| CNum (z : Z)
| CNaN.

(** A data frame: its column labels and its rows, each as wide as the
    labels. *)
Record DataFrame : Type := Frame {
  df_columns : list string;
  df_rows : list (list cell)
}.

(** [df.columns = names]: the number of labels has to be the number of
    columns. *)
Definition set_columns (names : list string) (df : DataFrame) : result DataFrame :=
  if decide (length names = length (df_columns df))
  then Ok (Frame names (df_rows df))
  else Raise ValueError.

(** The position of the column with a label. *)
Fixpoint column_index (label : string) (columns : list string) : result nat :=
  match columns with
  | [] => Raise (KeyError (PyStr label))
  | c :: columns' =>
      if decide (label = c) then Ok 0
      else match column_index label columns' with
           | Ok i => Ok (S i)
           | Raise e => Raise e
           end
  end.

(** [df[label]]: the cells of a column, a missing value where a row is too
    short. *)
Definition get_column (label : string) (df : DataFrame) : result (list cell) :=
  match column_index label (df_columns df) with
  | Ok i => Ok (map (fun row => default CNaN (row !! i)) (df_rows df))
  | Raise e => Raise e
  end.

(** [df[label] = series] for an existing column and a series of the length
    of the frame. *)
Definition set_column (label : string) (series : list cell) (df : DataFrame)
    : result DataFrame :=
  match column_index label (df_columns df) with
  | Ok i =>
      Ok (Frame (df_columns df)
                (zip_with (fun row c => <[i := c]> row) (df_rows df) series))
  | Raise e => Raise e
  end.

(** [series.replace(r'[cls]+', repl, regex=True)]: only strings change. *)
Definition series_replace (cls : ascii -> bool) (repl : string)
    (series : list cell) : list cell :=
  map (fun c => match c with
                | CStr s => CStr (re_sub_plus cls repl s)
                | _ => c
                end) series.

(** [series.str.strip()].  The [.str] accessor refuses a numeric column,
    which is what a column with rows and without any string is read as; in
    a column with strings, a cell that is not a string becomes missing. *)
Definition series_str_strip (series : list cell) : result (list cell) :=
  if forallb (fun c => match c with CStr _ => false | _ => true end) series
     && negb (bool_decide (series = []))
  then Raise AttributeError
  else Ok (map (fun c => match c with
                         | CStr s => CStr (str_strip s)
                         | _ => CNaN
                         end) series).

(** The three statements of [_clean_dataframe] on the label column, the same
    in table 5 and table 8. *)
Definition clean_bias_motivation (df : DataFrame) : result DataFrame :=
  match get_column "bias motivation" df with
  | Raise e => Raise e
  | Ok series =>
      match set_column "bias motivation"
                       (series_replace is_digit_or_colon EmptyString series) df with
      | Raise e => Raise e
      | Ok df =>
          match get_column "bias motivation" df with
          | Raise e => Raise e
          | Ok series =>
              match set_column "bias motivation"
                               (series_replace is_space " " series) df with
              | Raise e => Raise e
              | Ok df =>
                  match get_column "bias motivation" df with
                  | Raise e => Raise e
                  | Ok series =>
                      match series_str_strip series with
                      | Raise e => Raise e
                      | Ok series => set_column "bias motivation" series df
                      end
                  end
              end
          end
      end
  end.

(** The arguments of [pandas.read_excel] for one year. *)
Record excel_args : Type := ExcelArgs {
  header : nat;
  skipfooter : nat;
  usecols : option (list nat)
}.

(** An entry of [YEARWISE_CONFIG]. *)
Record year_config : Type := YearConfig {
  type : string;
  path : string;
  args : excel_args
}.

Module Table5.
Section Table5.
Context {G : DcidGenerator}.

(** A config that maps the year to corresponding xls file with args to be
    used with [pandas.read_excel]. *)
Definition YEARWISE_CONFIG : dict year_config :=
  [ ("2020", YearConfig "xls" "../source_data/2020/table_5.xlsx" (ExcelArgs 6 2 (Some (seq 0 14))));
    ("2019", YearConfig "xls" "../source_data/2019/table_5.xls" (ExcelArgs 5 2 (Some (seq 0 14))));
    ("2018", YearConfig "xls" "../source_data/2018/table_5.xls" (ExcelArgs 5 2 (Some (seq 0 14))));
    ("2017", YearConfig "xls" "../source_data/2017/table_5.xls" (ExcelArgs 5 2 (Some (seq 0 14))));
    ("2016", YearConfig "xls" "../source_data/2016/table_5.xls" (ExcelArgs 5 2 (Some (seq 0 14))));
    ("2015", YearConfig "xls" "../source_data/2015/table_5.xls" (ExcelArgs 5 2 (Some (seq 0 14))));
    ("2014", YearConfig "xls" "../source_data/2014/table_5.xls" (ExcelArgs 5 3 (Some (seq 0 14))));
    ("2013", YearConfig "xls" "../source_data/2013/table_5.xls" (ExcelArgs 5 3 (Some (seq 0 14))));
    ("2012", YearConfig "xls" "../source_data/2012/table_5.xls" (ExcelArgs 5 1 None));
    ("2011", YearConfig "xls" "../source_data/2011/table_5.xls" (ExcelArgs 4 1 None));
    ("2010", YearConfig "xls" "../source_data/2010/table_5.xls" (ExcelArgs 3 1 None));
    ("2009", YearConfig "xls" "../source_data/2009/table_5.xls" (ExcelArgs 3 1 None));
    ("2008", YearConfig "xls" "../source_data/2008/table_5.xls" (ExcelArgs 3 1 None));
    ("2007", YearConfig "xls" "../source_data/2007/table_5.xls" (ExcelArgs 3 1 None));
    ("2006", YearConfig "xls" "../source_data/2006/table_5.xls" (ExcelArgs 3 1 None));
    ("2005", YearConfig "xls" "../source_data/2005/table_5.xls" (ExcelArgs 3 1 None));
    ("2004", YearConfig "xls" "../source_data/2004/table_5.xls" (ExcelArgs 3 1 None)) ].

(** [_write_output_csv] of table 5: the fact columns are the field names of
    the reader without ['bias motivation'] and ['Year']. *)
Definition _write_output_csv (reader : DictReader) (cfg : config) : M (list ref) :=
  let columns := fieldnames reader in
  let* columns := lift (list_remove "bias motivation" columns) in
  let* columns := lift (list_remove "Year" columns) in
  process_reader (process_crime columns cfg) reader.

(** [_create_csv_mcf]: the cleaned CSV is opened for writing, which empties
    it, and receives the header and the rows of every input file. *)
Definition _create_csv_mcf (csv_files : list DictReader) (cfg : config) : M (list ref) :=
  let* _ := open_cleaned_csv in
  let* _ := writeheader in
  foldM (fun statvars reader =>
           let* statvars_list := _write_output_csv reader cfg in
           ret (statvars ++ statvars_list))
        [] csv_files.
(** [_clean_dataframe] of table 5: cleans the column names and the offense
    type values of a data frame. *)
Definition _clean_dataframe (df : DataFrame) (year : string) : result DataFrame :=
  let renamed :=
    if bool_decide (year ∈ ["2020"; "2019"; "2018"; "2017"; "2016"; "2015";
                            "2014"; "2013"])
    then
      set_columns
        ["bias motivation"; "total offenses"; "white"; "black or african american";
         "american indian or alaska native"; "asian";
         "native hawaiian or other pacific islander"; "multiple races";
         "unknown race"; "hispanic or latino"; "not hispanic or latino";
         "group of multiple ethnicities"; "unknown ethnicity"; "unknown offender"]
        df
    else
      set_columns
        ["bias motivation"; "total offenses"; "white";
         "black or african american"; "american indian or alaska native";
         "asian or pacific islander"; "multiple races"; "unknown race";
         "unknown offender"]
        df in
  match renamed with
  | Raise e => Raise e
  | Ok df => clean_bias_motivation df
  end.

(** The end of the script: the cleaned CSV, then the MCF file. *)
Definition main_outputs (csv_files : list DictReader) (cfg : config) : M unit :=
  let* statvars := _create_csv_mcf csv_files cfg in
  _create_mcf statvars.
End Table5.
End Table5.

Module Table8.
Section Table8.
Context {G : DcidGenerator}.

(** A config that maps the year to corresponding xls file with args to be
    used with [pandas.read_excel]. *)
Definition YEARWISE_CONFIG : dict year_config :=
  [ ("2020", YearConfig "xls" "../source_data/2020/table_8.xlsx" (ExcelArgs 6 2 None));
    ("2019", YearConfig "xls" "../source_data/2019/table_8.xls" (ExcelArgs 5 2 None));
    ("2018", YearConfig "xls" "../source_data/2018/table_8.xls" (ExcelArgs 5 2 None));
    ("2017", YearConfig "xls" "../source_data/2017/table_8.xls" (ExcelArgs 5 2 None));
    ("2016", YearConfig "xls" "../source_data/2016/table_8.xls" (ExcelArgs 5 2 None));
    ("2015", YearConfig "xls" "../source_data/2015/table_8.xls" (ExcelArgs 5 2 None));
    ("2014", YearConfig "xls" "../source_data/2014/table_8.xls" (ExcelArgs 5 2 None));
    ("2013", YearConfig "xls" "../source_data/2013/table_8.xls" (ExcelArgs 5 2 None));
    ("2012", YearConfig "xls" "../source_data/2012/table_8.xls" (ExcelArgs 5 2 None));
    ("2011", YearConfig "xls" "../source_data/2011/table_8.xls" (ExcelArgs 4 4 None));
    ("2010", YearConfig "xls" "../source_data/2010/table_8.xls" (ExcelArgs 3 2 None));
    ("2009", YearConfig "xls" "../source_data/2009/table_8.xls" (ExcelArgs 3 2 None));
    ("2008", YearConfig "xls" "../source_data/2008/table_8.xls" (ExcelArgs 3 2 None));
    ("2007", YearConfig "xls" "../source_data/2007/table_8.xls" (ExcelArgs 3 2 None));
    ("2006", YearConfig "xls" "../source_data/2006/table_8.xls" (ExcelArgs 3 2 None));
    ("2005", YearConfig "xls" "../source_data/2005/table_8.xls" (ExcelArgs 3 2 None));
    ("2004", YearConfig "xls" "../source_data/2004/table_8.xls" (ExcelArgs 3 1 None)) ].

(** The body of the loop [for crime in reader] of table 8: the seven
    statvars are built and written one by one. *)
Definition process_crime (cfg : config) (crime : dict pyval) : M (list ref) :=
  let* bias_motivation := lift (getitem crime "bias motivation") in
  let* bias_motivation_key_value := lift (getitem_val (pvs cfg) bias_motivation) in
  let* total_incident_statvar := new_statvar cfg "total incidents" in
  let* individual_statvar := new_statvar cfg "individual" in
  let* business_statvar := new_statvar cfg "business" in
  let* government_statvar := new_statvar cfg "government" in
  let* rel_org_statvar := new_statvar cfg "religious organization" in
  let* society_statvar := new_statvar cfg "society" in
  let* other_statvar := new_statvar cfg "other/unknown/multiple" in
  let statvar_list :=
    [total_incident_statvar; individual_statvar; business_statvar;
     government_statvar; rel_org_statvar; society_statvar; other_statvar] in
  let* _ := _update_statvars statvar_list bias_motivation_key_value in
  let* _ := _update_statvar_dcids statvar_list cfg in
  let write (statvar : ref) (c : string) : M unit :=
    let* year := lift (getitem crime "Year") in
    let* d := deref statvar in
    let* node := lift (getitem d "Node") in
    let* quantity := lift (getitem crime c) in
    _write_row year node quantity in
  let* _ := write total_incident_statvar "total incidents" in
  let* _ := write individual_statvar "individual" in
  let* _ := write business_statvar "business" in
  let* _ := write government_statvar "government" in
  let* _ := write rel_org_statvar "religious organization" in
  let* _ := write society_statvar "society" in
  let* _ := write other_statvar "other/unknown/multiple" in
  ret statvar_list.

(** [_write_output_csv] of table 8. *)
Definition _write_output_csv (reader : DictReader) (cfg : config) : M (list ref) :=
  process_reader (process_crime cfg) reader.

Definition _create_csv_mcf (csv_files : list DictReader) (cfg : config) : M (list ref) :=
  let* _ := open_cleaned_csv in
  let* _ := writeheader in
  foldM (fun statvars reader =>
           let* statvars_list := _write_output_csv reader cfg in
           ret (statvars ++ statvars_list))
        [] csv_files.
(** [_clean_dataframe] of table 8: the year is not looked at. *)
Definition _clean_dataframe (df : DataFrame) (year : string) : result DataFrame :=
  match set_columns
          ["bias motivation"; "total incidents"; "individual"; "business";
           "government"; "religious organization"; "society";
           "other/unknown/multiple"]
          df with
  | Raise e => Raise e
  | Ok df => clean_bias_motivation df
  end.

Definition main_outputs (csv_files : list DictReader) (cfg : config) : M unit :=
  let* statvars := _create_csv_mcf csv_files cfg in
  _create_mcf statvars.
End Table8.
End Table8.


(** ** Vocabulary of the statements *)

(** The value under ['Node'] of the object behind [r] at the end of a run,
    or the exception of the run. *)
Definition node_result (run : result unit * world) (r : ref) : result (option pyval) :=
  match run with
  | (Ok _, w) => Ok (heap w !! r ≫= dict_get "Node")
  | (Raise e, _) => Raise e
  end.

(** Modelled from the spec: [get_statvar_dcid] of
    [util/statvar_dcid_generator.py] is not part of the sources at hand.
    This sample generator follows section 4.4: the identifier is made of the
    values of the properties that are not ignored, in their order, so an
    ignored property never influences it. *)
Definition sample_dcid : DcidGenerator :=
  fun sv ignore_props =>
    Ok (String.concat "_" (map (fun kv => py_str kv.2) (dict_del_all ignore_props sv))).

(** A computation started in a world of [P] ends in a world of [Q] when it
    returns, and in a world of [E] when it raises. *)
Definition hoare {A : Type} (P : world -> Prop) (m : M A)
    (Q : A -> world -> Prop) (E : world -> Prop) : Prop :=
  forall w, P w ->
    match m w with
    | (Ok a, w') => Q a w'
    | (Raise _, w') => E w'
    end.

(** The value under ['Node'] of the object behind a reference. *)
Definition node_at (h : list (dict pyval)) (r : ref) : option pyval :=
  h !! r ≫= dict_get "Node".

(** The object behind a reference holds an identifier under ['Node']. *)
Definition has_node_id (h : list (dict pyval)) (r : ref) : Prop :=
  exists dcid, node_at h r = Some (PyStr dcid).

(** The [StatVar] cells of the data rows of a cleaned CSV. *)
Definition csv_statvars (csv : list csv_line) : list pyval :=
  flat_map (fun line =>
              match line with
              | CsvRow [_; statvar; _] => [statvar]
              | _ => []
              end) csv.

(** The fact columns of table 8, in the order in which its rows are built
    and written. *)
Definition table8_columns : list string :=
  ["total incidents"; "individual"; "business"; "government";
   "religious organization"; "society"; "other/unknown/multiple"].

(** What a row, a file or a run started in [w0] leaves behind when it
    returns [statvars]: the objects of [w0] are unchanged, the statvars are
    [n] objects added since, each holds an identifier under ['Node'], and
    the cleaned CSV received [n] rows whose [StatVar] cells are these
    identifiers, in order. *)
Definition row_post (w0 : world) (n : nat) (statvars : list ref) (w : world) : Prop :=
  heap w0 `prefix_of` heap w
  /\ output_mcf w = output_mcf w0
  /\ length statvars = n
  /\ Forall (fun r => length (heap w0) <= r < length (heap w)) statvars
  /\ Forall (has_node_id (heap w)) statvars
  /\ exists rows,
       cleaned_csv w = cleaned_csv w0 ++ rows
       /\ length rows = n
       /\ Forall2 (fun cell r => node_at (heap w) r = Some cell)
                  (csv_statvars rows) statvars.

(** The statvars of a row under construction: since [w0], objects were only
    added, the files are as they were, and [l] holds [n] of the added
    objects. *)
Definition row_built (w0 : world) (n : nat) (l : list ref) (w : world) : Prop :=
  heap w0 `prefix_of` heap w
  /\ cleaned_csv w = cleaned_csv w0
  /\ output_mcf w = output_mcf w0
  /\ length l = n
  /\ Forall (fun r => length (heap w0) <= r < length (heap w)) l.

(** ** A small run, for the examples *)

(** Templates of two columns (objects 0 and 1) and the property/value pairs
    of two labels (objects 2 and 3). *)
Definition sample_heap : list (dict pyval) :=
  [ [("populationType", PyStr "CriminalIncidents"); ("offenderRace", PyStr "White")];
    [("populationType", PyStr "CriminalIncidents");
     ("offenderRace", PyStr "BlackOrAfricanAmerican")];
    [("biasMotivation", PyStr "religion"); ("targetedReligion", PyStr "Jewish")];
    [("biasMotivation", PyStr "gender")] ].

Definition sample_config : config :=
  Config [("white", 0); ("black or african american", 1)]
         [("Anti-Jewish", 2); ("Gender", 3)]
         [DpvSpec "targetedReligion" "biasMotivation" (PyStr "religion")].

Definition sample_world : world := World sample_heap [] None.

Definition sample_reader : DictReader :=
  Reader ["Year"; "bias motivation"; "white"; "black or african american"]
    [ [("Year", PyStr "2019"); ("bias motivation", PyStr "Anti-Jewish");
       ("white", PyStr "3"); ("black or african american", PyStr "4")];
      [("Year", PyStr "2019"); ("bias motivation", PyStr "Gender");
       ("white", PyStr "5"); ("black or african american", PyStr EmptyString)] ].

(** ** Vocabulary of the metadata file *)

(** The identifier of a statvar: the value under ['Node']. *)
Definition node_val (sv : dict pyval) : pyval := dict_get_default "Node" PyNone sv.

(** The statvars that are the first of the list to carry their identifier,
    in the order of the list. *)
Fixpoint first_seen (svs : list (dict pyval)) : list (dict pyval) :=
  match svs with
  | [] => []
  | sv :: svs' =>
      sv :: filter (fun sv' => node_val sv' <> node_val sv) (first_seen svs')
  end.

(** The lines of the properties of a node: in the order of the dictionary,
    [<property>: dcs:<value>] for each property other than ['Node']. *)
Definition mcf_body (sv : dict pyval) : list string :=
  map (fun kv => kv.1 +:+ ": dcs:" +:+ py_str kv.2)
      (filter (fun kv => kv.1 <> "Node") sv).

(** The header line of a node. *)
Definition mcf_header (sv : dict pyval) : string :=
  "Node: dcid:" +:+ py_str (node_val sv).

(** The text that [_create_mcf] builds for a list of nodes: for each, the
    header, an end of line, the lines of the properties joined by ends of
    line, and two ends of line. *)
Definition mcf_text (nodes : list (dict pyval)) : string :=
  fold_right
    (fun sv acc =>
       (mcf_header sv +:+ nl +:+ String.concat nl (mcf_body sv)) +:+ nl +:+ nl +:+ acc)
    EmptyString nodes.

(** A text made of lines, each ended by an end of line. *)
Definition unlines (ls : list string) : string :=
  fold_right (fun l acc => l +:+ nl +:+ acc) EmptyString ls.

(** The metadata file in the words of the specification: one block per
    node, made of the header line and one line per property, and one blank
    line after each block, which separates it from the next. *)
Definition mcf_document (nodes : list (dict pyval)) : string :=
  unlines (flat_map (fun sv => (mcf_header sv :: mcf_body sv) ++ [EmptyString]) nodes).

(** The statvars carry an identifier: a string under ['Node']. *)
Definition carries_node (sv : dict pyval) : Prop :=
  exists dcid, dict_get "Node" sv = Some (PyStr dcid).

(** Three statvars with identifiers, the third with the identifier of the
    first and another property. *)
Definition sample_statvars : list (dict pyval) :=
  [ [("populationType", PyStr "CriminalIncidents"); ("offenderRace", PyStr "White");
     ("Node", PyStr "Count_CriminalIncidents_White")];
    [("populationType", PyStr "CriminalIncidents"); ("Node", PyStr "Count_CriminalIncidents")];
    [("Node", PyStr "Count_CriminalIncidents_White"); ("offenderRace", PyStr "Unknown")] ].

(** ** Vocabulary of the observations *)

Section Expected.
Context {G : DcidGenerator}.
Variable cfg : config.
Variable h : list (dict pyval).

(** The template of a column: the object behind
    [config['populationType'][c]]. *)
Definition template_of (c : string) : dict pyval :=
  default [] (dict_get c (populationType cfg) ≫= fun t => h !! t).

(** The property/value pairs of the label of a row: the object behind
    [config['pvs'][crime['bias motivation']]]. *)
Definition label_pvs (crime : dict pyval) : dict pyval :=
  match dict_get "bias motivation" crime with
  | Some (PyStr label) => default [] (dict_get label (pvs cfg) ≫= fun r => h !! r)
  | _ => []
  end.

(** The statvar of a row and a column before it gets its identifier: a copy
    of the template with the pairs of the label merged in. *)
Definition merged_statvar (crime : dict pyval) (c : string) : dict pyval :=
  dict_update (dict_copy (template_of c)) (label_pvs crime).

(** The identifier that the generator gives a statvar, its dependent
    properties ignored. *)
Definition statvar_dcid (sv : dict pyval) : string :=
  match get_statvar_dcid sv (_get_dpv sv cfg) with
  | Ok dcid => dcid
  | Raise _ => EmptyString
  end.

(** The statvar of a row and a column with its identifier. *)
Definition resolved_statvar (crime : dict pyval) (c : string) : dict pyval :=
  let sv := merged_statvar crime c in
  dict_set "Node" (PyStr (statvar_dcid sv)) sv.

(** The observation of a row and a fact column, in the words of the
    specification: the year of the row, the identifier of the statvar of
    the column, and the quantity of the row for the column as it is. *)
Definition observation (crime : dict pyval) (c : string) : csv_line :=
  CsvRow [dict_get_default "Year" PyNone crime;
          PyStr (statvar_dcid (merged_statvar crime c));
          dict_get_default c PyNone crime].

(** The observations of a table: rows in source order and, within a row,
    one observation per fact column in column order. *)
Definition observations (columns : list string) (table : list (dict pyval))
    : list csv_line :=
  flat_map (fun crime => map (observation crime) columns) table.

(** A row of a canonical table: its label is a string mapped by
    [config['pvs']], it has a year and a quantity for each fact column,
    each fact column has a template, and the generator returns an
    identifier for each statvar of the row. *)
Definition canonical_row (columns : list string) (crime : dict pyval) : Prop :=
  (exists label kv,
      dict_get "bias motivation" crime = Some (PyStr label)
      /\ dict_get label (pvs cfg) = Some kv /\ kv < length h)
  /\ is_Some (dict_get "Year" crime)
  /\ Forall (fun c =>
               is_Some (dict_get c crime)
               /\ (exists t, dict_get c (populationType cfg) = Some t /\ t < length h)
               /\ exists dcid,
                    get_statvar_dcid (merged_statvar crime c)
                                     (_get_dpv (merged_statvar crime c) cfg)
                    = Ok dcid)
            columns.
End Expected.

(** The fact columns of a table: the columns other than ['bias motivation']
    and ['Year']. *)
Definition fact_columns (fieldnames : list string) : list string :=
  filter (fun c => c <> "bias motivation" /\ c <> "Year") fieldnames.

(** ** Vocabulary of the label cleanup *)

(** The characters of a string that satisfy a test, in order. *)
Fixpoint str_filter (keep : ascii -> bool) (s : string) : string :=
  match s with
  | EmptyString => EmptyString
  | String c s' => if keep c then String c (str_filter keep s') else str_filter keep s'
  end.

(** The string begins with a whitespace character. *)
Definition starts_with_space (s : string) : bool :=
  match s with
  | EmptyString => false
  | String c _ => is_space c
  end.

(** The words of a string: its maximal runs of characters that are not
    whitespace, as [s.split()] gives them. *)
Fixpoint words (s : string) : list string :=
  match s with
  | EmptyString => []
  | String c s' =>
      if is_space c then words s'
      else if starts_with_space s' then String c EmptyString :: words s'
      else match words s' with
           | w :: ws => String c w :: ws
           | [] => [String c EmptyString]
           end
  end.

(** The cleanup of a label by the three statements of [_clean_dataframe]. *)
Definition clean_label (s : string) : string :=
  str_strip (re_sub_plus is_space " " (re_sub_plus is_digit_or_colon EmptyString s)).

(** The label cell of a row after [_clean_dataframe]: a label is cleaned, any
    other cell becomes a missing value. *)
Definition clean_cell (c : cell) : cell :=
  match c with
  | CStr s => CStr (clean_label s)
  | _ => CNaN
  end.

Definition clean_row (row : list cell) : list cell :=
  match row with
  | [] => []
  | c :: rest => clean_cell c :: rest
  end.

(** The label column has a string, or the frame has no rows: the column is
    not a numeric column. *)
Definition label_column_ok (df : DataFrame) : Prop :=
  df_rows df = [] \/ exists row s rest, In row (df_rows df) /\ row = CStr s :: rest.


(** The column layouts that [_clean_dataframe] assigns. *)
Definition table5_columns_2013 : list string :=
  ["bias motivation"; "total offenses"; "white"; "black or african american";
   "american indian or alaska native"; "asian";
   "native hawaiian or other pacific islander"; "multiple races";
   "unknown race"; "hispanic or latino"; "not hispanic or latino";
   "group of multiple ethnicities"; "unknown ethnicity"; "unknown offender"].

Definition table5_columns_2004 : list string :=
  ["bias motivation"; "total offenses"; "white";
   "black or african american"; "american indian or alaska native";
   "asian or pacific islander"; "multiple races"; "unknown race";
   "unknown offender"].

Definition table8_layout : list string :=
  ["bias motivation"; "total incidents"; "individual"; "business";
   "government"; "religious organization"; "society";
   "other/unknown/multiple"].

(** A frame as [pandas.read_excel] returns it for an old year of table 5,
    with nine columns, and one for table 8, with eight. *)
Definition sample_frame5 : DataFrame :=
  Frame ["Bias motivation"; "Total offenses"; "White"; "Black"; "American Indian";
         "Asian"; "Multiple"; "Unknown race"; "Unknown offender"]
        [ [CStr "3:  Race / Ethnicity   motivation"; CNum 10; CNum 1; CNum 2; CNum 3;
           CNum 4; CNum 0; CNum 0; CNum 0];
          [CStr "Anti-Jewish"; CNum 5; CNum 1; CNum 1; CNum 1; CNum 1; CNum 1;
           CNum 0; CNum 0] ].

Definition sample_frame8 : DataFrame :=
  Frame ["Bias motivation"; "Total incidents"; "Individual"; "Business";
         "Government"; "Religious organization"; "Society"; "Other"]
        [ [CStr "3:  Race / Ethnicity   motivation"; CNum 10; CNum 1; CNum 2; CNum 3;
           CNum 4; CNum 0; CNum 0] ].

(** A row with its first cell changed by [f]. *)
Definition map_label (f : cell -> cell) (row : list cell) : list cell :=
  match row with
  | [] => []
  | c :: rest => f c :: rest
  end.

(** A table has no rows, or a row that begins with a string. *)
Definition has_label (table : list (list cell)) : Prop :=
  table = [] \/ exists row s rest, In row table /\ row = CStr s :: rest.

(** The years that [_clean_dataframe] of table 5 gives the layout of 2013. *)
Definition table5_new_years : list string :=
  ["2020"; "2019"; "2018"; "2017"; "2016"; "2015"; "2014"; "2013"].

(** ** The main block: the frame of one year *)

(** The position of the year column in the CSV of a year. *)
Definition YEAR_INDEX : nat := 0.

(** [df.insert(loc, column, value)] with a scalar value: a label that the
    frame has already is refused, then a position beyond the columns; the
    value is put in every row. *)
Definition df_insert (loc : nat) (column : string) (value : cell) (df : DataFrame)
    : result DataFrame :=
  if bool_decide (column ∈ df_columns df) then Raise ValueError
  else if decide (loc <= length (df_columns df)) then
    Ok (Frame (take loc (df_columns df) ++ column :: drop loc (df_columns df))
              (map (fun row => take loc row ++ value :: drop loc row) (df_rows df)))
  else Raise IndexError.

(** The frame that the main block of table 5 writes to the CSV of a year:
    [read_file = _clean_dataframe(read_file, year)], then
    [read_file.insert(YEAR_INDEX, 'Year', year)]. *)
Definition table5_read_file (read_file : DataFrame) (year : string) : result DataFrame :=
  match Table5._clean_dataframe read_file year with
  | Raise e => Raise e
  | Ok read_file => df_insert YEAR_INDEX "Year" (CStr year) read_file
  end.

(** The same two statements in the main block of table 8. *)
Definition table8_read_file (read_file : DataFrame) (year : string) : result DataFrame :=
  match Table8._clean_dataframe read_file year with
  | Raise e => Raise e
  | Ok read_file => df_insert YEAR_INDEX "Year" (CStr year) read_file
  end.

(** ** Vocabulary of the runs over several files *)

(** A property of worlds that a computation keeps: it holds at the end,
    return or raise, when it holds at the start. *)
Definition keeps {A : Type} (I : world -> Prop) (m : M A) : Prop :=
  hoare I m (fun _ => I) I.

(** Every character of a string satisfies a test. *)
Fixpoint str_all (p : ascii -> bool) (s : string) : bool :=
  match s with
  | EmptyString => true
  | String c s' => p c && str_all p s'
  end.

Section ExpectedFiles.
Context {G : DcidGenerator}.
Variable cfg : config.
Variable h : list (dict pyval).
Variable columns_of : DictReader -> list string.

(** The statvars of the rows of the files, file after file, with their
    identifiers. *)
Definition files_statvars (csv_files : list DictReader) : list (dict pyval) :=
  flat_map (fun reader =>
              flat_map (fun crime => map (resolved_statvar cfg h crime) (columns_of reader))
                       (rows reader))
           csv_files.

(** The observations of the files, file after file. *)
Definition files_observations (csv_files : list DictReader) : list csv_line :=
  flat_map (fun reader => observations cfg h (columns_of reader) (rows reader)) csv_files.

(** Every row of the file is canonical for the fact columns of the file. *)
Definition canonical_file (reader : DictReader) : Prop :=
  Forall (canonical_row cfg h (columns_of reader)) (rows reader).
End ExpectedFiles.

(** The header of a CSV of table 5 names each column once and has the label
    and the year columns. *)
Definition table5_header_ok (reader : DictReader) : Prop :=
  NoDup (fieldnames reader)
  /\ In "bias motivation" (fieldnames reader)
  /\ In "Year" (fieldnames reader).

(** ** The test of the subject tables: finding the files *)

Module SubjectTable.

(** [sub in s] on strings. *)
Fixpoint str_contains (sub s : string) : bool :=
  String.prefix sub s
  || match s with
     | EmptyString => false
     | String _ s' => str_contains sub s'
     end.

(** [s.endswith(suffix)]. *)
Fixpoint str_endswith (suffix s : string) : bool :=
  bool_decide (s = suffix)
  || match s with
     | EmptyString => false
     | String _ s' => str_endswith suffix s'
     end.

(** [os.path.join(a, b)] on a POSIX system. *)
Definition path_join (a b : string) : string :=
  if String.prefix "/" b then b
  else if bool_decide (a = EmptyString) || str_endswith "/" a then a +:+ b
  else a +:+ "/" +:+ b.

Section Main.
(** [os.listdir]: the names in a directory, in the order in which the
    system gives them.  The directories that [main] lists exist. *)
Variable listdir : string -> list string.

(** The local variables of the second loop of [main]. *)
Record testdata : Type := Testdata {
  _CSV_PATH : option string;
  _STATVAR_MCF_PATH : option string;
  _COLUMN_MAP_PATH : option string;
  _ZIP_PATH : option string
}.

(** [main], for a [--table_dir] that is given; [None] is a failed [assert].
    It returns [_SPEC_PATH, _CSV_PATH, _STATVAR_MCF_PATH, _COLUMN_MAP_PATH,
    _ZIP_PATH]. *)
Definition main (_TABLE_DIR : string)
    : option (string * string * string * string * string) :=
  let _SPEC_PATH :=
    fold_left
      (fun _SPEC_PATH filename =>
         if str_contains "_spec.json" filename
         then Some (path_join _TABLE_DIR filename)
         else _SPEC_PATH)
      (listdir _TABLE_DIR) None in
  match _SPEC_PATH with
  | None => None
  | Some _SPEC_PATH =>
      let testdata_path := path_join _TABLE_DIR "testdata" in
      let found :=
        fold_left
          (fun found filename =>
             if str_contains "_cleaned.csv" filename then
               Testdata (Some (path_join testdata_path filename))
                        (_STATVAR_MCF_PATH found) (_COLUMN_MAP_PATH found)
                        (_ZIP_PATH found)
             else if str_contains "_output.mcf" filename then
               Testdata (_CSV_PATH found)
                        (Some (path_join testdata_path filename))
                        (_COLUMN_MAP_PATH found) (_ZIP_PATH found)
             else if str_contains "column_map.json" filename then
               Testdata (_CSV_PATH found) (_STATVAR_MCF_PATH found)
                        (Some (path_join testdata_path filename))
                        (_ZIP_PATH found)
             else if str_endswith ".zip" filename then
               Testdata (_CSV_PATH found) (_STATVAR_MCF_PATH found)
                        (_COLUMN_MAP_PATH found)
                        (Some (path_join testdata_path filename))
             else found)
          (listdir testdata_path) (Testdata None None None None) in
      match _CSV_PATH found with
      | None => None
      | Some csv_path =>
          match _STATVAR_MCF_PATH found with
          | None => None
          | Some statvar_mcf_path =>
              match _COLUMN_MAP_PATH found with
              | None => None
              | Some column_map_path =>
                  match _ZIP_PATH found with
                  | None => None
                  | Some zip_path =>
                      Some (_SPEC_PATH, csv_path, statvar_mcf_path,
                            column_map_path, zip_path)
                  end
              end
          end
      end
  end.
End Main.

(** The file names that the branches of the second loop take: a branch
    takes a name that no branch before it took. *)
Definition is_spec (filename : string) : bool := str_contains "_spec.json" filename.

Definition is_csv (filename : string) : bool := str_contains "_cleaned.csv" filename.

Definition is_statvar_mcf (filename : string) : bool :=
  negb (is_csv filename) && str_contains "_output.mcf" filename.

Definition is_column_map (filename : string) : bool :=
  negb (is_csv filename) && negb (str_contains "_output.mcf" filename)
  && str_contains "column_map.json" filename.

Definition is_zip (filename : string) : bool :=
  negb (is_csv filename) && negb (str_contains "_output.mcf" filename)
  && negb (str_contains "column_map.json" filename)
  && str_endswith ".zip" filename.

(** The last name of a listing that passes a test. *)
Definition last_match (p : string -> bool) (listing : list string) : option string :=
  last (List.filter p listing).

(** A directory of a subject table and its [testdata] directory. *)
Definition sample_listdir (dir : string) : list string :=
  if decide (dir = "S2702") then ["process.py"; "S2702_spec.json"; "testdata"]
  else if decide (dir = "S2702/testdata") then
    ["S2702_cleaned.csv"; "S2702_output.mcf"; "column_map.json"; "S2702.zip";
     "old_cleaned.csv.zip"]
  else [].
End SubjectTable.

(** * Properties *)

(** ** Dictionaries *)

Section DictFacts.
Context {V : Type}.
Implicit Types (d : dict V) (k : string).

Lemma dict_mem_true k d : dict_mem k d = true <-> is_Some (dict_get k d).
Proof.
  unfold dict_mem. destruct (dict_get k d); split; intros H; eauto.
  - discriminate.
  - destruct H; discriminate.
Qed.

Lemma dict_get_del_eq k d : dict_get k (dict_del k d) = None.
Proof.
  unfold dict_del. induction d as [|[k' v] d IH]; [reflexivity|].
  rewrite filter_cons. cbn [fst]. destruct (decide (k' <> k)) as [Hne|Heq]; simpl.
  - destruct (decide (k = k')); [congruence | exact IH].
  - exact IH.
Qed.

Lemma dict_get_del_ne k k' d : k <> k' -> dict_get k (dict_del k' d) = dict_get k d.
Proof.
  intros Hne. unfold dict_del. induction d as [|[k0 v] d IH]; [reflexivity|].
  rewrite filter_cons. cbn [fst]. destruct (decide (k0 <> k')) as [Hne0|Heq]; simpl.
  - destruct (decide (k = k0)); [reflexivity | exact IH].
  - destruct (decide (k = k0)) as [->|]; [|exact IH].
    exfalso. apply Heq. congruence.
Qed.

Lemma dict_mem_del_ne k k' d : k <> k' -> dict_mem k (dict_del k' d) = dict_mem k d.
Proof. intros Hne. unfold dict_mem. rewrite dict_get_del_ne by assumption. reflexivity. Qed.

(** Deleting a key and then a set of keys, or deleting a larger set at once:
    the same dictionary, provided the sets agree on the other keys. *)
Lemma dict_del_all_del (ks ks' : list string) k d :
  k ∈ ks ->
  (forall k0, k0 <> k -> In k0 (map fst d) -> (k0 ∈ ks <-> k0 ∈ ks')) ->
  dict_del_all ks d = dict_del_all ks' (dict_del k d).
Proof.
  intros Hk. unfold dict_del_all, dict_del.
  induction d as [|[k0 v] d IH]; intros Hagree; [reflexivity|].
  rewrite !filter_cons. cbn [fst].
  assert (IH' : filter (fun kv : string * V => kv.1 ∉ ks) d
                = filter (fun kv : string * V => kv.1 ∉ ks') (filter (fun kv => kv.1 <> k) d)).
  { apply IH. intros k1 Hne Hin. apply Hagree; [assumption | simpl; tauto]. }
  destruct (decide (k0 <> k)) as [Hne|Heq].
  - rewrite filter_cons. cbn [fst].
    assert (Hiff : k0 ∈ ks <-> k0 ∈ ks') by (apply Hagree; simpl; tauto).
    destruct (decide (k0 ∉ ks)) as [Hn|Hn]; destruct (decide (k0 ∉ ks')) as [Hn'|Hn'].
    + f_equal. exact IH'.
    + exfalso. apply Hn'. intros H'. apply Hn. tauto.
    + exfalso. apply Hn. intros H'. apply Hn'. tauto.
    + exact IH'.
  - assert (k0 = k) as -> by (destruct (decide (k0 = k)); [assumption | contradiction]).
    destruct (decide (k ∉ ks)) as [Hn|_]; [contradiction | exact IH'].
Qed.
End DictFacts.

(** ** The dependent-property filter *)

Section GetDpv.
Implicit Types (sv : dict pyval) (cfg : config) (spec : dpv_spec).

(** What one rule adds to [ignore_props]. *)
Lemma get_dpv_app sv (rules : list dpv_spec) (acc : list string) :
  fold_left
    (fun ignore_props spec =>
       if dict_mem (cprop spec) sv then
         if decide (dpv_val spec = dict_get_default (dpv_prop spec) PyNone sv)
         then ignore_props ++ [dpv_prop spec] else ignore_props
       else ignore_props) rules acc
  = acc ++ flat_map
      (fun spec =>
         if dict_mem (cprop spec) sv then
           if decide (dpv_val spec = dict_get_default (dpv_prop spec) PyNone sv)
           then [dpv_prop spec] else []
         else []) rules.
Proof.
  revert acc. induction rules as [|spec rules IH]; intros acc; simpl.
  - rewrite app_nil_r. reflexivity.
  - rewrite IH. destruct (dict_mem (cprop spec) sv); simpl; [|reflexivity].
    destruct (decide _); simpl; [|reflexivity].
    rewrite <- app_assoc. reflexivity.
Qed.

Lemma get_dpv_flat_map sv cfg :
  _get_dpv sv cfg
  = flat_map
      (fun spec =>
         if dict_mem (cprop spec) sv then
           if decide (dpv_val spec = dict_get_default (dpv_prop spec) PyNone sv)
           then [dpv_prop spec] else []
         else []) (dpv cfg).
Proof. unfold _get_dpv. rewrite get_dpv_app. reflexivity. Qed.

(** A property is ignored exactly when some rule names it as its dependent
    property, the controlling property of the rule is in the statvar, and
    the required value is the current value ([None] when absent). *)
Lemma get_dpv_In sv cfg (q : string) :
  In q (_get_dpv sv cfg) <->
  exists spec, In spec (dpv cfg) /\ dpv_prop spec = q
               /\ dict_mem (cprop spec) sv = true
               /\ dpv_val spec = dict_get_default q PyNone sv.
Proof.
  rewrite get_dpv_flat_map, in_flat_map. split.
  - intros (spec & Hin & Hq). exists spec.
    destruct (dict_mem (cprop spec) sv); [|destruct Hq].
    destruct (decide _) as [Heq|]; [|destruct Hq].
    destruct Hq as [<-|[]]. auto.
  - intros (spec & Hin & <- & Hmem & Hval). exists spec. split; [assumption|].
    rewrite Hmem. destruct (decide _); [left; reflexivity | contradiction].
Qed.
End GetDpv.

(** C10.  A rule whose controlling property is in the statvar and whose
    dependent property is absent from it adds the dependent property to the
    ignore list if and only if its required value is [None]: the list of
    [_get_dpv] is the list of the rules before it, then the dependent
    property or nothing, then the list of the rules after it.  Hence an
    absent property that every rule requires with a value other than [None]
    is never ignored. *)
Theorem get_dpv_absent_dependent (sv : dict pyval) (cfg : config)
    (rules1 rules2 : list dpv_spec) (spec : dpv_spec) :
  dpv cfg = rules1 ++ spec :: rules2 ->
  dict_mem (cprop spec) sv = true ->
  dict_get (dpv_prop spec) sv = None ->
  _get_dpv sv cfg
  = _get_dpv sv (Config (populationType cfg) (pvs cfg) rules1)
    ++ (if decide (dpv_val spec = PyNone) then [dpv_prop spec] else [])
    ++ _get_dpv sv (Config (populationType cfg) (pvs cfg) rules2)
  /\ ((forall spec', In spec' (dpv cfg) -> dpv_prop spec' = dpv_prop spec ->
                     dpv_val spec' <> PyNone) ->
      ~ In (dpv_prop spec) (_get_dpv sv cfg)).
Proof.
  intros Hrules Hmem Habsent. split.
  - rewrite !get_dpv_flat_map, Hrules. simpl.
    rewrite flat_map_app. simpl. rewrite Hmem.
    unfold dict_get_default. rewrite Habsent. reflexivity.
  - intros Hnonnull Hin. apply get_dpv_In in Hin.
    destruct Hin as (spec' & Hin & Hprop & _ & Hval).
    apply (Hnonnull spec' Hin Hprop).
    rewrite Hval. unfold dict_get_default. rewrite Habsent. reflexivity.
Qed.

Lemma get_dpv_absent_dependent_witness :
  let sv := [("biasMotivation", PyStr "religion")] in
  let spec := DpvSpec "biasMotivation" "victimType" (PyStr "Person") in
  let cfg := Config [] [] [DpvSpec "biasMotivation" "targetedReligion" PyNone; spec] in
  _get_dpv sv cfg = ["targetedReligion"] ++ [] ++ []
  /\ ~ In "victimType" (_get_dpv sv cfg).
Proof.
  intros sv spec cfg.
  destruct (get_dpv_absent_dependent sv cfg
              [DpvSpec "biasMotivation" "targetedReligion" PyNone] [] spec)
    as [Heq Hnot]; [reflexivity | reflexivity | reflexivity |].
  split.
  - exact Heq.
  - apply Hnot. intros spec' [<-|[<-|[]]] Hprop; simpl in *; discriminate.
Defined.

(** ** Identifier assignment *)

Section UpdateDcids.
Context {G : DcidGenerator}.

Lemma dict_get_set_eq {V : Type} (k : string) (v : V) (d : dict V) :
  dict_get k (dict_set k v d) = Some v.
Proof.
  induction d as [|[k' v'] d IH]; simpl.
  - destruct (decide (k = k)); [reflexivity | contradiction].
  - destruct (decide (k = k')) as [->|Hne]; simpl.
    + destruct (decide (k' = k')); [reflexivity | contradiction].
    + destruct (decide (k = k')); [contradiction | exact IH].
Qed.

(** [_update_statvar_dcids] on one statvar. *)
Lemma update_statvar_dcids_one (w : world) (r : ref) (sv : dict pyval) (cfg : config) :
  heap w !! r = Some sv ->
  _update_statvar_dcids [r] cfg w
  = match get_statvar_dcid sv (_get_dpv sv cfg) with
    | Ok dcid =>
        (Ok tt,
         World (<[r := dict_set "Node" (PyStr dcid) sv]> (heap w))
               (cleaned_csv w) (output_mcf w))
    | Raise e => (Raise e, w)
    end.
Proof.
  intros Hr. unfold _update_statvar_dcids. simpl.
  unfold bind, deref, lift, modify, ret. rewrite Hr.
  destruct (get_statvar_dcid sv (_get_dpv sv cfg)); [|reflexivity].
  rewrite Hr. reflexivity.
Qed.

Lemma node_result_one (w : world) (r : ref) (sv : dict pyval) (cfg : config) :
  heap w !! r = Some sv ->
  node_result (_update_statvar_dcids [r] cfg w) r
  = match get_statvar_dcid sv (_get_dpv sv cfg) with
    | Ok dcid => Ok (Some (PyStr dcid))
    | Raise e => Raise e
    end.
Proof.
  intros Hr. rewrite (update_statvar_dcids_one w r sv cfg Hr).
  destruct (get_statvar_dcid sv (_get_dpv sv cfg)); [|reflexivity].
  unfold node_result. cbn [heap].
  rewrite list_lookup_insert_eq by (eapply lookup_lt_Some; eassumption).
  cbn. rewrite dict_get_set_eq. reflexivity.
Qed.
End UpdateDcids.

(** C1 (amended).  Let the statvar hold [P] and [Q = y] and let the rule
    [{cprop: P, dpv: {prop: Q, val: y}}] be in the dpv list.  Then, whatever
    the other rules are, [Q] is in the ignore list of [_get_dpv], and a
    property is in that list exactly when some rule names it as dependent
    property, has its controlling property in the statvar and requires the
    current value of the property ([None] when absent).  Moreover, for a
    generator that ignores the ignored properties, and provided each rule
    that [Q] controls and that applies to the statvar for another property
    that the statvar holds is backed by a rule for that property that
    applies and that [Q] does not control, [_update_statvar_dcids] stores
    the same identifier under ['Node'] for the statvar and for the statvar
    without [Q] (or raises the same exception for both).  The proviso holds
    in particular when no rule controlled by [Q] applies to the statvar. *)
Theorem dpv_exclusion (G : DcidGenerator) (cfg : config) (sv : dict pyval)
    (P Q : string) (x y : pyval) :
  dict_get P sv = Some x ->
  dict_get Q sv = Some y ->
  In (DpvSpec P Q y) (dpv cfg) ->
  In Q (_get_dpv sv cfg)
  /\ (forall q, In q (_get_dpv sv cfg) <->
                exists spec, In spec (dpv cfg) /\ dpv_prop spec = q
                             /\ dict_mem (cprop spec) sv = true
                             /\ dpv_val spec = dict_get_default q PyNone sv)
  /\ (ignores_props G ->
      (forall spec, In spec (dpv cfg) -> cprop spec = Q -> dpv_prop spec <> Q ->
         In (dpv_prop spec) (map fst sv) ->
         dpv_val spec = dict_get_default (dpv_prop spec) PyNone sv ->
         exists spec', In spec' (dpv cfg) /\ dpv_prop spec' = dpv_prop spec
                       /\ cprop spec' <> Q
                       /\ dict_mem (cprop spec') sv = true
                       /\ dpv_val spec' = dict_get_default (dpv_prop spec') PyNone sv) ->
      forall (w w' : world) (r r' : ref),
        heap w !! r = Some sv ->
        heap w' !! r' = Some (dict_del Q sv) ->
        node_result (_update_statvar_dcids [r] cfg w) r
        = node_result (_update_statvar_dcids [r'] cfg w') r'
        /\ node_result (_update_statvar_dcids [r] cfg w) r
           = match get_statvar_dcid sv (_get_dpv sv cfg) with
             | Ok dcid => Ok (Some (PyStr dcid))
             | Raise e => Raise e
             end).
Proof.
  intros HP HQ Hrule.
  assert (HinQ : In Q (_get_dpv sv cfg)).
  { apply get_dpv_In. exists (DpvSpec P Q y). simpl.
    repeat split; try assumption.
    - apply dict_mem_true. rewrite HP. eauto.
    - unfold dict_get_default. rewrite HQ. reflexivity. }
  split; [exact HinQ|]. split; [intros q; apply get_dpv_In|].
  intros Hcontract Hchain w w' r r' Hr Hr'.
  rewrite (node_result_one w r sv cfg Hr), (node_result_one w' r' _ cfg Hr').
  split; [|reflexivity].
  rewrite (Hcontract sv), (Hcontract (dict_del Q sv)).
  rewrite (dict_del_all_del (_get_dpv sv cfg) (_get_dpv (dict_del Q sv) cfg) Q sv);
    [reflexivity | apply list_elem_of_In; exact HinQ |].
  intros k Hne Hkey. rewrite !list_elem_of_In, !get_dpv_In.
  assert (Hkeep : forall spec, In spec (dpv cfg) -> dpv_prop spec = k ->
            cprop spec <> Q -> dict_mem (cprop spec) sv = true ->
            dpv_val spec = dict_get_default k PyNone sv ->
            exists spec0, In spec0 (dpv cfg) /\ dpv_prop spec0 = k
                          /\ dict_mem (cprop spec0) (dict_del Q sv) = true
                          /\ dpv_val spec0 = dict_get_default k PyNone (dict_del Q sv)).
  { intros spec Hin Hprop Hc Hmem Hval. exists spec.
    rewrite dict_mem_del_ne by assumption.
    unfold dict_get_default. rewrite dict_get_del_ne by assumption. auto. }
  split; intros (spec & Hin & Hprop & Hmem & Hval).
  - destruct (decide (cprop spec = Q)) as [Hc|Hc].
    + destruct (Hchain spec Hin Hc) as (spec' & Hin' & Hprop' & Hc' & Hmem' & Hval').
      * rewrite Hprop. exact Hne.
      * rewrite Hprop. exact Hkey.
      * rewrite Hprop. exact Hval.
      * apply (Hkeep spec' Hin'); [congruence | exact Hc' | exact Hmem' | congruence].
    + apply (Hkeep spec Hin Hprop Hc Hmem Hval).
  - exists spec.
    assert (Hc : cprop spec <> Q).
    { intros Hc. rewrite Hc in Hmem. unfold dict_mem in Hmem.
      rewrite dict_get_del_eq in Hmem. discriminate. }
    rewrite dict_mem_del_ne in Hmem by assumption.
    unfold dict_get_default in Hval. rewrite dict_get_del_ne in Hval by assumption.
    auto.
Qed.

Lemma dict_del_all_nil {V : Type} (d : dict V) : dict_del_all [] d = d.
Proof.
  unfold dict_del_all. induction d as [|kv d IH]; [reflexivity|].
  rewrite filter_cons. destruct (decide (kv.1 ∉ [])) as [_|Hn].
  - f_equal. exact IH.
  - exfalso. apply Hn. apply not_elem_of_nil.
Qed.

(** The sample generator keeps the contract. *)
Lemma sample_dcid_ignores_props : ignores_props sample_dcid.
Proof.
  intros sv ignore_props. unfold get_statvar_dcid, sample_dcid.
  rewrite dict_del_all_nil. reflexivity.
Qed.

Lemma dpv_exclusion_witness :
  let sv := [("biasMotivation", PyStr "religion"); ("victimType", PyStr "Person");
             ("targetedReligion", PyStr "Muslim")] in
  let cfg := Config [] [] [DpvSpec "biasMotivation" "victimType" (PyStr "Person");
                           DpvSpec "victimType" "targetedReligion" (PyStr "Jewish")] in
  In "victimType" (_get_dpv sv cfg)
  /\ node_result (@_update_statvar_dcids sample_dcid [0] cfg (World [sv] [] None)) 0
     = node_result (@_update_statvar_dcids sample_dcid [1] cfg
                      (World [[]; dict_del "victimType" sv] [] None)) 1.
Proof.
  intros sv cfg.
  destruct (dpv_exclusion sample_dcid cfg sv "biasMotivation" "victimType"
              (PyStr "religion") (PyStr "Person"))
    as (Hin & _ & Hnode).
  - reflexivity.
  - reflexivity.
  - left. reflexivity.
  - split; [exact Hin|].
    apply (Hnode sample_dcid_ignores_props).
    + intros spec [<-|[<-|[]]]; simpl; intros Hc Hprop Hkey Hval; discriminate.
    + reflexivity.
    + reflexivity.
Defined.

(** C1 as the specification states it, without the proviso on chained rules,
    fails:
    with the rules [{cprop: P, dpv: {prop: Q, val: y}}] and
    [{cprop: Q, dpv: {prop: R, val: z}}], the statvar [{P: x, Q: y, R: z}]
    has [Q] and [R] ignored, but without [Q] the second rule no longer
    applies and [R] enters the identifier. *)
Lemma dpv_exclusion_chained_rules_differ :
  let sv := [("P", PyStr "x"); ("Q", PyStr "y"); ("R", PyStr "z")] in
  let cfg := Config [] [] [DpvSpec "P" "Q" (PyStr "y"); DpvSpec "Q" "R" (PyStr "z")] in
  ignores_props sample_dcid
  /\ dict_get "P" sv = Some (PyStr "x")
  /\ dict_get "Q" sv = Some (PyStr "y")
  /\ In (DpvSpec "P" "Q" (PyStr "y")) (dpv cfg)
  /\ node_result (@_update_statvar_dcids sample_dcid [0] cfg (World [sv] [] None)) 0
     = Ok (Some (PyStr "x"))
  /\ node_result (@_update_statvar_dcids sample_dcid [0] cfg
                    (World [dict_del "Q" sv] [] None)) 0
     = Ok (Some (PyStr "x_z"))
  /\ node_result (@_update_statvar_dcids sample_dcid [0] cfg (World [sv] [] None)) 0
     <> node_result (@_update_statvar_dcids sample_dcid [0] cfg
                       (World [dict_del "Q" sv] [] None)) 0.
Proof.
  intros sv cfg. split; [exact sample_dcid_ignores_props|].
  repeat split; try reflexivity.
  - left. reflexivity.
  - vm_compute. discriminate.
Qed.

(** ** Reasoning about computations *)

Section Hoare.
Context {A B : Type}.

Lemma hoare_ret (a : A) (P : world -> Prop) (Q : A -> world -> Prop) E :
  (forall w, P w -> Q a w) -> hoare P (ret a) Q E.
Proof. intros H w Hw. apply H. exact Hw. Qed.

Lemma hoare_bind (m : M A) (k : A -> M B) (P : world -> Prop)
    (Q : A -> world -> Prop) (R : B -> world -> Prop) E :
  hoare P m Q E ->
  (forall a, hoare (Q a) (k a) R E) ->
  hoare P (bind m k) R E.
Proof.
  intros Hm Hk w Hw. unfold bind. specialize (Hm w Hw).
  destruct (m w) as [[a|e] w']; [|exact Hm].
  apply (Hk a w' Hm).
Qed.

Lemma hoare_lift (r : result A) (P : world -> Prop) (Q : A -> world -> Prop) E :
  (forall w a, P w -> r = Ok a -> Q a w) ->
  (forall w e, P w -> r = Raise e -> E w) ->
  hoare P (lift r) Q E.
Proof.
  intros HQ HE w Hw. unfold lift. destruct r as [a|e]; eauto.
Qed.

Lemma hoare_conseq (m : M A) (P P' : world -> Prop) (Q Q' : A -> world -> Prop)
    (E E' : world -> Prop) :
  hoare P' m Q' E' ->
  (forall w, P w -> P' w) ->
  (forall a w, Q' a w -> Q a w) ->
  (forall w, E' w -> E w) ->
  hoare P m Q E.
Proof.
  intros Hm HP HQ HE w Hw. specialize (Hm w (HP w Hw)).
  destruct (m w) as [[a|e] w']; eauto.
Qed.

End Hoare.

Section HoareLoops.
Context {A B : Type}.

(** A loop with an invariant over the elements already handled. *)
Lemma hoare_for_each_from (l : list A) (body : A -> M unit)
    (I : list A -> world -> Prop) E (done : list A) :
  (forall done' x rest, done ++ l = done' ++ x :: rest ->
     length done <= length done' ->
     hoare (I done') (body x) (fun _ => I (done' ++ [x])) E) ->
  hoare (I done) (for_each l body) (fun _ => I (done ++ l)) E.
Proof.
  revert done. induction l as [|x l IH]; intros done Hbody; simpl.
  - apply hoare_ret. intros w Hw. rewrite app_nil_r. exact Hw.
  - eapply hoare_bind.
    + apply (Hbody done x l); [reflexivity | lia].
    + intros []. eapply hoare_conseq; [apply (IH (done ++ [x])) | | |].
      * intros done' y rest Heq Hlen. apply (Hbody done' y rest).
        -- rewrite <- Heq, <- app_assoc. reflexivity.
        -- rewrite length_app in Hlen. simpl in Hlen. lia.
      * auto.
      * intros [] w Hw. rewrite <- app_assoc in Hw. exact Hw.
      * auto.
Qed.

Lemma hoare_for_each (l : list A) (body : A -> M unit)
    (I : list A -> world -> Prop) E :
  (forall done x rest, l = done ++ x :: rest ->
     hoare (I done) (body x) (fun _ => I (done ++ [x])) E) ->
  hoare (I []) (for_each l body) (fun _ => I l) E.
Proof.
  intros Hbody. apply (hoare_for_each_from l body I E []).
  intros done x rest Heq _. apply (Hbody done x rest). exact Heq.
Qed.

(** A loop that collects one result per element. *)
Lemma hoare_mapM (f : A -> M B) (l : list A)
    (I : list B -> world -> Prop) E :
  (forall ys x, hoare (I ys) (f x) (fun y => I (ys ++ [y])) E) ->
  forall ys0,
    hoare (I ys0) (mapM f l)
          (fun ys w => I (ys0 ++ ys) w /\ length ys = length l) E.
Proof.
  intros Hf. induction l as [|x l IH]; intros ys0; simpl.
  - apply hoare_ret. intros w Hw. rewrite app_nil_r. auto.
  - eapply hoare_bind; [apply Hf|]. intros y.
    eapply hoare_bind; [apply (IH (ys0 ++ [y]))|]. intros ys.
    apply hoare_ret. intros w [Hw Hlen]. rewrite <- app_assoc in Hw.
    simpl. auto.
Qed.

(** A loop that threads its local variables, with an invariant over the
    elements already handled. *)
Lemma hoare_foldM_from {S : Type} (body : S -> A -> M S) (l : list A)
    (I : list A -> S -> world -> Prop) E (done : list A) (s0 : S) :
  (forall done' x rest s, done ++ l = done' ++ x :: rest ->
     hoare (I done' s) (body s x) (fun s' => I (done' ++ [x]) s') E) ->
  hoare (I done s0) (foldM body s0 l) (fun s => I (done ++ l) s) E.
Proof.
  revert done s0. induction l as [|x l IH]; intros done s0 Hbody; simpl.
  - apply hoare_ret. intros w Hw. rewrite app_nil_r. exact Hw.
  - eapply hoare_bind.
    + apply (Hbody done x l). reflexivity.
    + intros s. eapply hoare_conseq; [apply (IH (done ++ [x]) s) | | |].
      * intros done' y rest s' Heq. apply (Hbody done' y rest).
        rewrite <- Heq, <- app_assoc. reflexivity.
      * auto.
      * intros s' w Hw. rewrite <- app_assoc in Hw. exact Hw.
      * auto.
Qed.

Lemma hoare_foldM {S : Type} (body : S -> A -> M S) (l : list A)
    (I : list A -> S -> world -> Prop) E (s0 : S) :
  (forall done x rest s, l = done ++ x :: rest ->
     hoare (I done s) (body s x) (fun s' => I (done ++ [x]) s') E) ->
  hoare (I [] s0) (foldM body s0 l) (fun s => I l s) E.
Proof.
  intros Hbody. apply (hoare_foldM_from body l I E [] s0).
  intros done x rest s Heq. apply (Hbody done x rest s). exact Heq.
Qed.
End HoareLoops.

(** The start of a computation can be named. *)
Lemma hoare_world {A : Type} (m : M A) (P : world -> Prop)
    (Q : A -> world -> Prop) E :
  (forall w1, P w1 -> hoare (fun w => w = w1) m Q E) ->
  hoare P m Q E.
Proof. intros H w Hw. apply (H w Hw w). reflexivity. Qed.

(** What a computation does from a given world gives its triple. *)
Lemma hoare_run {A : Type} (m : M A) (w1 : world)
    (Q : A -> world -> Prop) (E : world -> Prop) :
  match m w1 with
  | (Ok a, w') => Q a w'
  | (Raise _, w') => E w'
  end ->
  hoare (fun w => w = w1) m Q E.
Proof. intros H w ->. exact H. Qed.

(** ** Equations of computations *)

Lemma bind_cong {A B : Type} (m : M A) (k k' : A -> M B) (w : world) :
  (forall a w', k a w' = k' a w') -> bind m k w = bind m k' w.
Proof.
  intros Hk. unfold bind. destruct (m w) as [[a|e] w']; [apply Hk | reflexivity].
Qed.

Lemma bind_assoc {A B C : Type} (m : M A) (k : A -> M B) (k2 : B -> M C) (w : world) :
  bind (bind m k) k2 w = bind m (fun a => bind (k a) k2) w.
Proof.
  unfold bind. destruct (m w) as [[a|e] w']; reflexivity.
Qed.

Lemma bind_ret_l {A B : Type} (a : A) (k : A -> M B) (w : world) :
  bind (ret a) k w = k a w.
Proof. reflexivity. Qed.

Lemma bind_lift_Ok {A B : Type} (a : A) (k : A -> M B) (w : world) :
  bind (lift (Ok a)) k w = k a w.
Proof. reflexivity. Qed.

(** ** Table 8 builds its rows as table 5 does for seven fixed columns *)

Lemma table8_process_crime {G : DcidGenerator} (cfg : config) (crime : dict pyval)
    (w : world) :
  Table8.process_crime cfg crime w = process_crime table8_columns cfg crime w.
Proof.
  unfold Table8.process_crime, process_crime, table8_columns.
  cbv zeta.
  cbn [mapM enumerate length seq zip zip_with for_each].
  repeat first
    [ rewrite bind_assoc
    | rewrite bind_ret_l
    | rewrite bind_lift_Ok
    | progress cbn [list_index lookup list_lookup]
    | apply bind_cong; intros ? ? ].
  reflexivity.
Qed.

Lemma foldM_ext {A S : Type} (body body' : S -> A -> M S) (l : list A) :
  (forall s x w, body s x w = body' s x w) ->
  forall s w, foldM body s l w = foldM body' s l w.
Proof.
  intros Hbody. induction l as [|x l IH]; intros s w; [reflexivity|].
  cbn [foldM]. unfold bind. rewrite Hbody.
  destruct (body' s x w) as [[s'|e] w']; [apply IH | reflexivity].
Qed.

Lemma table8_write_output_csv {G : DcidGenerator} (reader : DictReader)
    (cfg : config) (w : world) :
  Table8._write_output_csv reader cfg w
  = process_reader (process_crime table8_columns cfg) reader w.
Proof.
  unfold Table8._write_output_csv, process_reader.
  apply foldM_ext. intros statvars crime w'.
  unfold bind. rewrite table8_process_crime. reflexivity.
Qed.

(** ** The heap under allocation and update *)

Section HeapFacts.
Implicit Types (h : list (dict pyval)) (r : ref).


Lemma prefix_insert_ge (h0 : list (dict pyval)) h r (d : dict pyval) :
  h0 `prefix_of` h -> length h0 <= r -> h0 `prefix_of` <[r := d]> h.
Proof.
  intros [k ->] Hr. exists (<[r - length h0 := d]> k).
  apply insert_app_r_alt. exact Hr.
Qed.

Lemma prefix_node_at (h0 : list (dict pyval)) h r :
  h0 `prefix_of` h -> r < length h0 -> node_at h r = node_at h0 r.
Proof.
  intros [k ->] Hr. unfold node_at. rewrite lookup_app_l by exact Hr. reflexivity.
Qed.

Lemma node_at_insert_eq h r (sv : dict pyval) (v : pyval) :
  r < length h -> node_at (<[r := dict_set "Node" v sv]> h) r = Some v.
Proof.
  intros Hr. unfold node_at. rewrite list_lookup_insert_eq by exact Hr.
  cbn. apply dict_get_set_eq.
Qed.

Lemma node_at_insert_ne h r r' (d : dict pyval) :
  r <> r' -> node_at (<[r := d]> h) r' = node_at h r'.
Proof.
  intros Hne. unfold node_at. rewrite list_lookup_insert_ne by exact Hne. reflexivity.
Qed.

Lemma has_node_id_insert h r r' (sv : dict pyval) (dcid : string) :
  r < length h ->
  has_node_id h r' ->
  has_node_id (<[r := dict_set "Node" (PyStr dcid) sv]> h) r'.
Proof.
  intros Hr [dcid' Hnode]. destruct (decide (r = r')) as [<-|Hne].
  - exists dcid. apply node_at_insert_eq. exact Hr.
  - exists dcid'. rewrite node_at_insert_ne by exact Hne. exact Hnode.
Qed.
End HeapFacts.

(** ** What each operation does from a given world *)

Section Runs.
Context {G : DcidGenerator}.

Lemma new_statvar_run (cfg : config) (c : string) (w : world) :
  match new_statvar cfg c w with
  | (Ok r, w') =>
      r = length (heap w)
      /\ exists d, w' = World (heap w ++ [d]) (cleaned_csv w) (output_mcf w)
  | (Raise _, w') => w' = w
  end.
Proof.
  unfold new_statvar, bind, lift, deref, alloc.
  destruct (getitem (populationType cfg) c) as [t|e]; [|reflexivity].
  destruct (heap w !! t) as [d|]; [|reflexivity].
  split; [reflexivity | eauto].
Qed.

Lemma update_statvar_run (kv_ref d : ref) (w : world) :
  match (let* kv := deref kv_ref in
         modify d (fun sv => dict_update sv kv)) w with
  | (Ok _, w') =>
      exists x, w' = World (<[d := x]> (heap w)) (cleaned_csv w) (output_mcf w)
  | (Raise _, w') => w' = w
  end.
Proof.
  unfold bind, deref, modify.
  destruct (heap w !! kv_ref) as [kv|]; [|reflexivity].
  destruct (heap w !! d) as [sv|]; [eauto | reflexivity].
Qed.

Lemma update_statvar_dcid_run (cfg : config) (d : ref) (w : world) :
  match (let* sv := deref d in
         let ignore_props := _get_dpv sv cfg in
         let* dcid := lift (get_statvar_dcid sv ignore_props) in
         modify d (dict_set "Node" (PyStr dcid))) w with
  | (Ok _, w') =>
      d < length (heap w)
      /\ exists sv dcid,
           w' = World (<[d := dict_set "Node" (PyStr dcid) sv]> (heap w))
                      (cleaned_csv w) (output_mcf w)
  | (Raise _, w') => w' = w
  end.
Proof.
  unfold bind, deref, lift, modify.
  destruct (heap w !! d) as [sv|] eqn:Hd; [|reflexivity].
  destruct (get_statvar_dcid sv (_get_dpv sv cfg)) as [dcid|e]; [|reflexivity].
  rewrite Hd. split; [eapply lookup_lt_Some; eassumption | eauto].
Qed.

Lemma write_row_run (year node quantity : pyval) (w : world) :
  _write_row year node quantity w
  = (Ok tt, World (heap w) (cleaned_csv w ++ [CsvRow [year; node; quantity]])
                  (output_mcf w)).
Proof. reflexivity. Qed.

Lemma write_statvar_run (crime : dict pyval) (statvar_list : list ref)
    (idx : nat) (c : string) (w : world) :
  match (let* year := lift (getitem crime "Year") in
         let* sv := lift (list_index statvar_list idx) in
         let* d := deref sv in
         let* node := lift (getitem d "Node") in
         let* quantity := lift (getitem crime c) in
         _write_row year node quantity) w with
  | (Ok _, w') =>
      exists year r node quantity,
        dict_get "Year" crime = Some year
        /\ dict_get c crime = Some quantity
        /\ statvar_list !! idx = Some r
        /\ node_at (heap w) r = Some node
        /\ w' = World (heap w) (cleaned_csv w ++ [CsvRow [year; node; quantity]])
                      (output_mcf w)
  | (Raise _, w') => w' = w
  end.
Proof.
  unfold bind, lift, deref, getitem, list_index.
  destruct (dict_get "Year" crime) as [year|]; [|reflexivity].
  destruct (statvar_list !! idx) as [r|]; [|reflexivity].
  destruct (heap w !! r) as [d|] eqn:Hr; [|reflexivity].
  destruct (dict_get "Node" d) as [node|] eqn:Hnode; [|reflexivity].
  destruct (dict_get c crime) as [quantity|]; [|reflexivity].
  rewrite write_row_run. exists year, r, node, quantity.
  repeat split; try reflexivity.
  unfold node_at. rewrite Hr. exact Hnode.
Qed.
End Runs.

(** ** One row: the statvars are new objects and their identifiers go to
    the cleaned CSV *)

Lemma enumerate_split_from {A : Type} (l : list A) (s : nat)
    (done rest : list (nat * A)) (i : nat) (x : A) :
  zip (seq s (length l)) l = done ++ (i, x) :: rest -> i = s + length done.
Proof.
  revert s done. induction l as [|y l IH]; intros s done Heq; simpl in Heq.
  - destruct done; discriminate.
  - destruct done as [|p done]; simpl in Heq.
    + injection Heq as -> _ _. simpl. lia.
    + injection Heq as _ Heq. apply IH in Heq. simpl. lia.
Qed.

Lemma enumerate_split {A : Type} (l : list A) (done rest : list (nat * A))
    (i : nat) (x : A) :
  enumerate l = done ++ (i, x) :: rest -> i = length done.
Proof. intros Heq. apply enumerate_split_from in Heq. exact Heq. Qed.

Lemma length_enumerate {A : Type} (l : list A) : length (enumerate l) = length l.
Proof.
  unfold enumerate. rewrite length_zip_with, length_seq. lia.
Qed.

Lemma csv_statvars_app (rows1 rows2 : list csv_line) :
  csv_statvars (rows1 ++ rows2) = csv_statvars rows1 ++ csv_statvars rows2.
Proof. unfold csv_statvars. apply flat_map_app. Qed.

Section Row.
Context {G : DcidGenerator}.
Variable w0 : world.

Lemma new_statvars_hoare (cfg : config) (columns : list string) :
  hoare (fun w => w = w0) (mapM (new_statvar cfg) columns)
        (row_built w0 (length columns)) (fun w => heap w0 `prefix_of` heap w).
Proof.
  eapply hoare_conseq;
    [apply (hoare_mapM (new_statvar cfg) columns
              (fun ys w => row_built w0 (length ys) ys w)
              (fun w => heap w0 `prefix_of` heap w)) with (ys0 := []) | | |].
  - intros ys c. apply hoare_world. intros w1 (Hpre & Hcsv & Hmcf & _ & Hfresh).
    apply hoare_run. pose proof (new_statvar_run cfg c w1) as Hrun.
    destruct (new_statvar cfg c w1) as [[r|e] w'].
    + destruct Hrun as [-> [d ->]]. unfold row_built. cbn [heap cleaned_csv output_mcf].
      pose proof (prefix_length _ _ Hpre) as Hlen.
      repeat split; try assumption; try reflexivity.
      * apply prefix_app_r. exact Hpre.
      * apply Forall_app. split.
        -- eapply Forall_impl; [exact Hfresh|]. cbn beta. intros r Hr.
           rewrite length_app. simpl. lia.
        -- constructor; [|constructor]. rewrite length_app. simpl. lia.
    + subst w'. exact Hpre.
  - intros w ->. repeat split; try reflexivity. constructor.
  - intros l w [(Hpre & Hcsv & Hmcf & _ & Hfresh) Hlen].
    repeat split; assumption.
  - auto.
Qed.

Lemma update_statvars_hoare (n : nat) (l : list ref) (kv : ref) :
  hoare (row_built w0 n l) (_update_statvars l kv)
        (fun _ => row_built w0 n l) (fun w => heap w0 `prefix_of` heap w).
Proof.
  unfold _update_statvars.
  apply (hoare_for_each l _ (fun _ => row_built w0 n l) (fun w => heap w0 `prefix_of` heap w)).
  intros done d rest Hl. apply hoare_world.
  intros w1 (Hpre & Hcsv & Hmcf & Hlen & Hfresh).
  apply hoare_run. pose proof (update_statvar_run kv d w1) as Hrun.
  destruct ((let* kv0 := deref kv in modify d (fun sv => dict_update sv kv0)) w1)
    as [[[]|e] w'].
  - destruct Hrun as [x ->]. unfold row_built. cbn [heap cleaned_csv output_mcf].
    assert (Hd : length (heap w0) <= d).
    { rewrite Forall_forall in Hfresh. apply Hfresh. rewrite Hl.
      apply list_elem_of_In, in_or_app. right. left. reflexivity. }
    repeat split; try assumption.
    + apply prefix_insert_ge; assumption.
    + eapply Forall_impl; [exact Hfresh|]. cbn beta. intros r Hr.
      rewrite length_insert. exact Hr.
  - subst w'. exact Hpre.
Qed.

Lemma update_statvar_dcids_hoare (n : nat) (l : list ref) (cfg : config) :
  hoare (row_built w0 n l) (_update_statvar_dcids l cfg)
        (fun _ w => row_built w0 n l w /\ Forall (has_node_id (heap w)) l)
        (fun w => heap w0 `prefix_of` heap w).
Proof.
  unfold _update_statvar_dcids.
  eapply hoare_conseq;
    [apply (hoare_for_each l _
              (fun done w => row_built w0 n l w /\ Forall (has_node_id (heap w)) done)
              (fun w => heap w0 `prefix_of` heap w))
    | intros w Hw; split; [exact Hw | constructor]
    | intros [] w Hw; exact Hw
    | auto ].
  intros done d rest Hl. apply hoare_world.
  intros w1 [(Hpre & Hcsv & Hmcf & Hlen & Hfresh) Hnodes].
  apply hoare_run. pose proof (update_statvar_dcid_run cfg d w1) as Hrun. cbv zeta in Hrun.
  match type of Hrun with
  | match ?m w1 with _ => _ end => destruct (m w1) as [[[]|e] w']
  end.
  - destruct Hrun as [Hd (sv & dcid & ->)]. unfold row_built. cbn [heap cleaned_csv output_mcf].
    assert (Hd0 : length (heap w0) <= d).
    { rewrite Forall_forall in Hfresh. apply Hfresh. rewrite Hl.
      apply list_elem_of_In, in_or_app. right. left. reflexivity. }
    repeat split; try assumption.
    + apply prefix_insert_ge; assumption.
    + eapply Forall_impl; [exact Hfresh|]. cbn beta. intros r Hr.
      rewrite length_insert. exact Hr.
    + apply Forall_app. split.
      * eapply Forall_impl; [exact Hnodes|]. intros r Hr.
        apply has_node_id_insert; assumption.
      * constructor; [|constructor]. exists dcid.
        apply node_at_insert_eq. exact Hd.
  - subst w'. exact Hpre.
Qed.
End Row.

Section RowWrite.
Context {G : DcidGenerator}.

(** The loop that writes the rows of the statvars of one source row. *)
Lemma write_rows_hoare (crime : dict pyval) (statvar_list : list ref)
    (columns : list string) (w5 : world) :
  length statvar_list = length columns ->
  hoare (fun w => w = w5)
        (for_each (enumerate columns) (fun '(idx, c) =>
           let* year := lift (getitem crime "Year") in
           let* sv := lift (list_index statvar_list idx) in
           let* d := deref sv in
           let* node := lift (getitem d "Node") in
           let* quantity := lift (getitem crime c) in
           _write_row year node quantity))
        (fun _ w =>
           heap w = heap w5 /\ output_mcf w = output_mcf w5
           /\ exists rows,
                cleaned_csv w = cleaned_csv w5 ++ rows
                /\ length rows = length columns
                /\ Forall2 (fun cell r => node_at (heap w5) r = Some cell)
                           (csv_statvars rows) statvar_list)
        (fun w => heap w = heap w5).
Proof.
  intros Hlen.
  eapply hoare_conseq;
    [apply (hoare_for_each (enumerate columns) _
              (fun done w =>
                 heap w = heap w5 /\ output_mcf w = output_mcf w5
                 /\ exists rows,
                      cleaned_csv w = cleaned_csv w5 ++ rows
                      /\ length rows = length done
                      /\ Forall2 (fun cell r => node_at (heap w5) r = Some cell)
                                 (csv_statvars rows)
                                 (take (length done) statvar_list))
              (fun w => heap w = heap w5)) | | |].
  - intros done [idx c] rest Henum. apply hoare_world.
    intros w1 (Hheap & Hmcf & rows & Hcsv & Hrows & Hcells).
    apply hoare_run. pose proof (write_statvar_run crime statvar_list idx c w1) as Hrun.
    match type of Hrun with
    | match ?m w1 with _ => _ end => destruct (m w1) as [[[]|e] w']
    end.
    + destruct Hrun as (year & r & node & quantity & _ & _ & Hidx & Hnode & ->).
      cbn [heap cleaned_csv output_mcf].
      split; [exact Hheap|]. split; [exact Hmcf|].
      exists (rows ++ [CsvRow [year; node; quantity]]).
      apply enumerate_split in Henum. subst idx.
      split; [rewrite Hcsv, <- app_assoc; reflexivity|].
      split; [rewrite !length_app; simpl; lia|].
      rewrite csv_statvars_app, length_app. simpl.
      replace (length done + 1) with (S (length done)) by lia.
      rewrite (take_S_r _ _ _ Hidx).
      apply Forall2_app; [exact Hcells|].
      constructor; [|constructor]. rewrite <- Hheap. exact Hnode.
    + subst w'. exact Hheap.
  - intros w ->. split; [reflexivity|]. split; [reflexivity|].
    exists []. rewrite app_nil_r. repeat split. constructor.
  - intros [] w (Hheap & Hmcf & rows & Hcsv & Hrows & Hcells).
    split; [exact Hheap|]. split; [exact Hmcf|]. exists rows.
    rewrite length_enumerate in Hrows, Hcells.
    rewrite take_ge in Hcells by lia. auto.
  - auto.
Qed.

(** One source row. *)
Lemma process_crime_hoare (columns : list string) (cfg : config)
    (crime : dict pyval) (w0 : world) :
  hoare (fun w => w = w0) (process_crime columns cfg crime)
        (row_post w0 (length columns))
        (fun w => heap w0 `prefix_of` heap w).
Proof.
  unfold process_crime.
  eapply hoare_bind with (Q := fun _ w => w = w0).
  { apply hoare_lift; [auto | intros w e -> _; reflexivity]. }
  intros label.
  eapply hoare_bind with (Q := fun _ w => w = w0).
  { apply hoare_lift; [auto | intros w e -> _; reflexivity]. }
  intros kv.
  eapply hoare_bind; [apply new_statvars_hoare|]. intros statvar_list.
  eapply hoare_bind; [apply update_statvars_hoare|]. intros [].
  eapply hoare_bind; [apply update_statvar_dcids_hoare|]. intros [].
  apply hoare_world.
  intros w5 [(Hpre & Hcsv & Hmcf & Hlen & Hfresh) Hnodes].
  eapply hoare_bind.
  { eapply hoare_conseq;
      [apply (write_rows_hoare crime statvar_list columns w5 Hlen)
      | auto
      | intros a w Hw; exact Hw
      | intros w Hw; cbn beta in Hw; rewrite Hw; exact Hpre ]. }
  intros []. apply hoare_ret.
  intros w (Hheap & Hmcf' & rows & Hcsv' & Hrows & Hcells).
  unfold row_post. rewrite Hheap, Hmcf', Hcsv', Hcsv.
  repeat split; try assumption. exists rows. auto.
Qed.
End RowWrite.

(** ** Rows, files and runs compose *)

Lemma Forall2_node_at_prefix (h1 h2 : list (dict pyval)) (cells : list pyval)
    (l : list ref) :
  h1 `prefix_of` h2 ->
  Forall (fun r => r < length h1) l ->
  Forall2 (fun cell r => node_at h1 r = Some cell) cells l ->
  Forall2 (fun cell r => node_at h2 r = Some cell) cells l.
Proof.
  intros Hpre Hlt Hcells. induction Hcells as [|cell r cells l Hnode _ IH].
  - constructor.
  - inversion Hlt as [|? ? Hr Hl]; subst. constructor; [|apply IH; exact Hl].
    rewrite (prefix_node_at h1 h2 r Hpre Hr). exact Hnode.
Qed.

Lemma row_post_refl (w0 : world) : row_post w0 0 [] w0.
Proof.
  unfold row_post. split; [reflexivity|]. split; [reflexivity|].
  split; [reflexivity|]. split; [constructor|]. split; [constructor|].
  exists []. rewrite app_nil_r. repeat split. constructor.
Qed.

Lemma row_post_trans (w0 w1 w2 : world) (n1 n2 : nat) (l1 l2 : list ref) :
  row_post w0 n1 l1 w1 -> row_post w1 n2 l2 w2 ->
  row_post w0 (n1 + n2) (l1 ++ l2) w2.
Proof.
  intros (Hpre1 & Hmcf1 & Hlen1 & Hfresh1 & Hnodes1 & rows1 & Hcsv1 & Hrows1 & Hcells1)
         (Hpre2 & Hmcf2 & Hlen2 & Hfresh2 & Hnodes2 & rows2 & Hcsv2 & Hrows2 & Hcells2).
  pose proof (prefix_length _ _ Hpre1) as Hle1.
  pose proof (prefix_length _ _ Hpre2) as Hle2.
  assert (Hlt1 : Forall (fun r => r < length (heap w1)) l1).
  { eapply Forall_impl; [exact Hfresh1|]. cbn beta. intros r Hr. lia. }
  unfold row_post. split; [etransitivity; eassumption|].
  split; [congruence|]. split; [rewrite length_app; lia|].
  split.
  { apply Forall_app. split.
    - eapply Forall_impl; [exact Hfresh1|]. cbn beta. intros r Hr. lia.
    - eapply Forall_impl; [exact Hfresh2|]. cbn beta. intros r Hr. lia. }
  split.
  { apply Forall_app. split; [|exact Hnodes2].
    rewrite Forall_forall in Hnodes1, Hlt1. apply Forall_forall. intros r Hr.
    destruct (Hnodes1 r Hr) as [dcid Hnode]. exists dcid.
    rewrite (prefix_node_at (heap w1) (heap w2) r Hpre2 (Hlt1 r Hr)). exact Hnode. }
  exists (rows1 ++ rows2).
  split; [rewrite Hcsv2, Hcsv1, app_assoc; reflexivity|].
  split; [rewrite length_app; lia|].
  rewrite csv_statvars_app. apply Forall2_app; [|exact Hcells2].
  eapply Forall2_node_at_prefix; eassumption.
Qed.

Lemma hoare_ext {A : Type} (m m' : M A) (P : world -> Prop)
    (Q : A -> world -> Prop) E :
  (forall w, m w = m' w) -> hoare P m' Q E -> hoare P m Q E.
Proof. intros Heq Hm w Hw. rewrite Heq. apply Hm. exact Hw. Qed.

Lemma list_remove_length (x : string) (l l' : list string) :
  list_remove x l = Ok l' -> length l = S (length l').
Proof.
  revert l'. induction l as [|y l IH]; intros l' Hrem; simpl in Hrem; [discriminate|].
  destruct (decide (x = y)).
  - injection Hrem as ->. reflexivity.
  - destruct (list_remove x l) as [r|e]; [|discriminate].
    injection Hrem as <-. simpl. f_equal. apply IH. reflexivity.
Qed.

Section Reader.
Context {G : DcidGenerator}.

(** A file, its rows handled by [body]. *)
Lemma process_reader_hoare (body : dict pyval -> M (list ref)) (ncols : nat)
    (reader : DictReader) (w0 : world) :
  (forall crime w1,
     hoare (fun w => w = w1) (body crime) (row_post w1 ncols)
           (fun w => heap w1 `prefix_of` heap w)) ->
  hoare (fun w => w = w0) (process_reader body reader)
        (row_post w0 (length (rows reader) * ncols))
        (fun w => heap w0 `prefix_of` heap w).
Proof.
  intros Hbody. unfold process_reader.
  eapply hoare_conseq;
    [apply (hoare_foldM _ (rows reader)
              (fun done statvars w => row_post w0 (length done * ncols) statvars w)
              (fun w => heap w0 `prefix_of` heap w))
    | intros w ->; apply row_post_refl
    | auto
    | auto ].
  intros done crime rest statvars _. apply hoare_world. intros w1 Hw1.
  eapply hoare_bind.
  - eapply hoare_conseq; [apply (Hbody crime w1) | auto | intros a w Hw; exact Hw |].
    intros w Hw. cbn beta in Hw. destruct Hw1 as [Hpre _]. etransitivity; eassumption.
  - intros statvar_list. apply hoare_ret. intros w Hw.
    rewrite length_app. simpl.
    replace ((length done + 1) * ncols) with (length done * ncols + ncols) by lia.
    eapply row_post_trans; eassumption.
Qed.

Lemma table5_write_output_csv_hoare (reader : DictReader) (cfg : config) (w0 : world) :
  hoare (fun w => w = w0) (Table5._write_output_csv reader cfg)
        (row_post w0 (length (rows reader) * (length (fieldnames reader) - 2)))
        (fun w => heap w0 `prefix_of` heap w).
Proof.
  unfold Table5._write_output_csv. cbv zeta.
  intros w ->. unfold bind, lift.
  destruct (list_remove "bias motivation" (fieldnames reader)) as [cols1|e] eqn:H1;
    [|reflexivity].
  destruct (list_remove "Year" cols1) as [columns|e] eqn:H2; [|reflexivity].
  apply list_remove_length in H1, H2.
  replace (length (fieldnames reader) - 2) with (length columns) by lia.
  apply (process_reader_hoare (process_crime columns cfg) (length columns) reader w0);
    [|reflexivity].
  intros crime w1. apply process_crime_hoare.
Qed.

Lemma table8_write_output_csv_hoare (reader : DictReader) (cfg : config) (w0 : world) :
  hoare (fun w => w = w0) (Table8._write_output_csv reader cfg)
        (row_post w0 (length (rows reader) * 7))
        (fun w => heap w0 `prefix_of` heap w).
Proof.
  eapply hoare_ext; [apply table8_write_output_csv|].
  apply (process_reader_hoare (process_crime table8_columns cfg) 7 reader w0).
  intros crime w1. apply (process_crime_hoare table8_columns).
Qed.



End Reader.

(** ** Copies of templates *)

Lemma dict_set_fresh {V : Type} (k : string) (v : V) (d : dict V) :
  ~ In k (map fst d) -> dict_set k v d = d ++ [(k, v)].
Proof.
  induction d as [|[k' v'] d IH]; intros Hk; simpl; [reflexivity|].
  destruct (decide (k = k')) as [->|Hne].
  - exfalso. apply Hk. left. reflexivity.
  - f_equal. apply IH. intros Hin. apply Hk. right. exact Hin.
Qed.

Lemma dict_update_fresh {V : Type} (acc d : dict V) :
  dict_wf (acc ++ d) -> dict_update acc d = acc ++ d.
Proof.
  unfold dict_wf, dict_update. revert acc.
  induction d as [|[k v] d IH]; intros acc Hwf; simpl.
  - rewrite app_nil_r. reflexivity.
  - rewrite map_app in Hwf. simpl in Hwf.
    apply NoDup_app in Hwf. destruct Hwf as (Hacc & Hdisj & Hd).
    rewrite dict_set_fresh.
    + rewrite IH; [rewrite <- app_assoc; reflexivity|].
      rewrite !map_app. simpl. rewrite <- app_assoc. simpl.
      apply NoDup_app. repeat split; assumption.
    + intros Hin. apply list_elem_of_In in Hin. apply (Hdisj k Hin). left.
Qed.

(** [{**d}] has the items of [d], in their order. *)
Lemma dict_copy_wf {V : Type} (d : dict V) : dict_wf d -> dict_copy d = d.
Proof. intros Hwf. unfold dict_copy. rewrite dict_update_fresh; auto. Qed.

(** C7.  Processing the rows of a file leaves the templates unchanged.  A
    statvar starts as a new object that holds a copy of the template of its
    column, with the items of the template; whether [_write_output_csv]
    returns or raises, the template behind [config['populationType'][c]] is
    afterwards what it was, as is every object that existed (the heap before
    is a prefix of the heap after), and the statvars returned are objects
    that did not exist before.  This holds for table 5 and for table 8. *)
Theorem templates_never_mutated (G : DcidGenerator) (reader : DictReader)
    (cfg : config) (w : world) (c : string) (t : ref) (template : dict pyval) :
  dict_get c (populationType cfg) = Some t ->
  heap w !! t = Some template ->
  new_statvar cfg c w
  = (Ok (length (heap w)),
     World (heap w ++ [dict_copy template]) (cleaned_csv w) (output_mcf w))
  /\ (dict_wf template -> dict_copy template = template)
  /\ heap (Table5._write_output_csv reader cfg w).2 !! t = Some template
  /\ heap (Table8._write_output_csv reader cfg w).2 !! t = Some template
  /\ heap w `prefix_of` heap (Table5._write_output_csv reader cfg w).2
  /\ heap w `prefix_of` heap (Table8._write_output_csv reader cfg w).2
  /\ (forall statvars, (Table5._write_output_csv reader cfg w).1 = Ok statvars ->
        Forall (fun r => length (heap w) <= r) statvars)
  /\ (forall statvars, (Table8._write_output_csv reader cfg w).1 = Ok statvars ->
        Forall (fun r => length (heap w) <= r) statvars).
Proof.
  intros Hc Ht.
  pose proof (table5_write_output_csv_hoare reader cfg w w eq_refl) as H5.
  pose proof (table8_write_output_csv_hoare reader cfg w w eq_refl) as H8.
  assert (Hpre5 : heap w `prefix_of` heap (Table5._write_output_csv reader cfg w).2).
  { destruct (Table5._write_output_csv reader cfg w) as [[l|e] w']; [|exact H5].
    destruct H5 as [Hpre _]. exact Hpre. }
  assert (Hpre8 : heap w `prefix_of` heap (Table8._write_output_csv reader cfg w).2).
  { destruct (Table8._write_output_csv reader cfg w) as [[l|e] w']; [|exact H8].
    destruct H8 as [Hpre _]. exact Hpre. }
  split.
  { unfold new_statvar, bind, lift, getitem, deref, alloc. rewrite Hc, Ht. reflexivity. }
  split; [apply dict_copy_wf|].
  split; [eapply prefix_lookup_Some; eassumption|].
  split; [eapply prefix_lookup_Some; eassumption|].
  split; [exact Hpre5|]. split; [exact Hpre8|].
  split.
  - intros statvars Hres.
    destruct (Table5._write_output_csv reader cfg w) as [[l|e] w']; [|discriminate].
    injection Hres as ->. destruct H5 as (_ & _ & _ & Hfresh & _).
    eapply Forall_impl; [exact Hfresh|]. cbn beta. intros r Hr. lia.
  - intros statvars Hres.
    destruct (Table8._write_output_csv reader cfg w) as [[l|e] w']; [|discriminate].
    injection Hres as ->. destruct H8 as (_ & _ & _ & Hfresh & _).
    eapply Forall_impl; [exact Hfresh|]. cbn beta. intros r Hr. lia.
Qed.

Lemma templates_never_mutated_witness :
  let template :=
    [("populationType", PyStr "CriminalIncidents"); ("offenderRace", PyStr "White")] in
  dict_get "white" (populationType sample_config) = Some 0
  /\ heap sample_world !! 0 = Some template
  /\ heap (@Table5._write_output_csv sample_dcid sample_reader sample_config
             sample_world).2 !! 0 = Some template
  /\ heap (@Table8._write_output_csv sample_dcid sample_reader sample_config
             sample_world).2 !! 0 = Some template.
Proof.
  intros template.
  assert (Hc : dict_get "white" (populationType sample_config) = Some 0) by reflexivity.
  assert (Ht : heap sample_world !! 0 = Some template) by reflexivity.
  destruct (templates_never_mutated sample_dcid sample_reader sample_config
              sample_world "white" 0 template Hc Ht)
    as (_ & _ & H5 & H8 & _).
  exact (conj Hc (conj Ht (conj H5 H8))).
Defined.

(** ** Unmapped labels *)

Lemma foldM_raises {A S : Type} (body : S -> A -> M S) (l : list A) (x : A) :
  In x l ->
  (forall s w, exists e w', body s x w = (Raise e, w')) ->
  forall s w, exists e w', foldM body s l w = (Raise e, w').
Proof.
  intros Hin Hx. induction l as [|y l IH]; intros s w; [destruct Hin|].
  cbn [foldM]. unfold bind.
  destruct Hin as [->|Hin].
  - destruct (Hx s w) as (e & w' & ->). eauto.
  - destruct (body s y w) as [[s'|e] w']; [apply (IH Hin) | eauto].
Qed.

(** C8.  A row whose label is not a key of [config['pvs']] makes the row
    processing raise [KeyError] on the label, before any statvar is built
    and before anything is written; a file with such a row makes
    [_write_output_csv] raise, in table 5 and in table 8: the row is not
    skipped and no default property/value pairs are used. *)
Theorem unmapped_label_raises (G : DcidGenerator) (columns : list string)
    (cfg : config) (crime : dict pyval) (label : string) (reader : DictReader)
    (w : world) :
  dict_get "bias motivation" crime = Some (PyStr label) ->
  dict_get label (pvs cfg) = None ->
  process_crime columns cfg crime w = (Raise (KeyError (PyStr label)), w)
  /\ Table8.process_crime cfg crime w = (Raise (KeyError (PyStr label)), w)
  /\ (In crime (rows reader) ->
      (exists e w', Table5._write_output_csv reader cfg w = (Raise e, w'))
      /\ (exists e w', Table8._write_output_csv reader cfg w = (Raise e, w'))).
Proof.
  intros Hlabel Hpvs.
  assert (Hrow : forall columns' w1,
             process_crime columns' cfg crime w1 = (Raise (KeyError (PyStr label)), w1)).
  { intros columns' w1. unfold process_crime, bind, lift, getitem_val, getitem.
    rewrite Hlabel, Hpvs. reflexivity. }
  split; [apply Hrow|].
  split; [rewrite table8_process_crime; apply Hrow|].
  intros Hin. split.
  - unfold Table5._write_output_csv. cbv zeta. unfold bind at 1, lift at 1.
    destruct (list_remove "bias motivation" (fieldnames reader)) as [cols1|e]; [|eauto].
    unfold bind at 1, lift at 1.
    destruct (list_remove "Year" cols1) as [cols|e]; [|eauto].
    unfold process_reader. apply (foldM_raises _ (rows reader) crime Hin).
    intros s w1. unfold bind. rewrite Hrow. eauto.
  - rewrite table8_write_output_csv.
    unfold process_reader. apply (foldM_raises _ (rows reader) crime Hin).
    intros s w1. unfold bind. rewrite Hrow. eauto.
Qed.

Lemma unmapped_label_raises_witness :
  let crime := [("Year", PyStr "2019"); ("bias motivation", PyStr "Anti-Martian");
                ("white", PyStr "1"); ("black or african american", PyStr "0")] in
  let reader := Reader (fieldnames sample_reader) (rows sample_reader ++ [crime]) in
  @process_crime sample_dcid ["white"; "black or african american"] sample_config
     crime sample_world
  = (Raise (KeyError (PyStr "Anti-Martian")), sample_world)
  /\ exists e w', @Table5._write_output_csv sample_dcid reader sample_config sample_world
                  = (Raise e, w').
Proof.
  intros crime reader.
  destruct (unmapped_label_raises sample_dcid ["white"; "black or african american"]
              sample_config crime "Anti-Martian" reader sample_world)
    as (Hrow & _ & Hfile); [reflexivity | reflexivity |].
  split; [exact Hrow|].
  apply Hfile. simpl. right. right. left. reflexivity.
Defined.

(** ** The metadata serialiser *)

Lemma str_app_cons (x : ascii) (a b : string) : String x a +:+ b = String x (a +:+ b).
Proof. reflexivity. Qed.

Lemma str_app_nil_l (a : string) : EmptyString +:+ a = a.
Proof. reflexivity. Qed.

Lemma str_app_assoc (a b c : string) : (a +:+ b) +:+ c = a +:+ b +:+ c.
Proof.
  induction a as [|x a IH]; [reflexivity|].
  rewrite !str_app_cons. f_equal. exact IH.
Qed.

Lemma str_app_nil_r (a : string) : a +:+ EmptyString = a.
Proof.
  induction a as [|x a IH]; [reflexivity|].
  rewrite str_app_cons. f_equal. exact IH.
Qed.

Lemma statvar_mcf_lines_body (sv : dict pyval) : statvar_mcf_lines sv = mcf_body sv.
Proof.
  unfold statvar_mcf_lines, mcf_body.
  assert (Hgen : forall acc,
    fold_left
      (fun (statvar_mcf_list : list string) '(p, v) =>
         if decide (p <> "Node")
         then statvar_mcf_list ++ [p +:+ ": dcs:" +:+ py_str v]
         else statvar_mcf_list) sv acc
    = acc ++ map (fun kv : string * pyval => kv.1 +:+ ": dcs:" +:+ py_str kv.2)
                 (filter (fun kv : string * pyval => kv.1 <> "Node") sv)).
  { induction sv as [|[p v] sv IH]; intros acc.
    - simpl. rewrite app_nil_r. reflexivity.
    - cbn [fold_left]. rewrite IH, filter_cons. cbn [fst].
      destruct (decide (p <> "Node")); [|reflexivity].
      cbn [map fst snd]. rewrite <- app_assoc. reflexivity. }
  apply (Hgen []).
Qed.

Lemma carries_node_val (sv : dict pyval) (dcid : string) :
  dict_get "Node" sv = Some (PyStr dcid) -> node_val sv = PyStr dcid.
Proof. intros H. unfold node_val, dict_get_default. rewrite H. reflexivity. Qed.

(** One iteration does not change the world. *)
Lemma create_mcf_step_world (st : gset pyval * string) (r : ref) (w : world) :
  (_create_mcf_step st r w).2 = w.
Proof.
  destruct st as [dcid_set final_mcf].
  unfold _create_mcf_step, bind, deref, lift, ret.
  destruct (heap w !! r) as [sv|]; [|reflexivity].
  destruct (getitem sv "Node") as [dcid|e]; [|reflexivity].
  destruct (decide (dcid ∈ dcid_set)); [reflexivity|].
  destruct (str_add "Node: dcid:" dcid); reflexivity.
Qed.

(** One iteration on a statvar that carries an identifier. *)
Lemma create_mcf_step_node (dcid_set : gset pyval) (final_mcf : string) (r : ref)
    (sv : dict pyval) (w : world) :
  heap w !! r = Some sv ->
  carries_node sv ->
  _create_mcf_step (dcid_set, final_mcf) r w
  = if decide (node_val sv ∈ dcid_set) then (Ok (dcid_set, final_mcf), w)
    else (Ok (dcid_set ∪ {[node_val sv]},
              final_mcf +:+ mcf_text [sv]), w).
Proof.
  intros Hr [dcid Hnode]. rewrite (carries_node_val sv dcid Hnode).
  unfold _create_mcf_step, bind, deref, lift, ret, getitem. rewrite Hr, Hnode.
  destruct (decide (PyStr dcid ∈ dcid_set)); [reflexivity|].
  cbn [str_add]. rewrite statvar_mcf_lines_body.
  unfold mcf_text, mcf_header. cbn [fold_right].
  rewrite (carries_node_val sv dcid Hnode). cbn [py_str].
  rewrite str_app_nil_r. reflexivity.
Qed.

Lemma mcf_text_cons (sv : dict pyval) (nodes : list (dict pyval)) :
  mcf_text (sv :: nodes) = mcf_text [sv] +:+ mcf_text nodes.
Proof.
  unfold mcf_text. cbn [fold_right]. rewrite str_app_nil_r.
  rewrite !str_app_assoc. reflexivity.
Qed.

(** The loop of [_create_mcf], started with any set of identifiers. *)
Lemma create_mcf_loop (w : world) (stat_vars : list ref) (svs : list (dict pyval)) :
  Forall2 (fun r sv => heap w !! r = Some sv) stat_vars svs ->
  Forall carries_node svs ->
  forall (dcid_set : gset pyval) (final_mcf : string),
  exists dcid_set',
    foldM _create_mcf_step (dcid_set, final_mcf) stat_vars w
    = (Ok (dcid_set',
           final_mcf
           +:+ mcf_text (filter (fun sv => node_val sv ∉ dcid_set) (first_seen svs))),
       w).
Proof.
  intros Hrefs. induction Hrefs as [|r sv stat_vars svs Hr _ IH]; intros Hnodes S text.
  - exists S. cbn. rewrite str_app_nil_r. reflexivity.
  - inversion Hnodes as [|? ? Hsv Hsvs]; subst.
    cbn [foldM first_seen]. unfold bind.
    rewrite (create_mcf_step_node S text r sv w Hr Hsv).
    destruct (decide (node_val sv ∈ S)) as [Hin|Hnin].
    + destruct (IH Hsvs S text) as [S' ->]. exists S'.
      rewrite filter_cons_False by (intros Hn; apply Hn; exact Hin).
      rewrite list_filter_filter_l; [reflexivity|].
      intros sv' Hsv' Heq. apply Hsv'. rewrite Heq. exact Hin.
    + destruct (IH Hsvs (S ∪ {[node_val sv]}) (text +:+ mcf_text [sv])) as [S' ->].
      exists S'. rewrite filter_cons_True by exact Hnin.
      rewrite list_filter_filter.
      rewrite (mcf_text_cons sv (filter _ (first_seen svs))), str_app_assoc.
      do 6 f_equal. apply list_filter_iff. intros sv'.
      rewrite not_elem_of_union, not_elem_of_singleton. reflexivity.
Qed.

Lemma filter_not_in_empty (S : gset pyval) (l : list (dict pyval)) :
  S = ∅ -> filter (fun sv => node_val sv ∉ S) l = l.
Proof.
  intros ->. induction l as [|sv l IH]; [reflexivity|].
  rewrite filter_cons_True by apply not_elem_of_empty. f_equal. exact IH.
Qed.

(** [_create_mcf] on statvars that carry identifiers: the file holds the
    text of the first-seen statvars. *)
Lemma create_mcf_run (w : world) (stat_vars : list ref) (svs : list (dict pyval)) :
  Forall2 (fun r sv => heap w !! r = Some sv) stat_vars svs ->
  Forall carries_node svs ->
  _create_mcf stat_vars w
  = (Ok tt, World (heap w) (cleaned_csv w) (Some (mcf_text (first_seen svs)))).
Proof.
  intros Hrefs Hnodes. unfold _create_mcf, bind.
  destruct (create_mcf_loop w stat_vars svs Hrefs Hnodes ∅ EmptyString) as [S' ->].
  rewrite filter_not_in_empty by reflexivity. reflexivity.
Qed.

(** ** First-seen statvars *)

Lemma first_seen_In (svs : list (dict pyval)) (sv : dict pyval) :
  In sv (first_seen svs) -> In sv svs.
Proof.
  revert sv. induction svs as [|sv0 svs IH]; intros sv Hin; [destruct Hin|].
  destruct Hin as [->|Hin]; [left; reflexivity|].
  right. apply IH. apply list_elem_of_In in Hin.
  apply list_elem_of_filter in Hin. apply list_elem_of_In. tauto.
Qed.

Lemma NoDup_map_filter {A B : Type} (f : A -> B) (P : A -> Prop)
    `{!forall x, Decision (P x)} (l : list A) :
  NoDup (map f l) -> NoDup (map f (filter P l)).
Proof.
  induction l as [|x l IH]; intros Hnd; [constructor|].
  cbn [map] in Hnd. apply NoDup_cons in Hnd. destruct Hnd as [Hx Hl].
  rewrite filter_cons. destruct (decide (P x)); [|apply IH; exact Hl].
  cbn [map]. apply NoDup_cons. split; [|apply IH; exact Hl].
  intros Hin. apply Hx. apply list_elem_of_In in Hin. apply list_elem_of_In.
  apply in_map_iff in Hin. destruct Hin as (y & <- & Hy).
  apply in_map. apply list_elem_of_In in Hy. apply list_elem_of_filter in Hy.
  apply list_elem_of_In. tauto.
Qed.

(** Each identifier has one statvar among the first-seen. *)
Lemma first_seen_NoDup (svs : list (dict pyval)) :
  NoDup (map node_val (first_seen svs)).
Proof.
  induction svs as [|sv svs IH]; [constructor|].
  cbn [first_seen map]. apply NoDup_cons. split.
  - intros Hin. apply list_elem_of_In, in_map_iff in Hin.
    destruct Hin as (sv' & Heq & Hin).
    apply list_elem_of_In, list_elem_of_filter in Hin. destruct Hin as [Hne _].
    contradiction.
  - apply NoDup_map_filter. exact IH.
Qed.

(** The first-seen statvars carry the identifiers of the list, no other. *)
Lemma first_seen_ids (svs : list (dict pyval)) (v : pyval) :
  In v (map node_val (first_seen svs)) <-> In v (map node_val svs).
Proof.
  induction svs as [|sv svs IH]; [reflexivity|].
  cbn [first_seen map In]. rewrite <- IH. split.
  - intros [H|H]; [left; exact H|]. right.
    apply in_map_iff in H. destruct H as (sv' & <- & Hin).
    apply in_map. apply list_elem_of_In, list_elem_of_filter in Hin.
    apply list_elem_of_In. tauto.
  - intros [H|H]; [left; exact H|].
    destruct (decide (v = node_val sv)) as [->|Hne]; [left; reflexivity|].
    right. apply in_map_iff in H. destruct H as (sv' & <- & Hin).
    apply in_map. apply list_elem_of_In, list_elem_of_filter.
    split; [exact Hne | apply list_elem_of_In; exact Hin].
Qed.

(** They come in the order of the list. *)
Lemma first_seen_sublist (svs : list (dict pyval)) : first_seen svs `sublist_of` svs.
Proof.
  induction svs as [|sv svs IH]; [constructor|].
  cbn [first_seen]. apply sublist_skip.
  etransitivity; [apply sublist_filter | exact IH].
Qed.

(** Each is the first statvar of the list with its identifier. *)
Lemma first_seen_first (svs : list (dict pyval)) (sv : dict pyval) :
  In sv (first_seen svs) ->
  exists l1 l2, svs = l1 ++ sv :: l2 /\ ~ In (node_val sv) (map node_val l1).
Proof.
  revert sv. induction svs as [|sv0 svs IH]; intros sv Hin; [destruct Hin|].
  destruct Hin as [->|Hin].
  - exists [], svs. split; [reflexivity | intros []].
  - apply list_elem_of_In, list_elem_of_filter in Hin. destruct Hin as [Hne Hin].
    apply list_elem_of_In in Hin. destruct (IH sv Hin) as (l1 & l2 & -> & Hl1).
    exists (sv0 :: l1), l2. split; [reflexivity|].
    intros [Heq|Hin']; [apply Hne; symmetry; exact Heq | exact (Hl1 Hin')].
Qed.

(** ** The text of the metadata file as lines *)

Lemma unlines_app (a b : list string) : unlines (a ++ b) = unlines a +:+ unlines b.
Proof.
  induction a as [|l a IH]; [reflexivity|].
  cbn [app unlines fold_right]. fold (unlines (a ++ b)). fold (unlines a).
  rewrite IH, !str_app_assoc. reflexivity.
Qed.

Lemma concat_nl_unlines (ls : list string) :
  ls <> [] -> String.concat nl ls +:+ nl = unlines ls.
Proof.
  induction ls as [|l ls IH]; intros Hne; [contradiction|].
  destruct ls as [|l' ls].
  - cbn [String.concat unlines fold_right]. reflexivity.
  - change (String.concat nl (l :: l' :: ls))
      with (l +:+ nl +:+ String.concat nl (l' :: ls)).
    change (unlines (l :: l' :: ls)) with (l +:+ nl +:+ unlines (l' :: ls)).
    rewrite <- IH by discriminate. rewrite !str_app_assoc. reflexivity.
Qed.

(** With a property in every node, the text that [_create_mcf] builds is the
    document of the specification. *)
Lemma mcf_text_document (nodes : list (dict pyval)) :
  Forall (fun sv => mcf_body sv <> []) nodes ->
  mcf_text nodes = mcf_document nodes.
Proof.
  unfold mcf_document. induction 1 as [|sv nodes Hsv _ IH]; [reflexivity|].
  change (mcf_text (sv :: nodes))
    with ((mcf_header sv +:+ nl +:+ String.concat nl (mcf_body sv))
          +:+ nl +:+ nl +:+ mcf_text nodes).
  cbn [flat_map]. rewrite unlines_app, <- IH.
  change (unlines ((mcf_header sv :: mcf_body sv) ++ [EmptyString]))
    with (mcf_header sv +:+ nl +:+ unlines (mcf_body sv ++ [EmptyString])).
  rewrite unlines_app, <- (concat_nl_unlines (mcf_body sv) Hsv).
  change (unlines [EmptyString]) with (EmptyString +:+ nl +:+ EmptyString).
  rewrite str_app_nil_l, str_app_nil_r, !str_app_assoc. reflexivity.
Qed.

(** C2 (amended).  For statvars that each carry an identifier and at least
    one other property, [_create_mcf] writes the document made of one block
    per first-seen statvar and one blank line after each block, the block
    being the header line [Node: dcid:<identifier>] and, for every other
    property in insertion order, the line [<property>: dcs:<value>].  The
    first-seen statvars are one per distinct identifier, they carry every
    identifier of the list, they come in the order of the list, and each is
    the first of the list with its identifier. *)
Theorem create_mcf_serialization (w : world) (stat_vars : list ref)
    (svs : list (dict pyval)) :
  Forall2 (fun r sv => heap w !! r = Some sv) stat_vars svs ->
  Forall carries_node svs ->
  Forall (fun sv => mcf_body sv <> []) svs ->
  _create_mcf stat_vars w
  = (Ok tt, World (heap w) (cleaned_csv w) (Some (mcf_document (first_seen svs))))
  /\ NoDup (map node_val (first_seen svs))
  /\ (forall v, In v (map node_val (first_seen svs)) <-> In v (map node_val svs))
  /\ first_seen svs `sublist_of` svs
  /\ (forall sv, In sv (first_seen svs) ->
        exists l1 l2, svs = l1 ++ sv :: l2 /\ ~ In (node_val sv) (map node_val l1)).
Proof.
  intros Hrefs Hnodes Hbody. split.
  - rewrite (create_mcf_run w stat_vars svs Hrefs Hnodes).
    rewrite mcf_text_document; [reflexivity|].
    rewrite Forall_forall in Hbody. apply Forall_forall. intros sv Hin.
    apply Hbody. apply list_elem_of_In, first_seen_In, list_elem_of_In. exact Hin.
  - split; [apply first_seen_NoDup|]. split; [apply first_seen_ids|].
    split; [apply first_seen_sublist | apply first_seen_first].
Qed.

Lemma create_mcf_serialization_witness :
  _create_mcf [0; 1; 2] (World sample_statvars [] None)
  = (Ok tt,
     World sample_statvars []
       (Some ("Node: dcid:Count_CriminalIncidents_White" +:+ nl
              +:+ "populationType: dcs:CriminalIncidents" +:+ nl
              +:+ "offenderRace: dcs:White" +:+ nl
              +:+ nl
              +:+ "Node: dcid:Count_CriminalIncidents" +:+ nl
              +:+ "populationType: dcs:CriminalIncidents" +:+ nl
              +:+ nl))).
Proof.
  destruct (create_mcf_serialization (World sample_statvars [] None) [0; 1; 2]
              sample_statvars) as [Hrun _].
  - repeat constructor.
  - repeat constructor; eexists; reflexivity.
  - repeat constructor; discriminate.
  - rewrite Hrun. reflexivity.
Defined.

(** C2 as the specification states it fails for a statvar with no property
    besides ['Node']: the join of no lines is the empty string, so the
    header is followed by three ends of line and two blank lines separate
    the block from the next. *)
Lemma create_mcf_empty_body_two_blank_lines :
  let svs := [[("Node", PyStr "a")]; [("Node", PyStr "b")]] in
  let w := World svs [] None in
  Forall2 (fun r sv => heap w !! r = Some sv) [0; 1] svs
  /\ Forall carries_node svs
  /\ output_mcf (_create_mcf [0; 1] w).2
     = Some ("Node: dcid:a" +:+ nl +:+ nl +:+ nl
             +:+ "Node: dcid:b" +:+ nl +:+ nl +:+ nl)
  /\ output_mcf (_create_mcf [0; 1] w).2 <> Some (mcf_document (first_seen svs)).
Proof.
  intros svs w. split; [repeat constructor|].
  split; [repeat constructor; eexists; reflexivity|].
  split; [reflexivity|]. vm_compute. discriminate.
Qed.

(** ** Deduplication is by identifier only *)

Lemma foldM_app {A S : Type} (body : S -> A -> M S) (l1 l2 : list A) (s : S) (w : world) :
  foldM body s (l1 ++ l2) w = bind (foldM body s l1) (fun s' => foldM body s' l2) w.
Proof.
  revert s w. induction l1 as [|x l1 IH]; intros s w; [reflexivity|].
  cbn [app foldM]. rewrite bind_assoc. apply bind_cong. intros s' w'. apply IH.
Qed.

Lemma bind_cong_run {A B : Type} (m : M A) (k k' : A -> M B) (w : world) :
  (forall a w', m w = (Ok a, w') -> k a w' = k' a w') -> bind m k w = bind m k' w.
Proof.
  intros Hk. unfold bind. destruct (m w) as [[a|e] w']; [apply Hk | ]; reflexivity.
Qed.

Lemma create_mcf_loop_world (l : list ref) (st : gset pyval * string) (w : world) :
  (foldM _create_mcf_step st l w).2 = w.
Proof.
  revert st. induction l as [|r l IH]; intros st; [reflexivity|].
  cbn [foldM]. unfold bind.
  pose proof (create_mcf_step_world st r w) as Hw.
  destruct (_create_mcf_step st r w) as [[st'|e] w']; cbn [snd] in Hw; subst w'.
  - apply IH.
  - reflexivity.
Qed.

(** An iteration that returns has the identifier of its statvar in the set,
    and keeps the identifiers of the set. *)
Lemma create_mcf_step_adds (dcid_set dcid_set' : gset pyval) (t t' : string)
    (r : ref) (sv : dict pyval) (w w' : world) :
  heap w !! r = Some sv ->
  _create_mcf_step (dcid_set, t) r w = (Ok (dcid_set', t'), w') ->
  dcid_set ⊆ dcid_set' /\ exists v, dict_get "Node" sv = Some v /\ v ∈ dcid_set'.
Proof.
  intros Hr. unfold _create_mcf_step, bind, deref, lift, ret, getitem. rewrite Hr.
  destruct (dict_get "Node" sv) as [v|]; [|discriminate].
  destruct (decide (v ∈ dcid_set)) as [Hin|Hnin].
  - intros [= <- <- <-]. split; [reflexivity | eauto].
  - destruct (str_add "Node: dcid:" v); [|discriminate].
    intros [= <- <- <-]. split.
    + apply union_subseteq_l.
    + exists v. split; [reflexivity|]. apply elem_of_union_r, elem_of_singleton.
      reflexivity.
Qed.

Lemma create_mcf_step_mono (dcid_set dcid_set' : gset pyval) (t t' : string)
    (r : ref) (w w' : world) :
  _create_mcf_step (dcid_set, t) r w = (Ok (dcid_set', t'), w') ->
  dcid_set ⊆ dcid_set'.
Proof.
  destruct (heap w !! r) as [sv|] eqn:Hr.
  - intros Hstep. apply (create_mcf_step_adds _ _ _ _ _ _ _ _ Hr Hstep).
  - unfold _create_mcf_step, bind, deref. rewrite Hr. discriminate.
Qed.

Lemma create_mcf_loop_mono (l : list ref) (dcid_set dcid_set' : gset pyval)
    (t t' : string) (w w' : world) :
  foldM _create_mcf_step (dcid_set, t) l w = (Ok (dcid_set', t'), w') ->
  dcid_set ⊆ dcid_set'.
Proof.
  revert dcid_set t w. induction l as [|r l IH]; intros S t w.
  - cbn. intros [= <- <- <-]. reflexivity.
  - cbn [foldM]. unfold bind.
    destruct (_create_mcf_step (S, t) r w) as [[[S1 t1]|e] w1] eqn:Hstep; [|discriminate].
    intros Hloop. apply create_mcf_step_mono in Hstep. apply IH in Hloop.
    etransitivity; eassumption.
Qed.

(** An iteration on a statvar whose identifier is in the set changes
    nothing, whatever the other properties of the statvar. *)
Lemma create_mcf_step_seen (dcid_set : gset pyval) (t : string) (r : ref)
    (sv : dict pyval) (v : pyval) (w : world) :
  heap w !! r = Some sv -> dict_get "Node" sv = Some v -> v ∈ dcid_set ->
  _create_mcf_step (dcid_set, t) r w = (Ok (dcid_set, t), w).
Proof.
  intros Hr Hnode Hin. unfold _create_mcf_step, bind, deref, lift, ret, getitem.
  rewrite Hr, Hnode. destruct (decide (v ∈ dcid_set)); [reflexivity | contradiction].
Qed.

(** C9.  Deduplication is by identifier only.  A statvar whose identifier
    is carried by an earlier statvar of the list does not influence what
    [_create_mcf] does, whatever its other properties: the run with it is
    the run without it, with the same file or the same exception.  In
    particular, of two statvars with one identifier the file holds the
    properties of the first, and nothing is raised about the second. *)
Theorem create_mcf_dedup_by_identifier (w : world)
    (before between after : list ref) (r1 r2 : ref) (sv1 sv2 : dict pyval) :
  heap w !! r1 = Some sv1 ->
  heap w !! r2 = Some sv2 ->
  dict_get "Node" sv1 = dict_get "Node" sv2 ->
  _create_mcf (before ++ r1 :: between ++ r2 :: after) w
  = _create_mcf (before ++ r1 :: between ++ after) w
  /\ (carries_node sv1 ->
      _create_mcf [r1; r2] w
      = (Ok tt, World (heap w) (cleaned_csv w) (Some (mcf_text [sv1])))).
Proof.
  intros Hr1 Hr2 Hnode.
  assert (Hskip : forall before' between' after',
             _create_mcf (before' ++ r1 :: between' ++ r2 :: after') w
             = _create_mcf (before' ++ r1 :: between' ++ after') w).
  { intros before' between' after'. unfold _create_mcf.
    assert (Hloop : foldM _create_mcf_step (∅, EmptyString)
                          (before' ++ r1 :: between' ++ r2 :: after') w
                    = foldM _create_mcf_step (∅, EmptyString)
                            (before' ++ r1 :: between' ++ after') w).
    { rewrite !(foldM_app _ before'). apply bind_cong_run. intros [S0 t0] w1 H0.
      pose proof (create_mcf_loop_world before' (∅, EmptyString) w) as Hw.
      rewrite H0 in Hw. cbn [snd] in Hw. subst w1.
      cbn [foldM]. apply bind_cong_run. intros [S1 t1] w1 Hstep1.
      pose proof (create_mcf_step_world (S0, t0) r1 w) as Hw.
      rewrite Hstep1 in Hw. cbn [snd] in Hw. subst w1.
      rewrite !(foldM_app _ between'). apply bind_cong_run. intros [S2 t2] w2 H2.
      pose proof (create_mcf_loop_world between' (S1, t1) w) as Hw.
      rewrite H2 in Hw. cbn [snd] in Hw. subst w2.
      destruct (create_mcf_step_adds _ _ _ _ _ _ _ _ Hr1 Hstep1) as [_ (v & Hv & Hin)].
      apply create_mcf_loop_mono in H2.
      cbn [foldM]. unfold bind at 1.
      rewrite (create_mcf_step_seen S2 t2 r2 sv2 v w Hr2); [reflexivity | congruence |].
      apply H2. exact Hin. }
    unfold bind. rewrite Hloop. reflexivity. }
  split; [apply Hskip|].
  intros Hcarries. change (_create_mcf [r1; r2] w)
    with (_create_mcf ([] ++ r1 :: [] ++ r2 :: []) w).
  rewrite (Hskip [] [] []). cbn [app].
  rewrite (create_mcf_run w [r1] [sv1]); [reflexivity | | ]; repeat constructor; assumption.
Qed.

Lemma create_mcf_dedup_by_identifier_witness :
  _create_mcf [0; 1; 2] (World sample_statvars [] None)
  = _create_mcf [0; 1] (World sample_statvars [] None).
Proof.
  destruct (create_mcf_dedup_by_identifier (World sample_statvars [] None)
              [] [1] [] 0 2
              [("populationType", PyStr "CriminalIncidents");
               ("offenderRace", PyStr "White");
               ("Node", PyStr "Count_CriminalIncidents_White")]
              [("Node", PyStr "Count_CriminalIncidents_White");
               ("offenderRace", PyStr "Unknown")])
    as [Hskip _]; [reflexivity | reflexivity | reflexivity |].
  exact Hskip.
Defined.

(** ** The identifiers of the two outputs *)







(** ** The observations of a canonical table *)

Section FreshObjects.
Implicit Types (base pre post : list (dict pyval)).

Lemma lookup_fresh base pre (sv : dict pyval) post :
  (base ++ pre ++ sv :: post) !! (length base + length pre) = Some sv.
Proof.
  rewrite app_assoc. apply list_lookup_middle. rewrite length_app. reflexivity.
Qed.

Lemma insert_fresh base pre (sv x : dict pyval) post :
  <[length base + length pre := x]> (base ++ pre ++ sv :: post)
  = base ++ pre ++ x :: post.
Proof.
  rewrite !app_assoc. rewrite insert_app_r_alt by (rewrite length_app; lia).
  rewrite length_app, Nat.sub_diag. reflexivity.
Qed.

(** A loop over the new objects that replaces each of them. *)
Lemma for_each_fresh (body : ref -> M unit) (f : dict pyval -> dict pyval)
    (P : dict pyval -> Prop) base (csv : list csv_line) (mcf : option string) :
  (forall pre sv post, P sv ->
     body (length base + length pre) (World (base ++ pre ++ sv :: post) csv mcf)
     = (Ok tt, World (base ++ pre ++ f sv :: post) csv mcf)) ->
  forall todo done, Forall P todo ->
    for_each (seq (length base + length done) (length todo)) body
             (World (base ++ done ++ todo) csv mcf)
    = (Ok tt, World (base ++ done ++ map f todo) csv mcf).
Proof.
  intros Hbody todo. induction todo as [|sv todo IH]; intros done HP.
  - reflexivity.
  - inversion HP as [|? ? Hsv Htodo]; subst.
    cbn [length seq for_each map]. unfold bind. rewrite (Hbody done sv todo Hsv).
    specialize (IH (done ++ [f sv]) Htodo).
    rewrite length_app in IH. cbn [length] in IH.
    replace (length base + (length done + 1)) with (S (length base + length done)) in IH by lia.
    rewrite <- !app_assoc in IH. exact IH.
Qed.
End FreshObjects.

Section Canonical.
Context {G : DcidGenerator}.
Variable cfg : config.
Variable h : list (dict pyval).

Lemma new_statvar_canonical (c : string) (ext : list (dict pyval))
    (csv : list csv_line) (mcf : option string) :
  (exists t, dict_get c (populationType cfg) = Some t /\ t < length h) ->
  new_statvar cfg c (World (h ++ ext) csv mcf)
  = (Ok (length (h ++ ext)),
     World ((h ++ ext) ++ [dict_copy (template_of cfg h c)]) csv mcf).
Proof.
  intros (t & Ht & Hlt). unfold new_statvar, bind, lift, getitem, deref, alloc.
  rewrite Ht. cbn [heap cleaned_csv output_mcf].
  rewrite lookup_app_l by exact Hlt.
  destruct (lookup_lt_is_Some_2 h t Hlt) as [d Hd].
  unfold template_of. rewrite Ht. cbn [mbind option_bind]. rewrite Hd. reflexivity.
Qed.

Lemma new_statvars_canonical (columns : list string) :
  Forall (fun c => exists t, dict_get c (populationType cfg) = Some t /\ t < length h)
         columns ->
  forall (ext : list (dict pyval)) (csv : list csv_line) (mcf : option string),
    mapM (new_statvar cfg) columns (World (h ++ ext) csv mcf)
    = (Ok (seq (length (h ++ ext)) (length columns)),
       World ((h ++ ext) ++ map (fun c => dict_copy (template_of cfg h c)) columns)
             csv mcf).
Proof.
  induction 1 as [|c columns Hc _ IH]; intros ext csv mcf.
  - cbn. rewrite app_nil_r. reflexivity.
  - cbn [mapM length seq map]. unfold bind.
    rewrite (new_statvar_canonical c ext csv mcf Hc).
    rewrite <- app_assoc, IH. unfold ret.
    rewrite !length_app. cbn [length].
    replace (length h + (length ext + 1)) with (S (length h + length ext)) by lia.
    rewrite <- !app_assoc. reflexivity.
Qed.

Lemma update_statvars_canonical (kv : ref) (kvd : dict pyval)
    (ext fresh : list (dict pyval)) (n : nat) (csv : list csv_line)
    (mcf : option string) :
  n = length fresh ->
  h !! kv = Some kvd ->
  _update_statvars (seq (length (h ++ ext)) n) kv
                   (World ((h ++ ext) ++ fresh) csv mcf)
  = (Ok tt, World ((h ++ ext) ++ map (fun sv => dict_update sv kvd) fresh) csv mcf).
Proof.
  intros -> Hkv. unfold _update_statvars.
  pose proof (for_each_fresh
                (fun d => let* kv0 := deref kv in
                          modify d (fun sv => dict_update sv kv0))
                (fun sv => dict_update sv kvd) (fun _ => True)
                (h ++ ext) csv mcf) as Hloop.
  assert (Htrue : Forall (fun _ : dict pyval => True) fresh)
    by (apply Forall_forall; auto).
  specialize (fun Hbody => Hloop Hbody fresh [] Htrue).
  cbn [length app] in Hloop. rewrite Nat.add_0_r in Hloop.
  apply Hloop.
  intros pre sv post _. unfold bind, deref, modify. cbn [heap cleaned_csv output_mcf].
  rewrite <- (app_assoc h ext), (lookup_app_l h) by (eapply lookup_lt_Some; eassumption).
  rewrite Hkv, (app_assoc h ext). cbn [heap cleaned_csv output_mcf].
  rewrite lookup_fresh, insert_fresh. reflexivity.
Qed.

Lemma update_statvar_dcids_canonical (ext fresh : list (dict pyval)) (n : nat)
    (csv : list csv_line) (mcf : option string) :
  n = length fresh ->
  Forall (fun sv => exists dcid, get_statvar_dcid sv (_get_dpv sv cfg) = Ok dcid) fresh ->
  _update_statvar_dcids (seq (length (h ++ ext)) n) cfg
                        (World ((h ++ ext) ++ fresh) csv mcf)
  = (Ok tt,
     World ((h ++ ext)
            ++ map (fun sv => dict_set "Node" (PyStr (statvar_dcid cfg sv)) sv) fresh)
           csv mcf).
Proof.
  intros -> Hok. unfold _update_statvar_dcids.
  pose proof (for_each_fresh
                (fun d => let* sv := deref d in
                          let ignore_props := _get_dpv sv cfg in
                          let* dcid := lift (get_statvar_dcid sv ignore_props) in
                          modify d (dict_set "Node" (PyStr dcid)))
                (fun sv => dict_set "Node" (PyStr (statvar_dcid cfg sv)) sv)
                (fun sv => exists dcid, get_statvar_dcid sv (_get_dpv sv cfg) = Ok dcid)
                (h ++ ext) csv mcf) as Hloop.
  specialize (fun Hbody => Hloop Hbody fresh [] Hok).
  cbn [length app] in Hloop. rewrite Nat.add_0_r in Hloop.
  apply Hloop.
  intros pre sv post [dcid Hdcid]. unfold bind, deref, lift, modify.
  cbn [heap cleaned_csv output_mcf]. rewrite lookup_fresh. cbv zeta.
  unfold statvar_dcid. rewrite Hdcid. cbn [heap cleaned_csv output_mcf].
  rewrite lookup_fresh, insert_fresh. reflexivity.
Qed.
End Canonical.

Lemma fresh_nodes (base svs : list (dict pyval)) (nodes : list pyval) :
  Forall2 (fun sv node => dict_get "Node" sv = Some node) svs nodes ->
  Forall2 (fun r node => node_at (base ++ svs) r = Some node)
          (seq (length base) (length svs)) nodes.
Proof.
  intros Hnodes. revert base.
  induction Hnodes as [|sv node svs nodes Hnode _ IH]; intros base; [constructor|].
  cbn [length seq]. constructor.
  - unfold node_at. rewrite list_lookup_middle by reflexivity. exact Hnode.
  - specialize (IH (base ++ [sv])). rewrite length_app, <- app_assoc in IH.
    cbn [length app] in IH.
    replace (length base + 1) with (S (length base)) in IH by lia. exact IH.
Qed.

Section WriteRows.
Context {G : DcidGenerator}.

Lemma write_statvar_canonical (crime : dict pyval) (statvar_list : list ref)
    (idx : nat) (c : string) (w : world) (year : pyval) (r : ref)
    (node quantity : pyval) :
  dict_get "Year" crime = Some year ->
  statvar_list !! idx = Some r ->
  node_at (heap w) r = Some node ->
  dict_get c crime = Some quantity ->
  (let* year := lift (getitem crime "Year") in
   let* sv := lift (list_index statvar_list idx) in
   let* d := deref sv in
   let* node := lift (getitem d "Node") in
   let* quantity := lift (getitem crime c) in
   _write_row year node quantity) w
  = (Ok tt, World (heap w) (cleaned_csv w ++ [CsvRow [year; node; quantity]])
                  (output_mcf w)).
Proof.
  intros Hyear Hidx Hnode Hc. unfold bind, lift, getitem, list_index, deref.
  rewrite Hyear, Hidx. unfold node_at in Hnode.
  destruct (heap w !! r) as [d|]; [|discriminate].
  cbn in Hnode. rewrite Hnode, Hc. apply write_row_run.
Qed.

Lemma write_rows_canonical (crime : dict pyval) (statvar_list : list ref)
    (H : list (dict pyval)) (mcf : option string) (year : pyval) :
  dict_get "Year" crime = Some year ->
  forall (columns : list string) (refs : list ref) (nodes : list pyval)
         (sl_done : list ref) (csv : list csv_line),
    statvar_list = sl_done ++ refs ->
    Forall (fun c => is_Some (dict_get c crime)) columns ->
    length columns = length refs ->
    Forall2 (fun r node => node_at H r = Some node) refs nodes ->
    for_each (zip (seq (length sl_done) (length columns)) columns)
      (fun '(idx, c) =>
         let* year := lift (getitem crime "Year") in
         let* sv := lift (list_index statvar_list idx) in
         let* d := deref sv in
         let* node := lift (getitem d "Node") in
         let* quantity := lift (getitem crime c) in
         _write_row year node quantity)
      (World H csv mcf)
    = (Ok tt,
       World H
         (csv ++ zip_with (fun c node =>
                             CsvRow [year; node; dict_get_default c PyNone crime])
                          columns nodes)
         mcf).
Proof.
  intros Hyear columns.
  induction columns as [|c columns IH]; intros refs nodes sl_done csv Hsl Hq Hlen Hnodes.
  - cbn. rewrite app_nil_r. reflexivity.
  - destruct refs as [|r refs]; [discriminate|].
    inversion Hnodes as [|? node ? nodes' Hnode Hnodes' E1 E2]. subst nodes.
    inversion Hq as [|? ? [q Hc] Hq' E3]. clear E1 E3.
    cbn [length seq zip zip_with for_each].
    unfold bind at 1. cbv beta iota.
    rewrite (write_statvar_canonical crime statvar_list (length sl_done) c
               (World H csv mcf) year r node q Hyear);
      [|rewrite Hsl; apply list_lookup_middle; reflexivity | exact Hnode | exact Hc].
    cbn [heap cleaned_csv output_mcf].
    specialize (IH refs nodes' (sl_done ++ [r])
                  (csv ++ [CsvRow [year; node; q]])).
    rewrite length_app, <- !app_assoc in IH. cbn [length app] in IH.
    replace (length sl_done + 1) with (S (length sl_done)) in IH by lia.
    rewrite IH; [|assumption | assumption | | assumption].
    + unfold dict_get_default at 2. rewrite Hc. reflexivity.
    + cbn [length] in Hlen. lia.
Qed.
End WriteRows.

Lemma zip_with_map_r {A B C : Type} (f : A -> B -> C) (g : A -> B) (l : list A) :
  zip_with f l (map g l) = map (fun x => f x (g x)) l.
Proof. induction l as [|x l IH]; [reflexivity|]. cbn. f_equal. exact IH. Qed.

Section CanonicalRows.
Context {G : DcidGenerator}.
Variable cfg : config.
Variable h : list (dict pyval).

Lemma resolved_nodes (crime : dict pyval) (columns : list string) :
  Forall2 (fun sv node => dict_get "Node" sv = Some node)
          (map (resolved_statvar cfg h crime) columns)
          (map (fun c => PyStr (statvar_dcid cfg (merged_statvar cfg h crime c))) columns).
Proof.
  induction columns as [|c columns IH]; [constructor|].
  cbn [map]. constructor; [apply dict_get_set_eq | exact IH].
Qed.

(** One row of a canonical table, whatever was added to the heap since. *)
Lemma process_crime_canonical (columns : list string) (crime : dict pyval)
    (ext : list (dict pyval)) (csv : list csv_line) (mcf : option string) :
  canonical_row cfg h columns crime ->
  process_crime columns cfg crime (World (h ++ ext) csv mcf)
  = (Ok (seq (length (h ++ ext)) (length columns)),
     World ((h ++ ext) ++ map (resolved_statvar cfg h crime) columns)
           (csv ++ map (observation cfg h crime) columns) mcf).
Proof.
  intros ((label & kv & Hlabel & Hkv & Hlt) & [year Hyear] & Hcols).
  destruct (lookup_lt_is_Some_2 h kv Hlt) as [kvd Hkvd].
  assert (Hpvs : label_pvs cfg h crime = kvd).
  { unfold label_pvs. rewrite Hlabel, Hkv. cbn [mbind option_bind].
    rewrite Hkvd. reflexivity. }
  unfold process_crime.
  unfold bind at 1. unfold lift at 1, getitem at 1. rewrite Hlabel.
  unfold bind at 1. unfold lift at 1. cbn [getitem_val]. unfold getitem at 1.
  rewrite Hkv.
  unfold bind at 1. rewrite new_statvars_canonical;
    [|eapply Forall_impl; [exact Hcols|]; cbn beta; tauto].
  unfold bind at 1.
  rewrite (update_statvars_canonical h kv kvd ext _ (length columns) csv mcf)
    by (rewrite ?length_map; auto).
  unfold bind at 1. rewrite map_map.
  rewrite (update_statvar_dcids_canonical cfg h ext _ (length columns) csv mcf);
    [|rewrite length_map; reflexivity|].
  2:{ apply Forall_map. rewrite <- Hpvs.
      eapply Forall_impl; [exact Hcols|]. cbn beta. tauto. }
  rewrite map_map. rewrite <- Hpvs.
  change (map (fun x => dict_set "Node"
                 (PyStr (statvar_dcid cfg
                           (dict_update (dict_copy (template_of cfg h x))
                                        (label_pvs cfg h crime))))
                 (dict_update (dict_copy (template_of cfg h x))
                              (label_pvs cfg h crime))) columns)
    with (map (resolved_statvar cfg h crime) columns).
  unfold bind at 1. unfold enumerate.
  rewrite (write_rows_canonical crime (seq (length (h ++ ext)) (length columns))
             ((h ++ ext) ++ map (resolved_statvar cfg h crime) columns) mcf year Hyear
             columns (seq (length (h ++ ext)) (length columns))
             (map (fun c => PyStr (statvar_dcid cfg (merged_statvar cfg h crime c)))
                  columns)
             [] csv).
  - unfold ret. rewrite zip_with_map_r. unfold observation, dict_get_default at 2.
    rewrite Hyear. reflexivity.
  - reflexivity.
  - eapply Forall_impl; [exact Hcols|]. cbn beta. tauto.
  - rewrite length_seq. reflexivity.
  - pose proof (fresh_nodes (h ++ ext) _ _ (resolved_nodes crime columns)) as Hn.
    rewrite length_map in Hn. exact Hn.
Qed.
End CanonicalRows.

Section CanonicalTable.
Context {G : DcidGenerator}.
Variable cfg : config.
Variable h : list (dict pyval).

(** The rows of a canonical table. *)
Lemma process_rows_canonical (columns : list string) (table : list (dict pyval)) :
  Forall (canonical_row cfg h columns) table ->
  forall (ext : list (dict pyval)) (csv : list csv_line) (mcf : option string)
         (acc : list ref),
    foldM (fun statvars crime =>
             let* statvar_list := process_crime columns cfg crime in
             ret (statvars ++ statvar_list))
          acc table (World (h ++ ext) csv mcf)
    = (Ok (acc ++ seq (length (h ++ ext)) (length table * length columns)),
       World ((h ++ ext)
              ++ flat_map (fun crime => map (resolved_statvar cfg h crime) columns) table)
             (csv ++ observations cfg h columns table) mcf).
Proof.
  induction 1 as [|crime table Hcrime _ IH]; intros ext csv mcf acc.
  - cbn. rewrite !app_nil_r. reflexivity.
  - cbn [foldM]. unfold bind at 1. unfold bind at 1.
    rewrite (process_crime_canonical cfg h columns crime ext csv mcf Hcrime).
    unfold ret at 1. rewrite <- (app_assoc h ext), IH.
    unfold observations. cbn [flat_map length].
    rewrite !length_app, length_map, <- !app_assoc.
    replace (S (length table) * length columns)
      with (length columns + length table * length columns) by lia.
    rewrite seq_app, Nat.add_assoc. reflexivity.
Qed.
End CanonicalTable.

(** ** The fact columns *)

Lemma filter_all {A : Type} (P : A -> Prop) `{!forall x, Decision (P x)} (l : list A) :
  (forall x, In x l -> P x) -> filter P l = l.
Proof.
  induction l as [|x l IH]; intros HP; [reflexivity|].
  rewrite filter_cons_True by (apply HP; left; reflexivity).
  f_equal. apply IH. intros y Hy. apply HP. right. exact Hy.
Qed.

(** On a list without duplicates, [l.remove(x)] removes every [x]. *)
Lemma list_remove_filter (x : string) (l : list string) :
  NoDup l -> In x l -> list_remove x l = Ok (filter (fun c => c <> x) l).
Proof.
  induction l as [|y l IH]; intros Hnd Hin; [destruct Hin|].
  apply NoDup_cons in Hnd. destruct Hnd as [Hy Hl]. cbn [list_remove].
  destruct (decide (x = y)) as [->|Hne].
  - rewrite filter_cons_False by (intros Hn; apply Hn; reflexivity).
    rewrite filter_all; [reflexivity|].
    intros c Hc ->. apply Hy, list_elem_of_In. exact Hc.
  - destruct Hin as [->|Hin]; [contradiction|].
    rewrite (IH Hl Hin). rewrite filter_cons_True by congruence. reflexivity.
Qed.

Lemma fact_columns_remove (fieldnames : list string) :
  NoDup fieldnames ->
  In "bias motivation" fieldnames ->
  In "Year" fieldnames ->
  exists cols1,
    list_remove "bias motivation" fieldnames = Ok cols1
    /\ list_remove "Year" cols1 = Ok (fact_columns fieldnames).
Proof.
  intros Hnd Hbias Hyear.
  exists (filter (fun c => c <> "bias motivation") fieldnames).
  split; [apply list_remove_filter; assumption|].
  rewrite list_remove_filter.
  - rewrite list_filter_filter. unfold fact_columns. f_equal.
    apply list_filter_iff. intros c. tauto.
  - apply NoDup_filter. exact Hnd.
  - apply list_elem_of_In, list_elem_of_filter. split; [discriminate|].
    apply list_elem_of_In. exact Hyear.
Qed.

Lemma length_observations {G : DcidGenerator} (cfg : config) (h : list (dict pyval))
    (columns : list string) (table : list (dict pyval)) :
  length (observations cfg h columns table) = length table * length columns.
Proof.
  unfold observations. induction table as [|crime table IH]; [reflexivity|].
  cbn [flat_map length]. rewrite length_app, length_map, IH. lia.
Qed.

(** C4.  For a canonical table with R rows and F fact columns,
    [_write_output_csv] returns and appends to the cleaned CSV exactly the
    R×F observations of the table: rows in source order and, within a row,
    one observation per fact column in column order, each with the year of
    the row, the identifier stored under ['Node'] of the statvar of the
    column, and the quantity of the row for the column as it was read.  In
    table 5 the fact columns are the field names other than
    ['bias motivation'] and ['Year']; in table 8 they are the seven columns
    of the script. *)
Theorem write_output_csv_row_expansion (G : DcidGenerator) (reader : DictReader)
    (cfg : config) (w : world) (columns : list string) :
  Forall (canonical_row cfg (heap w) columns) (rows reader) ->
  let expected :=
    (Ok (seq (length (heap w)) (length (rows reader) * length columns)),
     World (heap w
            ++ flat_map (fun crime => map (resolved_statvar cfg (heap w) crime) columns)
                        (rows reader))
           (cleaned_csv w ++ observations cfg (heap w) columns (rows reader))
           (output_mcf w)) in
  length (observations cfg (heap w) columns (rows reader))
  = length (rows reader) * length columns
  /\ (forall crime c, In crime (rows reader) -> In c columns ->
        exists year quantity,
          dict_get "Year" crime = Some year
          /\ dict_get c crime = Some quantity
          /\ observation cfg (heap w) crime c
             = CsvRow [year; node_val (resolved_statvar cfg (heap w) crime c); quantity])
  /\ (NoDup (fieldnames reader) ->
      In "bias motivation" (fieldnames reader) ->
      In "Year" (fieldnames reader) ->
      columns = fact_columns (fieldnames reader) ->
      Table5._write_output_csv reader cfg w = expected)
  /\ (columns = table8_columns ->
      Table8._write_output_csv reader cfg w = expected).
Proof.
  intros Hrows expected.
  assert (Hrun : process_reader (process_crime columns cfg) reader w = expected).
  { unfold process_reader. destruct w as [h csv mcf]. cbn [heap cleaned_csv output_mcf] in *.
    pose proof (process_rows_canonical cfg h columns (rows reader) Hrows [] csv mcf [])
      as Hloop.
    rewrite app_nil_r in Hloop. exact Hloop. }
  split; [apply length_observations|]. split.
  - intros crime c Hcrime Hc.
    rewrite Forall_forall in Hrows.
    destruct (Hrows crime (proj2 (list_elem_of_In _ _) Hcrime)) as (_ & [year Hyear] & Hcols).
    rewrite Forall_forall in Hcols.
    destruct (Hcols c (proj2 (list_elem_of_In _ _) Hc)) as ([quantity Hq] & _ & _).
    exists year, quantity. split; [exact Hyear|]. split; [exact Hq|].
    unfold observation, dict_get_default, node_val, resolved_statvar.
    cbv zeta. unfold dict_get_default. rewrite Hyear, Hq, dict_get_set_eq. reflexivity.
  - split.
    + intros Hnd Hbias Hyear ->.
      destruct (fact_columns_remove (fieldnames reader) Hnd Hbias Hyear)
        as (cols1 & H1 & H2).
      unfold Table5._write_output_csv. cbv zeta. unfold bind, lift.
      rewrite H1, H2. exact Hrun.
    + intros ->. rewrite table8_write_output_csv. exact Hrun.
Qed.

Ltac canonical_rows :=
  repeat match goal with
         | |- Forall _ [] => constructor
         | |- Forall _ (_ :: _) => constructor
         | |- canonical_row _ _ _ _ => unfold canonical_row
         | |- _ /\ _ => split
         | |- is_Some _ => eexists; reflexivity
         | |- exists _, _ => eexists
         | |- _ = _ => reflexivity
         | |- _ < _ => cbn; lia
         end.

Lemma write_output_csv_row_expansion_witness :
  @Table5._write_output_csv sample_dcid sample_reader sample_config sample_world
  = (Ok [4; 5; 6; 7],
     World (sample_heap
            ++ [ [("populationType", PyStr "CriminalIncidents");
                  ("offenderRace", PyStr "White");
                  ("biasMotivation", PyStr "religion");
                  ("targetedReligion", PyStr "Jewish");
                  ("Node", PyStr "CriminalIncidents_White_Jewish")];
                 [("populationType", PyStr "CriminalIncidents");
                  ("offenderRace", PyStr "BlackOrAfricanAmerican");
                  ("biasMotivation", PyStr "religion");
                  ("targetedReligion", PyStr "Jewish");
                  ("Node", PyStr "CriminalIncidents_BlackOrAfricanAmerican_Jewish")];
                 [("populationType", PyStr "CriminalIncidents");
                  ("offenderRace", PyStr "White");
                  ("biasMotivation", PyStr "gender");
                  ("Node", PyStr "CriminalIncidents_White_gender")];
                 [("populationType", PyStr "CriminalIncidents");
                  ("offenderRace", PyStr "BlackOrAfricanAmerican");
                  ("biasMotivation", PyStr "gender");
                  ("Node", PyStr "CriminalIncidents_BlackOrAfricanAmerican_gender")] ])
           [ CsvRow [PyStr "2019"; PyStr "CriminalIncidents_White_Jewish"; PyStr "3"];
             CsvRow [PyStr "2019"; PyStr "CriminalIncidents_BlackOrAfricanAmerican_Jewish";
                     PyStr "4"];
             CsvRow [PyStr "2019"; PyStr "CriminalIncidents_White_gender"; PyStr "5"];
             CsvRow [PyStr "2019"; PyStr "CriminalIncidents_BlackOrAfricanAmerican_gender";
                     PyStr EmptyString] ]
           None).
Proof.
  destruct (write_output_csv_row_expansion sample_dcid sample_reader sample_config
              sample_world ["white"; "black or african american"])
    as (_ & _ & H5 & _).
  - unfold sample_reader, sample_world, sample_config, sample_heap. cbn [rows heap].
    canonical_rows.
  - rewrite H5.
    + reflexivity.
    + refine (bool_decide_unpack _ _). vm_compute. exact I.
    + cbn. tauto.
    + cbn. tauto.
    + reflexivity.
Defined.

(** ** The cleanup of labels *)

Section Regex.
Variable cls : ascii -> bool.

(** Replacing the runs of a class by nothing removes the characters of the
    class. *)
Lemma re_sub_run_empty (b : bool) (s : string) :
  re_sub_run cls EmptyString b s = str_filter (fun c => negb (cls c)) s.
Proof.
  revert b. induction s as [|c s IH]; intros b; [reflexivity|].
  cbn [re_sub_run str_filter]. destruct (cls c); cbn [negb].
  - destruct b; rewrite ?str_app_nil_l; apply IH.
  - f_equal. apply IH.
Qed.
End Regex.

Lemma is_space_space : is_space " " = true.
Proof. reflexivity. Qed.

Lemma str_lstrip_collapse (b : bool) (s : string) :
  str_lstrip (re_sub_run is_space " " b s) = re_sub_run is_space " " false (str_lstrip s).
Proof.
  revert b. induction s as [|c s IH]; intros b; [reflexivity|].
  cbn [re_sub_run str_lstrip]. destruct (is_space c) eqn:Hc.
  - destruct b; [apply IH|].
    rewrite str_app_cons, str_app_nil_l. cbn [str_lstrip].
    rewrite is_space_space. apply IH.
  - cbn [str_lstrip re_sub_run]. rewrite Hc. reflexivity.
Qed.

Lemma words_lstrip (s : string) : words (str_lstrip s) = words s.
Proof.
  induction s as [|c s IH]; [reflexivity|].
  cbn [str_lstrip]. destruct (is_space c) eqn:Hc.
  - rewrite IH. cbn [words]. rewrite Hc. reflexivity.
  - reflexivity.
Qed.

Lemma starts_with_space_lstrip (s : string) : starts_with_space (str_lstrip s) = false.
Proof.
  induction s as [|c s IH]; [reflexivity|].
  cbn [str_lstrip]. destruct (is_space c) eqn:Hc; [exact IH|].
  cbn [starts_with_space]. exact Hc.
Qed.

(** A word is not empty. *)
Lemma words_nonempty (s : string) : Forall (fun w => w <> EmptyString) (words s).
Proof.
  induction s as [|c s IH]; [constructor|].
  cbn [words]. destruct (is_space c); [exact IH|].
  destruct (starts_with_space s); [constructor; [discriminate | exact IH]|].
  destruct (words s) as [|w ws]; [repeat constructor; discriminate|].
  inversion IH; subst. constructor; [discriminate | assumption].
Qed.

Lemma concat_words_nonempty (w : string) (ws : list string) :
  w <> EmptyString -> String.concat " " (w :: ws) <> EmptyString.
Proof.
  intros Hw. destruct w as [|c w]; [contradiction|].
  destruct ws; cbn [String.concat]; [discriminate|].
  rewrite str_app_cons. discriminate.
Qed.

Lemma concat_cons_char (c : ascii) (w : string) (ws : list string) :
  String.concat " " (String c w :: ws) = String c (String.concat " " (w :: ws)).
Proof. destruct ws; reflexivity. Qed.

(** The right strip of a collapsed string, in words. *)
Lemma str_rstrip_collapse (s : string) (b : bool) :
  str_rstrip (re_sub_run is_space " " b s)
  = match words s with
    | [] => EmptyString
    | ws => (if starts_with_space s && negb b then " " else EmptyString) +:+ String.concat " " ws
    end.
Proof.
  revert b. induction s as [|c s IH]; intros b; [reflexivity|].
  pose proof (words_nonempty s) as Hne.
  cbn [re_sub_run words starts_with_space]. destruct (is_space c) eqn:Hc.
  - cbn [andb]. destruct b; cbn [negb].
    + rewrite IH. destruct (words s); [reflexivity|].
      rewrite andb_false_r. reflexivity.
    + rewrite str_app_cons, str_app_nil_l. cbn [str_rstrip]. rewrite IH.
      rewrite andb_false_r, is_space_space.
      destruct (words s) as [|w ws]; [reflexivity|].
      inversion Hne as [|? ? Hw _]; subst. rewrite str_app_nil_l.
      pose proof (concat_words_nonempty w ws Hw) as Hcat.
      destruct (String.concat " " (w :: ws)); [contradiction | reflexivity].
  - cbn [andb]. cbn [str_rstrip]. rewrite IH, Hc. cbn [negb]. rewrite andb_true_r.
    destruct (words s) as [|w ws].
    + destruct (starts_with_space s); reflexivity.
    + inversion Hne as [|? ? Hw _]; subst.
      pose proof (concat_words_nonempty w ws Hw) as Hcat.
      destruct (starts_with_space s).
      * rewrite str_app_cons, str_app_nil_l, str_app_nil_l. reflexivity.
      * rewrite !str_app_nil_l, concat_cons_char.
        destruct (String.concat " " (w :: ws)); [contradiction | reflexivity].
Qed.

(** Collapsing the whitespace and stripping leaves the words, separated by
    single spaces. *)
Lemma strip_collapse_words (s : string) :
  str_strip (re_sub_plus is_space " " s) = String.concat " " (words s).
Proof.
  unfold str_strip, re_sub_plus.
  rewrite str_lstrip_collapse, str_rstrip_collapse, words_lstrip.
  rewrite starts_with_space_lstrip. destruct (words s); reflexivity.
Qed.

(** A word has no whitespace, and the words are all that is not whitespace. *)
Lemma words_no_space (s : string) :
  Forall (fun w => str_filter is_space w = EmptyString) (words s).
Proof.
  induction s as [|c s IH]; [constructor|].
  cbn [words]. destruct (is_space c) eqn:Hc; [exact IH|].
  destruct (starts_with_space s).
  - constructor; [cbn; rewrite Hc; reflexivity | exact IH].
  - destruct (words s) as [|w ws].
    + repeat constructor. cbn. rewrite Hc. reflexivity.
    + inversion IH; subst. constructor; [|assumption].
      cbn [str_filter]. rewrite Hc. assumption.
Qed.

Lemma words_concat (s : string) :
  String.concat EmptyString (words s) = str_filter (fun c => negb (is_space c)) s.
Proof.
  induction s as [|c s IH]; [reflexivity|].
  cbn [words str_filter]. destruct (is_space c) eqn:Hc; cbn [negb]; [exact IH|].
  rewrite <- IH. destruct (starts_with_space s).
  - destruct (words s); reflexivity.
  - destruct (words s) as [|w [|w' ws]]; reflexivity.
Qed.

Lemma clean_label_words (s : string) :
  clean_label s
  = String.concat " " (words (str_filter (fun c => negb (is_digit_or_colon c)) s)).
Proof.
  unfold clean_label. rewrite strip_collapse_words.
  unfold re_sub_plus. rewrite re_sub_run_empty. reflexivity.
Qed.

(** ** The label column of a data frame *)

Section LabelColumn.
Variable df : DataFrame.
Variable names : list string.
Hypothesis Hcolumns : df_columns df = "bias motivation" :: names.

Lemma get_label_column :
  get_column "bias motivation" df
  = Ok (map (fun row => default CNaN (row !! 0)) (df_rows df)).
Proof. unfold get_column. rewrite Hcolumns. reflexivity. Qed.

Lemma set_label_column (series : list cell) :
  set_column "bias motivation" series df
  = Ok (Frame (df_columns df)
              (zip_with (fun row c => <[0 := c]> row) (df_rows df) series)).
Proof. unfold set_column. rewrite Hcolumns. reflexivity. Qed.
End LabelColumn.

Lemma zip_with_map_label (f : cell -> cell) (table : list (list cell)) :
  zip_with (fun row c => <[0 := c]> row) table
           (map f (map (fun row => default CNaN (row !! 0)) table))
  = map (map_label f) table.
Proof.
  induction table as [|row table IH]; [reflexivity|].
  cbn [map zip_with]. rewrite IH. destruct row; reflexivity.
Qed.

Lemma has_label_map_label (f : cell -> cell) (table : list (list cell)) :
  (forall s, exists s', f (CStr s) = CStr s') ->
  has_label table -> has_label (map (map_label f) table).
Proof.
  intros Hf [->|(row & s & rest & Hin & ->)]; [left; reflexivity|].
  right. destruct (Hf s) as [s' Hs'].
  exists (map_label f (CStr s :: rest)), s', rest. split.
  - apply in_map. exact Hin.
  - cbn. rewrite Hs'. reflexivity.
Qed.

Lemma has_label_string_column (table : list (list cell)) :
  has_label table ->
  forallb (fun c => match c with CStr _ => false | _ => true end)
          (map (fun row => default CNaN (row !! 0)) table)
  && negb (bool_decide (map (fun row => default CNaN (row !! 0)) table = []))
  = false.
Proof.
  intros [->|(row & s & rest & Hin & ->)]; [reflexivity|].
  apply andb_false_intro1. apply not_true_is_false. intros Hall.
  rewrite forallb_forall in Hall.
  specialize (Hall (CStr s)). cbn in Hall.
  assert (Hfalse : false = true); [|discriminate].
  apply Hall. change (CStr s) with (default CNaN ((CStr s :: rest) !! 0)).
  apply (in_map (fun row => default CNaN (row !! 0))). exact Hin.
Qed.

(** The three statements on the label column of a frame whose first column
    is ['bias motivation']. *)
Lemma clean_bias_motivation_run (df : DataFrame) (names : list string) :
  df_columns df = "bias motivation" :: names ->
  label_column_ok df ->
  clean_bias_motivation df = Ok (Frame (df_columns df) (map clean_row (df_rows df))).
Proof.
  intros Hcolumns Hok. unfold clean_bias_motivation.
  destruct df as [cols table]. cbn [df_columns df_rows] in *. subst cols.
  change (label_column_ok _) with (has_label table) in Hok.
  unfold series_replace.
  rewrite (get_label_column _ names) by reflexivity.
  rewrite (set_label_column _ names) by reflexivity. cbn [df_rows df_columns].
  rewrite zip_with_map_label.
  rewrite (get_label_column _ names) by reflexivity.
  rewrite (set_label_column _ names) by reflexivity. cbn [df_rows df_columns].
  rewrite zip_with_map_label.
  rewrite (get_label_column _ names) by reflexivity. cbn [df_rows df_columns].
  unfold series_str_strip.
  rewrite has_label_string_column.
  2:{ apply has_label_map_label; [intros s; eexists; reflexivity|].
      apply has_label_map_label; [intros s; eexists; reflexivity|]. exact Hok. }
  rewrite (set_label_column _ names) by reflexivity. cbn [df_rows df_columns].
  rewrite zip_with_map_label, !map_map.
  f_equal. f_equal. apply map_ext. intros [|[] rest]; reflexivity.
Qed.

Lemma has_label_map_label_inv (f : cell -> cell) (table : list (list cell)) :
  (forall c s', f c = CStr s' -> exists s, c = CStr s) ->
  has_label (map (map_label f) table) -> has_label table.
Proof.
  intros Hf [Hnil|(row' & s' & rest & Hin & ->)].
  - left. destruct table; [reflexivity | discriminate].
  - right. apply in_map_iff in Hin as (row & Hrow & Hin).
    destruct row as [|c rest']; [discriminate|]. cbn [map_label] in Hrow.
    injection Hrow as Hc <-. destruct (Hf c s' Hc) as [s ->].
    exists (CStr s :: rest'), s, rest'. split; [exact Hin | reflexivity].
Qed.

Lemma forallb_false_ex {A : Type} (f : A -> bool) (l : list A) :
  forallb f l = false -> exists x, In x l /\ f x = false.
Proof.
  induction l as [|x l IH]; [discriminate|]. cbn [forallb].
  destruct (f x) eqn:Hx.
  - intros H. destruct (IH H) as (y & Hy & Hfy). exists y. split; [right|]; assumption.
  - intros _. exists x. split; [left; reflexivity | exact Hx].
Qed.

Lemma label_series_check (table : list (list cell)) :
  forallb (fun c => match c with CStr _ => false | _ => true end)
          (map (fun row => default CNaN (row !! 0)) table)
  && negb (bool_decide (map (fun row => default CNaN (row !! 0)) table = []))
  = false ->
  has_label table.
Proof.
  destruct table as [|row0 table]; [left; reflexivity|]. intros H. right.
  apply andb_false_iff in H as [H|H]; [|discriminate].
  apply forallb_false_ex in H as (c & Hin & Hc).
  apply in_map_iff in Hin as (row & <- & Hin).
  destruct row as [|[s|z|] rest]; try discriminate.
  exists (CStr s :: rest), s, rest. split; [exact Hin | reflexivity].
Qed.

(** When the three statements on the label column go through, the column
    has a label, or the frame has no rows. *)
Lemma clean_bias_motivation_Ok (df df' : DataFrame) (names : list string) :
  df_columns df = "bias motivation" :: names ->
  clean_bias_motivation df = Ok df' ->
  label_column_ok df /\ df' = Frame (df_columns df) (map clean_row (df_rows df)).
Proof.
  intros Hcolumns Hrun.
  assert (Hok : label_column_ok df).
  { unfold clean_bias_motivation in Hrun.
    destruct df as [cols table]. cbn [df_columns df_rows] in *. subst cols.
    change (has_label table). unfold series_replace in Hrun.
    rewrite (get_label_column _ names) in Hrun by reflexivity.
    rewrite (set_label_column _ names) in Hrun by reflexivity.
    cbn [df_rows df_columns] in Hrun. rewrite zip_with_map_label in Hrun.
    rewrite (get_label_column _ names) in Hrun by reflexivity.
    rewrite (set_label_column _ names) in Hrun by reflexivity.
    cbn [df_rows df_columns] in Hrun. rewrite zip_with_map_label in Hrun.
    rewrite (get_label_column _ names) in Hrun by reflexivity.
    cbn [df_rows df_columns] in Hrun. unfold series_str_strip in Hrun.
    match type of Hrun with
    | context [if ?b then _ else _] => destruct b eqn:Hcheck; [discriminate|]
    end.
    apply label_series_check in Hcheck.
    apply has_label_map_label_inv in Hcheck.
    2:{ intros [s|z|] s' Hc; [eauto | discriminate | discriminate]. }
    apply has_label_map_label_inv in Hcheck.
    2:{ intros [s|z|] s' Hc; [eauto | discriminate | discriminate]. }
    exact Hcheck. }
  split; [exact Hok|].
  rewrite (clean_bias_motivation_run df names Hcolumns Hok) in Hrun. congruence.
Qed.

(** On a label column with rows and without any string the [.str] accessor
    raises. *)
Lemma clean_bias_motivation_numeric (df : DataFrame) (names : list string) :
  df_columns df = "bias motivation" :: names ->
  ~ label_column_ok df ->
  clean_bias_motivation df = Raise AttributeError.
Proof.
  intros Hcolumns Hnot.
  destruct (clean_bias_motivation df) as [df'|e] eqn:Hrun.
  - exfalso. apply Hnot.
    apply (clean_bias_motivation_Ok df df' names Hcolumns Hrun).
  - f_equal. unfold clean_bias_motivation in Hrun.
    destruct df as [cols table]. cbn [df_columns df_rows] in *. subst cols.
    unfold series_replace in Hrun.
    rewrite (get_label_column _ names) in Hrun by reflexivity.
    rewrite (set_label_column _ names) in Hrun by reflexivity.
    cbn [df_rows df_columns] in Hrun. rewrite zip_with_map_label in Hrun.
    rewrite (get_label_column _ names) in Hrun by reflexivity.
    rewrite (set_label_column _ names) in Hrun by reflexivity.
    cbn [df_rows df_columns] in Hrun. rewrite zip_with_map_label in Hrun.
    rewrite (get_label_column _ names) in Hrun by reflexivity.
    cbn [df_rows df_columns] in Hrun. unfold series_str_strip in Hrun.
    match type of Hrun with
    | context [if ?b then _ else _] => destruct b
    end.
    + congruence.
    + rewrite (set_label_column _ names) in Hrun by reflexivity. discriminate.
Qed.

Lemma set_columns_ok (names : list string) (df : DataFrame) :
  length (df_columns df) = length names ->
  set_columns names df = Ok (Frame names (df_rows df)).
Proof.
  intros Hlen. unfold set_columns.
  destruct (decide (length names = length (df_columns df))); [reflexivity | congruence].
Qed.

Lemma set_columns_mismatch (names : list string) (df : DataFrame) :
  length (df_columns df) <> length names ->
  set_columns names df = Raise ValueError.
Proof.
  intros Hlen. unfold set_columns.
  destruct (decide (length names = length (df_columns df))); [congruence | reflexivity].
Qed.

Lemma table5_clean_dataframe_new (df : DataFrame) (year : string) :
  year ∈ table5_new_years ->
  Table5._clean_dataframe df year
  = match set_columns table5_columns_2013 df with
    | Raise e => Raise e
    | Ok df' => clean_bias_motivation df'
    end.
Proof.
  intros Hyear. unfold Table5._clean_dataframe. cbv zeta.
  change ["2020"; "2019"; "2018"; "2017"; "2016"; "2015"; "2014"; "2013"]
    with table5_new_years.
  rewrite bool_decide_eq_true_2 by exact Hyear. reflexivity.
Qed.

Lemma table5_clean_dataframe_old (df : DataFrame) (year : string) :
  year ∉ table5_new_years ->
  Table5._clean_dataframe df year
  = match set_columns table5_columns_2004 df with
    | Raise e => Raise e
    | Ok df' => clean_bias_motivation df'
    end.
Proof.
  intros Hyear. unfold Table5._clean_dataframe. cbv zeta.
  change ["2020"; "2019"; "2018"; "2017"; "2016"; "2015"; "2014"; "2013"]
    with table5_new_years.
  rewrite bool_decide_eq_false_2 by exact Hyear. reflexivity.
Qed.

Lemma clean_dataframe_layout (layout : list string) (names : list string)
    (df : DataFrame) :
  layout = "bias motivation" :: names ->
  length (df_columns df) = length layout ->
  label_column_ok df ->
  match set_columns layout df with
  | Raise e => Raise e
  | Ok df' => clean_bias_motivation df'
  end
  = Ok (Frame layout (map clean_row (df_rows df))).
Proof.
  intros Hlayout Hlen Hok. rewrite (set_columns_ok layout df Hlen).
  rewrite (clean_bias_motivation_run _ names); [reflexivity | exact Hlayout | exact Hok].
Qed.

(** C6.  The cleanup of the label column maps
    ["3:  Race / Ethnicity   motivation"] to ["Race / Ethnicity motivation"].
    Its first step removes every digit and colon, its second and third steps
    leave the words of the string separated by single spaces, so a cleaned
    label is made of the words of the label without its digits and colons,
    a word being a run of characters that are not whitespace.  In table 5
    and in table 8, [_clean_dataframe] on a frame with the number of columns
    of the layout cleans the label of every row in this way and leaves the
    other cells. *)
Theorem label_cleanup (df : DataFrame) (year : string) :
  label_column_ok df ->
  clean_label "3:  Race / Ethnicity   motivation" = "Race / Ethnicity motivation"
  /\ (forall s, re_sub_plus is_digit_or_colon EmptyString s
                = str_filter (fun c => negb (is_digit_or_colon c)) s)
  /\ (forall s, str_strip (re_sub_plus is_space " " s) = String.concat " " (words s))
  /\ (forall s, clean_label s
                = String.concat " "
                    (words (str_filter (fun c => negb (is_digit_or_colon c)) s)))
  /\ (forall s, Forall (fun w => w <> EmptyString) (words s)
                /\ Forall (fun w => str_filter is_space w = EmptyString) (words s)
                /\ String.concat EmptyString (words s)
                   = str_filter (fun c => negb (is_space c)) s)
  /\ (length (df_columns df) = 8 ->
      Table8._clean_dataframe df year
      = Ok (Frame table8_layout (map clean_row (df_rows df))))
  /\ (length (df_columns df) = 14 -> year ∈ table5_new_years ->
      Table5._clean_dataframe df year
      = Ok (Frame table5_columns_2013 (map clean_row (df_rows df))))
  /\ (length (df_columns df) = 9 -> year ∉ table5_new_years ->
      Table5._clean_dataframe df year
      = Ok (Frame table5_columns_2004 (map clean_row (df_rows df)))).
Proof.
  intros Hok. split; [reflexivity|].
  split; [intros s; apply re_sub_run_empty|].
  split; [apply strip_collapse_words|].
  split; [apply clean_label_words|].
  split.
  { intros s. split; [apply words_nonempty|].
    split; [apply words_no_space | apply words_concat]. }
  split.
  { intros Hlen. unfold Table8._clean_dataframe.
    apply (clean_dataframe_layout table8_layout (tl table8_layout));
      [reflexivity | exact Hlen | exact Hok]. }
  split.
  - intros Hlen Hyear. rewrite (table5_clean_dataframe_new df year Hyear).
    apply (clean_dataframe_layout table5_columns_2013 (tl table5_columns_2013));
      [reflexivity | exact Hlen | exact Hok].
  - intros Hlen Hyear. rewrite (table5_clean_dataframe_old df year Hyear).
    apply (clean_dataframe_layout table5_columns_2004 (tl table5_columns_2004));
      [reflexivity | exact Hlen | exact Hok].
Qed.

Lemma label_cleanup_witness :
  Table5._clean_dataframe sample_frame5 "2012"
  = Ok (Frame table5_columns_2004
          [ [CStr "Race / Ethnicity motivation"; CNum 10; CNum 1; CNum 2; CNum 3;
             CNum 4; CNum 0; CNum 0; CNum 0];
            [CStr "Anti-Jewish"; CNum 5; CNum 1; CNum 1; CNum 1; CNum 1; CNum 1;
             CNum 0; CNum 0] ]).
Proof.
  destruct (label_cleanup sample_frame5 "2012") as (_ & _ & _ & _ & _ & _ & _ & H5).
  - right. eexists _, _, _. split; [left; reflexivity | reflexivity].
  - rewrite H5; [reflexivity | reflexivity |].
    intros Hin. apply (bool_decide_pack _) in Hin. vm_compute in Hin. exact Hin.
Defined.

(** The ways in which giving a layout and cleaning the labels fails. *)
Lemma clean_dataframe_layout_fails (layout names : list string) (df : DataFrame) :
  layout = "bias motivation" :: names ->
  (length (df_columns df) = length layout -> ~ label_column_ok df ->
   match set_columns layout df with
   | Raise e => Raise e
   | Ok df' => clean_bias_motivation df'
   end = Raise AttributeError)
  /\ (forall e,
        match set_columns layout df with
        | Raise e => Raise e
        | Ok df' => clean_bias_motivation df'
        end = Raise e ->
        (e = ValueError /\ length (df_columns df) <> length layout)
        \/ (e = AttributeError /\ length (df_columns df) = length layout
            /\ ~ label_column_ok df)).
Proof.
  intros Hlayout.
  assert (Hnum : length (df_columns df) = length layout -> ~ label_column_ok df ->
                 match set_columns layout df with
                 | Raise e => Raise e
                 | Ok df' => clean_bias_motivation df'
                 end = Raise AttributeError).
  { intros Hlen Hnot. rewrite (set_columns_ok layout df Hlen).
    apply (clean_bias_motivation_numeric _ names); [exact Hlayout | exact Hnot]. }
  split; [exact Hnum|].
  intros e Hrun.
  destruct (decide (length (df_columns df) = length layout)) as [Hlen|Hlen].
  - right.
    assert (Hnot : ~ label_column_ok df).
    { intros Hok.
      rewrite (clean_dataframe_layout layout names df Hlayout Hlen Hok) in Hrun.
      discriminate. }
    rewrite (Hnum Hlen Hnot) in Hrun. injection Hrun as <-. auto.
  - left. rewrite (set_columns_mismatch layout df Hlen) in Hrun.
    injection Hrun as <-. auto.
Qed.

(** C3 (amended).  [_clean_dataframe] does not look the year up in the
    year-to-schema mapping and has no failure for an unknown year.  In
    table 5 a year that the mapping does not list takes the branch of the
    years 2004 to 2012: a frame with nine columns and a label column that
    is not numeric gets their layout and its labels cleaned.  It fails in
    two ways only, neither of which looks at the year: a frame with another
    number of columns makes the assignment of the column names raise
    [ValueError], and a frame with nine columns whose label column has rows
    and no string makes the [.str] accessor raise [AttributeError].  In
    table 8 the result does not depend on the year: a frame with eight
    columns and a label column that is not numeric gets the layout of the
    table, another number of columns raises [ValueError], and eight columns
    with a numeric label column raise [AttributeError]. *)
Theorem clean_dataframe_unlisted_year (df : DataFrame) (year : string) :
  dict_get year Table5.YEARWISE_CONFIG = None ->
  Table5._clean_dataframe df year
  = match set_columns table5_columns_2004 df with
    | Raise e => Raise e
    | Ok df' => clean_bias_motivation df'
    end
  /\ (length (df_columns df) = 9 -> label_column_ok df ->
      Table5._clean_dataframe df year
      = Ok (Frame table5_columns_2004 (map clean_row (df_rows df))))
  /\ (length (df_columns df) <> 9 ->
      Table5._clean_dataframe df year = Raise ValueError)
  /\ (forall year', Table8._clean_dataframe df year = Table8._clean_dataframe df year')
  /\ (length (df_columns df) = 8 -> label_column_ok df ->
      Table8._clean_dataframe df year
      = Ok (Frame table8_layout (map clean_row (df_rows df))))
  /\ (length (df_columns df) <> 8 ->
      Table8._clean_dataframe df year = Raise ValueError)
  /\ (length (df_columns df) = 9 -> ~ label_column_ok df ->
      Table5._clean_dataframe df year = Raise AttributeError)
  /\ (forall e, Table5._clean_dataframe df year = Raise e ->
        (e = ValueError /\ length (df_columns df) <> 9)
        \/ (e = AttributeError /\ length (df_columns df) = 9 /\ ~ label_column_ok df))
  /\ (length (df_columns df) = 8 -> ~ label_column_ok df ->
      Table8._clean_dataframe df year = Raise AttributeError)
  /\ (forall e, Table8._clean_dataframe df year = Raise e ->
        (e = ValueError /\ length (df_columns df) <> 8)
        \/ (e = AttributeError /\ length (df_columns df) = 8 /\ ~ label_column_ok df)).
Proof.
  intros Hyear.
  assert (Hold : year ∉ table5_new_years).
  { intros Hin. unfold table5_new_years in Hin.
    repeat (apply elem_of_cons in Hin; destruct Hin as [->|Hin]; [discriminate Hyear|]).
    apply elem_of_nil in Hin. exact Hin. }
  pose proof (table5_clean_dataframe_old df year Hold) as H5.
  destruct (clean_dataframe_layout_fails table5_columns_2004 (tl table5_columns_2004)
              df eq_refl) as [Hnum5 Honly5].
  destruct (clean_dataframe_layout_fails table8_layout (tl table8_layout) df eq_refl)
    as [Hnum8 Honly8].
  split; [exact H5|]. split.
  { intros Hlen Hok. rewrite H5.
    apply (clean_dataframe_layout table5_columns_2004 (tl table5_columns_2004));
      [reflexivity | exact Hlen | exact Hok]. }
  split.
  { intros Hlen. rewrite H5, set_columns_mismatch; [reflexivity | exact Hlen]. }
  split; [reflexivity|]. split.
  { intros Hlen Hok. unfold Table8._clean_dataframe.
    apply (clean_dataframe_layout table8_layout (tl table8_layout));
      [reflexivity | exact Hlen | exact Hok]. }
  split.
  { intros Hlen. unfold Table8._clean_dataframe.
    rewrite set_columns_mismatch; [reflexivity | exact Hlen]. }
  split.
  { intros Hlen Hnot. rewrite H5. apply Hnum5; assumption. }
  split.
  { intros e Hrun. rewrite H5 in Hrun. exact (Honly5 e Hrun). }
  split.
  { intros Hlen Hnot. unfold Table8._clean_dataframe. apply Hnum8; assumption. }
  intros e Hrun. exact (Honly8 e Hrun).
Qed.

Lemma clean_dataframe_unlisted_year_witness :
  Table5._clean_dataframe sample_frame5 "2021"
  = Ok (Frame table5_columns_2004 (map clean_row (df_rows sample_frame5)))
  /\ Table5._clean_dataframe sample_frame8 "2021" = Raise ValueError
  /\ Table8._clean_dataframe
       (Frame (df_columns sample_frame8)
              [[CNum 3; CNum 10; CNum 1; CNum 2; CNum 3; CNum 4; CNum 0; CNum 0]])
       "2021"
     = Raise AttributeError.
Proof.
  destruct (clean_dataframe_unlisted_year sample_frame5 "2021") as (_ & H9 & _);
    [reflexivity|].
  destruct (clean_dataframe_unlisted_year sample_frame8 "2021") as (_ & _ & Hne & _);
    [reflexivity|].
  destruct (clean_dataframe_unlisted_year
              (Frame (df_columns sample_frame8)
                     [[CNum 3; CNum 10; CNum 1; CNum 2; CNum 3; CNum 4; CNum 0; CNum 0]])
              "2021") as (_ & _ & _ & _ & _ & _ & _ & _ & Hnum & _);
    [reflexivity|].
  split; [|split].
  - apply H9; [reflexivity|].
    right. eexists _, _, _. split; [left; reflexivity | reflexivity].
  - apply Hne. discriminate.
  - apply Hnum; [reflexivity|].
    intros [Hrows|(row & s & rest & Hin & ->)]; [discriminate|].
    destruct Hin as [Hin|[]]. discriminate.
Defined.

(** C3 as the specification states it fails: the year 2021 is not in the mapping of
    either table, and [_clean_dataframe] returns a frame with the layout of
    the old years in table 5 and with the layout of the table in table 8. *)
Lemma clean_dataframe_accepts_unknown_year :
  dict_get "2021" Table5.YEARWISE_CONFIG = None
  /\ dict_get "2021" Table8.YEARWISE_CONFIG = None
  /\ Table5._clean_dataframe sample_frame5 "2021"
     = Ok (Frame table5_columns_2004
             [ [CStr "Race / Ethnicity motivation"; CNum 10; CNum 1; CNum 2; CNum 3;
                CNum 4; CNum 0; CNum 0; CNum 0];
               [CStr "Anti-Jewish"; CNum 5; CNum 1; CNum 1; CNum 1; CNum 1; CNum 1;
                CNum 0; CNum 0] ])
  /\ Table8._clean_dataframe sample_frame8 "2021"
     = Ok (Frame table8_layout
             [ [CStr "Race / Ethnicity motivation"; CNum 10; CNum 1; CNum 2; CNum 3;
                CNum 4; CNum 0; CNum 0] ])
  /\ (forall e, Table5._clean_dataframe sample_frame5 "2021" <> Raise e)
  /\ (forall e, Table8._clean_dataframe sample_frame8 "2021" <> Raise e).
Proof.
  repeat split; try reflexivity; intros e; vm_compute; discriminate.
Qed.

(** * Further properties of the scripts *)

(** ** Merging the pairs of a label into statvars *)

Section DictUpdate.
Context {V : Type}.

Lemma dict_get_set_ne (k k' : string) (v : V) (d : dict V) :
  k <> k' -> dict_get k (dict_set k' v d) = dict_get k d.
Proof.
  intros Hne. induction d as [|[k0 v0] d IH]; cbn.
  - destruct (decide (k = k')); [contradiction | reflexivity].
  - destruct (decide (k' = k0)) as [->|Hk0]; cbn.
    + destruct (decide (k = k0)); [contradiction | reflexivity].
    + destruct (decide (k = k0)); [reflexivity | exact IH].
Qed.

Lemma dict_get_None_keys (k : string) (d : dict V) :
  dict_get k d = None <-> ~ In k (map fst d).
Proof.
  induction d as [|[k0 v0] d IH]; cbn.
  - tauto.
  - destruct (decide (k = k0)) as [->|Hne].
    + split; [discriminate | intros H; exfalso; apply H; left; reflexivity].
    + rewrite IH. split.
      * intros H [Heq|Hin]; [congruence | contradiction].
      * intros H Hin. apply H. right. exact Hin.
Qed.

Lemma dict_update_cons (d : dict V) (k : string) (v : V) (kv : dict V) :
  dict_update d ((k, v) :: kv) = dict_update (dict_set k v d) kv.
Proof. reflexivity. Qed.

(** After [d.update(kv)] a key of [kv] has the value of [kv], any other
    key the value that it had. *)
Lemma dict_get_update (k : string) (d kv : dict V) :
  dict_wf kv ->
  dict_get k (dict_update d kv)
  = match dict_get k kv with
    | Some v => Some v
    | None => dict_get k d
    end.
Proof.
  revert d. induction kv as [|[k0 v0] kv IH]; intros d Hwf; [reflexivity|].
  rewrite dict_update_cons.
  unfold dict_wf in Hwf. cbn [map fst] in Hwf. apply NoDup_cons in Hwf as [Hk0 Hwf].
  rewrite (IH _ Hwf). cbn [dict_get].
  destruct (decide (k = k0)) as [->|Hne].
  - assert (Hnone : dict_get k0 kv = None).
    { apply dict_get_None_keys. intros Hin. apply Hk0, list_elem_of_In. exact Hin. }
    rewrite Hnone. apply dict_get_set_eq.
  - destruct (dict_get k kv); [reflexivity|]. apply dict_get_set_ne. exact Hne.
Qed.

Lemma dict_set_keys_in (k : string) (v : V) (d : dict V) :
  In k (map fst d) -> map fst (dict_set k v d) = map fst d.
Proof.
  induction d as [|[k0 v0] d IH]; cbn; [tauto|].
  intros Hin. destruct (decide (k = k0)) as [->|Hne]; cbn; [reflexivity|].
  f_equal. apply IH. destruct Hin as [Heq|Hin]; [congruence | exact Hin].
Qed.

Lemma dict_set_keys_prefix (k : string) (v : V) (d : dict V) :
  map fst d `prefix_of` map fst (dict_set k v d).
Proof.
  destruct (In_dec string_dec k (map fst d)) as [Hin|Hout].
  - rewrite (dict_set_keys_in k v d Hin). reflexivity.
  - rewrite (dict_set_fresh k v d Hout), map_app. apply prefix_app_r. reflexivity.
Qed.

Lemma dict_set_wf (k : string) (v : V) (d : dict V) :
  dict_wf d -> dict_wf (dict_set k v d).
Proof.
  unfold dict_wf. intros Hwf.
  destruct (In_dec string_dec k (map fst d)) as [Hin|Hout].
  - rewrite (dict_set_keys_in k v d Hin). exact Hwf.
  - rewrite (dict_set_fresh k v d Hout), map_app. cbn [map fst].
    apply NoDup_app. split; [exact Hwf|]. split.
    + intros x Hx Hx'. apply list_elem_of_In in Hx, Hx'.
      destruct Hx' as [<-|[]]. contradiction.
    + apply NoDup_singleton.
Qed.

Lemma dict_update_keys_prefix (d kv : dict V) :
  map fst d `prefix_of` map fst (dict_update d kv).
Proof.
  revert d. induction kv as [|[k v] kv IH]; intros d; [reflexivity|].
  rewrite dict_update_cons. etransitivity; [apply (dict_set_keys_prefix k v)|apply IH].
Qed.

Lemma dict_update_wf (d kv : dict V) : dict_wf d -> dict_wf (dict_update d kv).
Proof.
  revert d. induction kv as [|[k v] kv IH]; intros d Hwf; [exact Hwf|].
  rewrite dict_update_cons. apply IH, dict_set_wf, Hwf.
Qed.
End DictUpdate.

(** The heap after [_update_statvars]: the objects of the list are merged
    with the pairs, the others are as they were. *)
Lemma update_statvars_heap (statvar_list : list ref) (key_value : ref)
    (kv : dict pyval) :
  NoDup statvar_list ->
  ~ In key_value statvar_list ->
  forall w : world,
    Forall (fun r => r < length (heap w)) statvar_list ->
    heap w !! key_value = Some kv ->
    exists h',
      _update_statvars statvar_list key_value w
      = (Ok tt, World h' (cleaned_csv w) (output_mcf w))
      /\ length h' = length (heap w)
      /\ (forall r, ~ In r statvar_list -> h' !! r = heap w !! r)
      /\ (forall r, In r statvar_list ->
            h' !! r = (fun sv => dict_update sv kv) <$> heap w !! r).
Proof.
  induction statvar_list as [|d l IH]; intros Hnodup Hkv w Hvalid Hlook.
  - exists (heap w). destruct w. cbn. repeat split; tauto.
  - apply NoDup_cons in Hnodup as [Hd Hnodup].
    apply Forall_cons in Hvalid as [Hdlt Hvalid].
    destruct (lookup_lt_is_Some_2 _ _ Hdlt) as [sv Hsv].
    assert (Hne : key_value <> d) by (intros ->; apply Hkv; left; reflexivity).
    assert (Hkv' : ~ In key_value l) by (intros Hin; apply Hkv; right; exact Hin).
    set (w1 := World (<[d := dict_update sv kv]> (heap w)) (cleaned_csv w) (output_mcf w)).
    destruct (IH Hnodup Hkv' w1) as (h' & Hrun & Hlen & Hout & Hin).
    { cbn [w1 heap]. eapply Forall_impl; [exact Hvalid|]. cbn beta.
      intros r Hr. rewrite length_insert. exact Hr. }
    { cbn [w1 heap]. rewrite list_lookup_insert_ne by congruence. exact Hlook. }
    exists h'. split.
    { unfold _update_statvars in *. cbn [for_each].
      unfold bind at 1. unfold bind at 1. unfold deref at 1. rewrite Hlook.
      unfold modify at 1. rewrite Hsv. fold w1. exact Hrun. }
    cbn [w1 heap] in Hlen, Hout, Hin. rewrite length_insert in Hlen.
    split; [exact Hlen|]. split.
    + intros r Hr. rewrite Hout by (intros Hx; apply Hr; right; exact Hx).
      apply list_lookup_insert_ne. intros ->. apply Hr. left. reflexivity.
    + intros r [<-|Hr].
      * rewrite Hout by (intros Hx; apply Hd, list_elem_of_In; exact Hx).
        rewrite list_lookup_insert_eq by exact Hdlt. rewrite Hsv. reflexivity.
      * rewrite (Hin r Hr). rewrite list_lookup_insert_ne; [reflexivity|].
        intros ->. apply Hd, list_elem_of_In. exact Hr.
Qed.

(** X1.  [_update_statvars] on distinct statvars that are not the
    dictionary of pairs itself: it returns, changes neither file nor any
    other object, and in each statvar a key of the pairs gets the value of
    the pairs while every other key keeps its value; the keys that the
    statvar had keep their positions, and no key is held twice. *)
Theorem update_statvars_merges_pairs (statvar_list : list ref) (key_value : ref)
    (kv : dict pyval) (w : world) :
  NoDup statvar_list ->
  ~ In key_value statvar_list ->
  Forall (fun r => r < length (heap w)) statvar_list ->
  heap w !! key_value = Some kv ->
  dict_wf kv ->
  exists h',
    _update_statvars statvar_list key_value w
    = (Ok tt, World h' (cleaned_csv w) (output_mcf w))
    /\ length h' = length (heap w)
    /\ (forall r, ~ In r statvar_list -> h' !! r = heap w !! r)
    /\ (forall r sv, In r statvar_list -> heap w !! r = Some sv ->
          exists sv',
            h' !! r = Some sv'
            /\ (forall k, dict_get k sv'
                          = match dict_get k kv with
                            | Some v => Some v
                            | None => dict_get k sv
                            end)
            /\ map fst sv `prefix_of` map fst sv'
            /\ (dict_wf sv -> dict_wf sv')).
Proof.
  intros Hnodup Hkv Hvalid Hlook Hwf.
  destruct (update_statvars_heap statvar_list key_value kv Hnodup Hkv w Hvalid Hlook)
    as (h' & Hrun & Hlen & Hout & Hin).
  exists h'. repeat split; try assumption.
  intros r sv Hr Hsv. exists (dict_update sv kv).
  rewrite (Hin r Hr), Hsv. split; [reflexivity|]. split.
  - intros k. apply dict_get_update. exact Hwf.
  - split; [apply dict_update_keys_prefix | apply dict_update_wf].
Qed.

Lemma update_statvars_merges_pairs_witness :
  exists h',
    _update_statvars [0; 1] 2 sample_world = (Ok tt, World h' [] None)
    /\ h' !! 0
       = Some [("populationType", PyStr "CriminalIncidents"); ("offenderRace", PyStr "White");
               ("biasMotivation", PyStr "religion"); ("targetedReligion", PyStr "Jewish")]
    /\ h' !! 3 = Some [("biasMotivation", PyStr "gender")].
Proof.
  destruct (update_statvars_merges_pairs [0; 1] 2
              [("biasMotivation", PyStr "religion"); ("targetedReligion", PyStr "Jewish")]
              sample_world)
    as (h' & Hrun & _ & _ & _).
  - refine (bool_decide_unpack _ _). vm_compute. exact I.
  - cbn. intros [H|[H|[]]]; discriminate.
  - repeat constructor.
  - reflexivity.
  - refine (bool_decide_unpack _ _). vm_compute. exact I.
  - exists h'. split; [exact Hrun|].
    assert (Hh : h' = heap (_update_statvars [0; 1] 2 sample_world).2)
      by (rewrite Hrun; reflexivity).
    rewrite Hh. split; reflexivity.
Defined.

(** ** The identifier and the other properties of a statvar *)

Lemma mcf_body_set_node (v : pyval) (sv : dict pyval) :
  mcf_body (dict_set "Node" v sv) = mcf_body sv.
Proof.
  unfold mcf_body. f_equal.
  induction sv as [|[k0 v0] sv IH]; [reflexivity|].
  cbn [dict_set]. destruct (decide ("Node" = k0)) as [<-|Hne].
  - rewrite !filter_cons. cbn [fst].
    destruct (decide ("Node" <> "Node")); [congruence | reflexivity].
  - rewrite !filter_cons. cbn [fst]. rewrite IH. reflexivity.
Qed.

Lemma mcf_body_line (q : string) (v : pyval) (sv : dict pyval) :
  q <> "Node" -> In (q, v) sv -> In (q +:+ ": dcs:" +:+ py_str v) (mcf_body sv).
Proof.
  intros Hq Hin. unfold mcf_body.
  apply (in_map (fun kv : string * pyval => kv.1 +:+ ": dcs:" +:+ py_str kv.2)
                (filter (fun kv : string * pyval => kv.1 <> "Node") sv) (q, v)).
  apply list_elem_of_In, list_elem_of_filter. split; [exact Hq|].
  apply list_elem_of_In. exact Hin.
Qed.

(** X2.  [_update_statvar_dcids] on a statvar for which the generator
    returns an identifier: the identifier is stored under ['Node'] and
    nothing else changes in the statvar, so the properties that were
    ignored for the identifier are still there; [_create_mcf] then writes
    the header of the identifier and one line for every other property,
    ignored or not. *)
Theorem dcid_leaves_properties (G : DcidGenerator) (cfg : config) (w : world)
    (r : ref) (sv : dict pyval) (dcid : string) :
  heap w !! r = Some sv ->
  get_statvar_dcid sv (_get_dpv sv cfg) = Ok dcid ->
  let sv' := dict_set "Node" (PyStr dcid) sv in
  let w' := World (<[r := sv']> (heap w)) (cleaned_csv w) (output_mcf w) in
  _update_statvar_dcids [r] cfg w = (Ok tt, w')
  /\ dict_get "Node" sv' = Some (PyStr dcid)
  /\ (forall k, k <> "Node" -> dict_get k sv' = dict_get k sv)
  /\ map fst sv `prefix_of` map fst sv'
  /\ mcf_body sv' = mcf_body sv
  /\ (forall q v, q <> "Node" -> In (q, v) sv ->
        In (q +:+ ": dcs:" +:+ py_str v) (mcf_body sv'))
  /\ _create_mcf [r] w'
     = (Ok tt,
        World (heap w') (cleaned_csv w)
              (Some ("Node: dcid:" +:+ dcid +:+ nl
                     +:+ String.concat nl (mcf_body sv) +:+ nl +:+ nl))).
Proof.
  intros Hsv Hdcid sv' w'.
  split.
  { rewrite (update_statvar_dcids_one w r sv cfg Hsv), Hdcid. reflexivity. }
  split; [apply dict_get_set_eq|].
  split; [intros k Hk; apply dict_get_set_ne; exact Hk|].
  split; [apply dict_set_keys_prefix|].
  split; [apply mcf_body_set_node|].
  split.
  { intros q v Hq Hin. unfold sv'. rewrite mcf_body_set_node.
    apply mcf_body_line; assumption. }
  assert (Hr : heap w' !! r = Some sv').
  { unfold w'. cbn [heap]. apply list_lookup_insert_eq.
    apply lookup_lt_Some in Hsv. exact Hsv. }
  rewrite (create_mcf_run w' [r] [sv']).
  - unfold w'. cbn [heap cleaned_csv output_mcf first_seen mcf_text fold_right].
    rewrite filter_nil. cbn [fold_right]. unfold mcf_header.
    rewrite (carries_node_val sv' dcid) by apply dict_get_set_eq.
    cbn [py_str]. unfold sv'. rewrite mcf_body_set_node.
    rewrite !str_app_assoc, str_app_nil_r. reflexivity.
  - constructor; [exact Hr | constructor].
  - constructor; [|constructor]. exists dcid. apply dict_get_set_eq.
Qed.

Lemma dcid_leaves_properties_witness :
  let sv := [("biasMotivation", PyStr "religion"); ("targetedReligion", PyStr "Jewish")] in
  let cfg := Config [] [] [DpvSpec "targetedReligion" "biasMotivation" (PyStr "religion")] in
  _get_dpv sv cfg = ["biasMotivation"]
  /\ output_mcf
       (_create_mcf [0] (@_update_statvar_dcids sample_dcid [0] cfg (World [sv] [] None)).2).2
     = Some ("Node: dcid:Jewish" +:+ nl
             +:+ "biasMotivation: dcs:religion" +:+ nl
             +:+ "targetedReligion: dcs:Jewish" +:+ nl +:+ nl).
Proof.
  intros sv cfg. split; [reflexivity|].
  destruct (dcid_leaves_properties sample_dcid cfg (World [sv] [] None) 0 sv "Jewish")
    as (Hrun & _ & _ & _ & _ & _ & Hmcf).
  - reflexivity.
  - reflexivity.
  - rewrite Hrun. cbn [snd]. rewrite Hmcf. reflexivity.
Defined.

(** ** What the writer of the observations keeps *)

Lemma hoare_and {A : Type} (m : M A) (P P' : world -> Prop)
    (Q Q' : A -> world -> Prop) (E E' : world -> Prop) :
  hoare P m Q E -> hoare P' m Q' E' ->
  hoare (fun w => P w /\ P' w) m (fun a w => Q a w /\ Q' a w) (fun w => E w /\ E' w).
Proof.
  intros H H' w [Hw Hw']. specialize (H w Hw). specialize (H' w Hw').
  destruct (m w) as [[a|e] w']; split; assumption.
Qed.

Section Keeps.
Context {G : DcidGenerator}.
Variable I : world -> Prop.

Lemma keeps_ret {A : Type} (a : A) : keeps I (ret a).
Proof. intros w Hw. exact Hw. Qed.

Lemma keeps_lift {A : Type} (r : result A) : keeps I (lift r).
Proof. intros w Hw. unfold lift. destruct r; exact Hw. Qed.

Lemma keeps_bind {A B : Type} (m : M A) (k : A -> M B) :
  keeps I m -> (forall a, keeps I (k a)) -> keeps I (bind m k).
Proof.
  intros Hm Hk w Hw. unfold bind. specialize (Hm w Hw).
  destruct (m w) as [[a|e] w1]; [exact (Hk a w1 Hm) | exact Hm].
Qed.

Lemma keeps_for_each {A : Type} (l : list A) (body : A -> M unit) :
  (forall x, keeps I (body x)) -> keeps I (for_each l body).
Proof.
  intros Hbody. induction l as [|x l IH]; cbn [for_each].
  - apply keeps_ret.
  - apply keeps_bind; [apply Hbody | intros _; exact IH].
Qed.

Lemma keeps_mapM {A B : Type} (f : A -> M B) (l : list A) :
  (forall x, keeps I (f x)) -> keeps I (mapM f l).
Proof.
  intros Hf. induction l as [|x l IH]; cbn [mapM].
  - apply keeps_ret.
  - apply keeps_bind; [apply Hf|]. intros y.
    apply keeps_bind; [exact IH|]. intros ys. apply keeps_ret.
Qed.

Lemma keeps_foldM {A S : Type} (body : S -> A -> M S) (l : list A) :
  (forall s x, keeps I (body s x)) -> forall s, keeps I (foldM body s l).
Proof.
  intros Hbody. induction l as [|x l IH]; intros s; cbn [foldM].
  - apply keeps_ret.
  - apply keeps_bind; [apply Hbody | intros s'; apply IH].
Qed.

Lemma keeps_deref (r : ref) : keeps I (deref r).
Proof. intros w Hw. unfold deref. destruct (heap w !! r); exact Hw. Qed.

(** The property does not depend on the heap. *)
Hypothesis I_heap :
  forall w h', I w -> I (World h' (cleaned_csv w) (output_mcf w)).

Lemma keeps_alloc (d : dict pyval) : keeps I (alloc d).
Proof. intros w Hw. unfold alloc. apply I_heap, Hw. Qed.

Lemma keeps_modify (r : ref) (f : dict pyval -> dict pyval) : keeps I (modify r f).
Proof.
  intros w Hw. unfold modify. destruct (heap w !! r); [apply I_heap|]; exact Hw.
Qed.

Lemma keeps_new_statvar (cfg : config) (c : string) : keeps I (new_statvar cfg c).
Proof.
  unfold new_statvar. apply keeps_bind; [apply keeps_lift|]. intros t.
  apply keeps_bind; [apply keeps_deref|]. intros d. apply keeps_alloc.
Qed.

Lemma keeps_update_statvars (l : list ref) (kv : ref) : keeps I (_update_statvars l kv).
Proof.
  unfold _update_statvars. apply keeps_for_each. intros d.
  apply keeps_bind; [apply keeps_deref|]. intros x. apply keeps_modify.
Qed.

Lemma keeps_update_statvar_dcids (l : list ref) (cfg : config) :
  keeps I (_update_statvar_dcids l cfg).
Proof.
  unfold _update_statvar_dcids. apply keeps_for_each. intros d.
  apply keeps_bind; [apply keeps_deref|]. intros sv. cbv zeta.
  apply keeps_bind; [apply keeps_lift|]. intros dcid. apply keeps_modify.
Qed.

(** The property does not depend on the rows that the cleaned CSV receives
    at its end. *)
Hypothesis I_row :
  forall w line, I w -> I (World (heap w) (cleaned_csv w ++ [line]) (output_mcf w)).

Lemma keeps_write_row (year node quantity : pyval) :
  keeps I (_write_row year node quantity).
Proof. intros w Hw. rewrite write_row_run. apply I_row, Hw. Qed.

Lemma keeps_process_crime (columns : list string) (cfg : config) (crime : dict pyval) :
  keeps I (process_crime columns cfg crime).
Proof.
  unfold process_crime.
  apply keeps_bind; [apply keeps_lift|]. intros label.
  apply keeps_bind; [apply keeps_lift|]. intros kv.
  apply keeps_bind; [apply keeps_mapM; intros c; apply keeps_new_statvar|].
  intros statvar_list.
  apply keeps_bind; [apply keeps_update_statvars|]. intros _.
  apply keeps_bind; [apply keeps_update_statvar_dcids|]. intros _.
  apply keeps_bind; [|intros _; apply keeps_ret].
  apply keeps_for_each. intros [idx c].
  apply keeps_bind; [apply keeps_lift|]. intros year.
  apply keeps_bind; [apply keeps_lift|]. intros sv.
  apply keeps_bind; [apply keeps_deref|]. intros d.
  apply keeps_bind; [apply keeps_lift|]. intros node.
  apply keeps_bind; [apply keeps_lift|]. intros quantity.
  apply keeps_write_row.
Qed.

Lemma keeps_process_reader (body : dict pyval -> M (list ref)) (reader : DictReader) :
  (forall crime, keeps I (body crime)) -> keeps I (process_reader body reader).
Proof.
  intros Hbody. unfold process_reader. apply keeps_foldM. intros statvars crime.
  apply keeps_bind; [apply Hbody | intros l; apply keeps_ret].
Qed.

Lemma keeps_table5_write_output_csv (reader : DictReader) (cfg : config) :
  keeps I (Table5._write_output_csv reader cfg).
Proof.
  unfold Table5._write_output_csv.
  apply keeps_bind; [apply keeps_lift|]. intros columns.
  apply keeps_bind; [apply keeps_lift|]. intros columns'.
  apply keeps_process_reader. intros crime. apply keeps_process_crime.
Qed.

Lemma keeps_table8_write_output_csv (reader : DictReader) (cfg : config) :
  keeps I (Table8._write_output_csv reader cfg).
Proof.
  intros w Hw. rewrite table8_write_output_csv. revert w Hw.
  apply keeps_process_reader. intros crime. apply keeps_process_crime.
Qed.

Lemma keeps_files (write : DictReader -> M (list ref))
    (csv_files : list DictReader) (acc : list ref) :
  (forall reader, keeps I (write reader)) ->
  keeps I (foldM (fun statvars reader =>
                    let* statvars_list := write reader in
                    ret (statvars ++ statvars_list))
                 acc csv_files).
Proof.
  intros Hwrite. apply keeps_foldM. intros statvars reader.
  apply keeps_bind; [apply Hwrite | intros l; apply keeps_ret].
Qed.
End Keeps.

(** X3.  Whether [_write_output_csv] returns or raises, in table 5 and in
    table 8: the cleaned CSV is the one of before with rows added at its
    end, and the MCF file is untouched. *)
Theorem write_output_csv_only_appends (G : DcidGenerator) (reader : DictReader)
    (cfg : config) (w : world) :
  (cleaned_csv w `prefix_of` cleaned_csv (Table5._write_output_csv reader cfg w).2
   /\ output_mcf (Table5._write_output_csv reader cfg w).2 = output_mcf w)
  /\ (cleaned_csv w `prefix_of` cleaned_csv (Table8._write_output_csv reader cfg w).2
      /\ output_mcf (Table8._write_output_csv reader cfg w).2 = output_mcf w).
Proof.
  set (I := fun w' => cleaned_csv w `prefix_of` cleaned_csv w'
                      /\ output_mcf w' = output_mcf w).
  assert (Hheap : forall w1 h', I w1 -> I (World h' (cleaned_csv w1) (output_mcf w1))).
  { intros w1 h' Hw1. exact Hw1. }
  assert (Hrow : forall w1 line,
             I w1 -> I (World (heap w1) (cleaned_csv w1 ++ [line]) (output_mcf w1))).
  { intros w1 line [Hcsv Hmcf]. split; [|exact Hmcf].
    cbn [cleaned_csv]. apply prefix_app_r. exact Hcsv. }
  assert (Hw : I w) by (split; reflexivity).
  split.
  - pose proof (keeps_table5_write_output_csv I Hheap Hrow reader cfg w Hw) as H.
    destruct (Table5._write_output_csv reader cfg w) as [[l|e] w']; exact H.
  - pose proof (keeps_table8_write_output_csv I Hheap Hrow reader cfg w Hw) as H.
    destruct (Table8._write_output_csv reader cfg w) as [[l|e] w']; exact H.
Qed.

(** ** The columns of the header *)






(** X5.  On a file with the header that the main block of table 8 gives
    its CSV files, the year column followed by the eight columns of the
    layout, [_write_output_csv] of table 8, which builds and writes the
    seven statvars one by one, is [_write_output_csv] of table 5, which
    loops over the columns of the header. *)
Theorem table8_writer_is_table5_writer (G : DcidGenerator) (reader : DictReader)
    (cfg : config) (w : world) :
  fieldnames reader = "Year" :: table8_layout ->
  Table8._write_output_csv reader cfg w = Table5._write_output_csv reader cfg w.
Proof.
  intros Hheader. rewrite table8_write_output_csv.
  unfold Table5._write_output_csv. rewrite Hheader. reflexivity.
Qed.

Lemma table8_writer_is_table5_writer_witness :
  let reader :=
    Reader ("Year" :: table8_layout)
      [ [("Year", PyStr "2019"); ("bias motivation", PyStr "Gender");
         ("total incidents", PyStr "7")] ] in
  @Table8._write_output_csv sample_dcid reader sample_config sample_world
  = @Table5._write_output_csv sample_dcid reader sample_config sample_world.
Proof.
  intros reader.
  apply (table8_writer_is_table5_writer sample_dcid reader sample_config sample_world).
  reflexivity.
Defined.

(** ** The rows of one source row are written together *)



Section WholeRows.
Context {G : DcidGenerator}.


End WholeRows.




(** ** A column without a template *)

Lemma mapM_raise {A B : Type} (f : A -> M B) (pre : list A) (c : A) (post : list A)
    (e : exn) :
  forall (w w1 w2 : world) (ys : list B),
    mapM f pre w = (Ok ys, w1) ->
    f c w1 = (Raise e, w2) ->
    mapM f (pre ++ c :: post) w = (Raise e, w2).
Proof.
  induction pre as [|x pre IH]; intros w w1 w2 ys Hpre Hc.
  - cbn in Hpre. injection Hpre as <- <-. cbn [app mapM]. unfold bind. rewrite Hc.
    reflexivity.
  - cbn [app mapM] in *. unfold bind at 1 in Hpre. unfold bind at 1.
    destruct (f x w) as [[y|e'] w']; [|discriminate].
    unfold bind at 1 in Hpre. unfold bind at 1.
    destruct (mapM f pre w') as [[ys'|e'] w''] eqn:Hrest; [|discriminate].
    injection Hpre as <- <-.
    rewrite (IH w' w'' w2 ys' Hrest Hc). reflexivity.
Qed.

(** X7.  A source row with a mapped label and a fact column that has no
    template in [config['populationType']]: the row raises [KeyError] of
    the first such column.  The copies of the templates of the columns
    before it are already built, nothing is written, and no template or
    other object has changed.  Table 8 does the same with its seven
    columns. *)
Theorem column_without_template_raises (G : DcidGenerator) (cfg : config)
    (crime : dict pyval) (w : world) (label : string) (kv : ref)
    (columns pre post : list string) (c : string) :
  dict_get "bias motivation" crime = Some (PyStr label) ->
  dict_get label (pvs cfg) = Some kv ->
  columns = pre ++ c :: post ->
  Forall (fun c' => exists t, dict_get c' (populationType cfg) = Some t
                              /\ t < length (heap w)) pre ->
  dict_get c (populationType cfg) = None ->
  let failed :=
    (Raise (KeyError (PyStr c)),
     World (heap w ++ map (fun c' => dict_copy (template_of cfg (heap w) c')) pre)
           (cleaned_csv w) (output_mcf w)) in
  process_crime columns cfg crime w = failed
  /\ (columns = table8_columns -> Table8.process_crime cfg crime w = failed).
Proof.
  intros Hlabel Hpvs -> Hpre Hc failed.
  assert (Hrun : process_crime (pre ++ c :: post) cfg crime w = failed).
  { unfold process_crime. unfold getitem at 1. rewrite Hlabel, bind_lift_Ok.
    cbn [getitem_val]. unfold getitem at 1. rewrite Hpvs, bind_lift_Ok.
    unfold bind at 1.
    destruct w as [h csv mcf]. cbn [heap cleaned_csv output_mcf] in *.
    pose proof (new_statvars_canonical cfg h pre Hpre [] csv mcf) as Hcopies.
    rewrite app_nil_r in Hcopies.
    erewrite (mapM_raise (new_statvar cfg) pre c post (KeyError (PyStr c)) _ _ _ _ Hcopies);
      [reflexivity|].
    unfold new_statvar, bind, lift, getitem. rewrite Hc. reflexivity. }
  split; [exact Hrun|]. intros H8. rewrite table8_process_crime, <- H8. exact Hrun.
Qed.

Lemma column_without_template_raises_witness :
  let crime := [("Year", PyStr "2019"); ("bias motivation", PyStr "Gender");
                ("white", PyStr "1"); ("asian", PyStr "0")] in
  @process_crime sample_dcid ["white"; "asian"; "black or african american"]
     sample_config crime sample_world
  = (Raise (KeyError (PyStr "asian")),
     World (sample_heap
            ++ [[("populationType", PyStr "CriminalIncidents");
                 ("offenderRace", PyStr "White")]])
           [] None).
Proof.
  intros crime.
  destruct (column_without_template_raises sample_dcid sample_config crime sample_world
              "Gender" 3 ["white"; "asian"; "black or african american"]
              ["white"] ["black or african american"] "asian") as [Hrun _].
  - reflexivity.
  - reflexivity.
  - reflexivity.
  - constructor; [|constructor]. exists 0. split; [reflexivity | cbn; lia].
  - reflexivity.
  - exact Hrun.
Defined.

(** ** A row that fails after rows that went through *)

Lemma process_crime_unmapped {G : DcidGenerator} (columns : list string)
    (cfg : config) (crime : dict pyval) (label : string) (w : world) :
  dict_get "bias motivation" crime = Some (PyStr label) ->
  dict_get label (pvs cfg) = None ->
  process_crime columns cfg crime w = (Raise (KeyError (PyStr label)), w).
Proof.
  intros Hlabel Hpvs. unfold process_crime, bind, lift, getitem_val, getitem.
  rewrite Hlabel, Hpvs. reflexivity.
Qed.

(** X8.  A file whose first rows are canonical and whose next row has a
    label that [config['pvs']] does not map: [_write_output_csv] raises
    [KeyError] of that label, and the cleaned CSV holds the observations of
    the rows before it: what was written stays written, the statvars of
    those rows stay in the heap, and the MCF file is untouched. *)
Theorem failing_row_leaves_earlier_rows (G : DcidGenerator) (reader : DictReader)
    (cfg : config) (w : world) (columns : list string)
    (good : list (dict pyval)) (bad : dict pyval) (rest : list (dict pyval))
    (label : string) :
  rows reader = good ++ bad :: rest ->
  Forall (canonical_row cfg (heap w) columns) good ->
  dict_get "bias motivation" bad = Some (PyStr label) ->
  dict_get label (pvs cfg) = None ->
  let failed :=
    (Raise (KeyError (PyStr label)),
     World (heap w
            ++ flat_map (fun crime => map (resolved_statvar cfg (heap w) crime) columns)
                        good)
           (cleaned_csv w ++ observations cfg (heap w) columns good)
           (output_mcf w)) in
  (table5_header_ok reader -> columns = fact_columns (fieldnames reader) ->
   Table5._write_output_csv reader cfg w = failed)
  /\ (columns = table8_columns -> Table8._write_output_csv reader cfg w = failed).
Proof.
  intros Hsplit Hgood Hlabel Hpvs failed.
  assert (Hrun : process_reader (process_crime columns cfg) reader w = failed).
  { unfold process_reader. rewrite Hsplit, foldM_app. unfold bind at 1.
    destruct w as [h csv mcf]. cbn [heap cleaned_csv output_mcf] in *.
    pose proof (process_rows_canonical cfg h columns good Hgood [] csv mcf []) as Hloop.
    rewrite app_nil_r in Hloop. rewrite Hloop.
    cbn [foldM]. unfold bind at 1. unfold bind at 1.
    rewrite (process_crime_unmapped columns cfg bad label _ Hlabel Hpvs). reflexivity. }
  split.
  - intros (Hnd & Hbias & Hyear) ->.
    destruct (fact_columns_remove (fieldnames reader) Hnd Hbias Hyear)
      as (cols1 & H1 & H2).
    unfold Table5._write_output_csv. cbv zeta. unfold bind, lift.
    rewrite H1, H2. exact Hrun.
  - intros ->. rewrite table8_write_output_csv. exact Hrun.
Qed.

Lemma failing_row_leaves_earlier_rows_witness :
  let bad := [("Year", PyStr "2019"); ("bias motivation", PyStr "Anti-Martian");
              ("white", PyStr "1"); ("black or african american", PyStr "0")] in
  let reader := Reader (fieldnames sample_reader) (rows sample_reader ++ [bad]) in
  exists h',
    @Table5._write_output_csv sample_dcid reader sample_config sample_world
    = (Raise (KeyError (PyStr "Anti-Martian")),
       World h'
         [ CsvRow [PyStr "2019"; PyStr "CriminalIncidents_White_Jewish"; PyStr "3"];
           CsvRow [PyStr "2019"; PyStr "CriminalIncidents_BlackOrAfricanAmerican_Jewish";
                   PyStr "4"];
           CsvRow [PyStr "2019"; PyStr "CriminalIncidents_White_gender"; PyStr "5"];
           CsvRow [PyStr "2019"; PyStr "CriminalIncidents_BlackOrAfricanAmerican_gender";
                   PyStr EmptyString] ]
         None).
Proof.
  intros bad reader.
  destruct (failing_row_leaves_earlier_rows sample_dcid reader sample_config sample_world
              ["white"; "black or african american"] (rows sample_reader) bad []
              "Anti-Martian") as [Hrun _].
  - reflexivity.
  - unfold sample_reader, sample_world, sample_config, sample_heap. cbn [rows heap].
    canonical_rows.
  - reflexivity.
  - reflexivity.
  - eexists. rewrite Hrun.
    + reflexivity.
    + split; [|split].
      * refine (bool_decide_unpack _ _). vm_compute. exact I.
      * cbn. auto.
      * cbn. auto.
    + reflexivity.
Defined.

(** ** What [_create_mcf] leaves as it was *)

Lemma create_mcf_fate (stat_vars : list ref) (w : world) :
  match _create_mcf stat_vars w with
  | (Ok _, w') =>
      heap w' = heap w /\ cleaned_csv w' = cleaned_csv w /\ is_Some (output_mcf w')
  | (Raise _, w') => w' = w
  end.
Proof.
  unfold _create_mcf, bind.
  pose proof (create_mcf_loop_world stat_vars (∅, EmptyString) w) as Hw.
  destruct (foldM _create_mcf_step (∅, EmptyString) stat_vars w) as [[st|e] w'];
    cbn [snd] in Hw; subst w'.
  - cbn [heap cleaned_csv output_mcf]. repeat split. eexists. reflexivity.
  - reflexivity.
Qed.

Lemma create_mcf_step_strings (dcid_set dcid_set' : gset pyval) (t t' : string)
    (r : ref) (w w' : world) :
  _create_mcf_step (dcid_set, t) r w = (Ok (dcid_set', t'), w') ->
  PyNone ∈ dcid_set' -> PyNone ∈ dcid_set.
Proof.
  unfold _create_mcf_step, bind, deref, lift. intros Hstep Hnone.
  destruct (heap w !! r) as [sv|]; [|discriminate].
  destruct (getitem sv "Node") as [dcid|e]; [|discriminate].
  destruct (decide (dcid ∈ dcid_set)).
  - unfold ret in Hstep. injection Hstep as <- _ _. exact Hnone.
  - destruct dcid as [|s]; cbn [str_add] in Hstep; [discriminate|].
    unfold ret in Hstep. injection Hstep as <- _ _.
    apply elem_of_union in Hnone as [Hin|Hin]; [exact Hin|].
    apply elem_of_singleton in Hin. discriminate.
Qed.

Lemma create_mcf_loop_strings (l : list ref) :
  forall (dcid_set dcid_set' : gset pyval) (t t' : string) (w w' : world),
    foldM _create_mcf_step (dcid_set, t) l w = (Ok (dcid_set', t'), w') ->
    PyNone ∈ dcid_set' -> PyNone ∈ dcid_set.
Proof.
  induction l as [|r l IH]; intros S S' t t' w w' Hloop Hnone.
  - cbn in Hloop. injection Hloop as <- _ _. exact Hnone.
  - cbn [foldM] in Hloop. unfold bind at 1 in Hloop.
    destruct (_create_mcf_step (S, t) r w) as [[[S1 t1]|e] w1] eqn:Hstep; [|discriminate].
    eapply create_mcf_step_strings; [exact Hstep|].
    eapply IH; [exact Hloop | exact Hnone].
Qed.

(** X9.  [_create_mcf] on a list whose first statvars carry identifiers and
    whose next one does not: a statvar without ['Node'] raises
    [KeyError('Node')], one whose ['Node'] is [None] raises [TypeError];
    either way the MCF file is not written and nothing else has changed. *)
Theorem create_mcf_without_identifier (w : world) (stat_vars l1 l2 : list ref)
    (r : ref) (svs1 : list (dict pyval)) (sv : dict pyval) :
  stat_vars = l1 ++ r :: l2 ->
  Forall2 (fun r1 sv1 => heap w !! r1 = Some sv1) l1 svs1 ->
  Forall carries_node svs1 ->
  heap w !! r = Some sv ->
  (dict_get "Node" sv = None ->
   _create_mcf stat_vars w = (Raise (KeyError (PyStr "Node")), w))
  /\ (dict_get "Node" sv = Some PyNone ->
      _create_mcf stat_vars w = (Raise TypeError, w)).
Proof.
  intros -> Hrefs Hcarry Hsv.
  destruct (create_mcf_loop w l1 svs1 Hrefs Hcarry ∅ EmptyString) as [S' Hloop].
  assert (Hnone : PyNone ∉ S').
  { intros Hin. apply (create_mcf_loop_strings _ _ _ _ _ _ _ Hloop) in Hin.
    apply not_elem_of_empty in Hin. exact Hin. }
  split; intros Hnode.
  - unfold _create_mcf. unfold bind at 1. rewrite foldM_app. unfold bind at 1.
    rewrite Hloop. cbn [foldM]. unfold bind at 1.
    unfold _create_mcf_step at 1, bind, deref, lift, getitem. rewrite Hsv, Hnode.
    reflexivity.
  - unfold _create_mcf. unfold bind at 1. rewrite foldM_app. unfold bind at 1.
    rewrite Hloop. cbn [foldM]. unfold bind at 1.
    unfold _create_mcf_step at 1, bind, deref, lift, getitem. rewrite Hsv, Hnode.
    destruct (decide (PyNone ∈ S')); [contradiction | reflexivity].
Qed.

Lemma create_mcf_without_identifier_witness :
  let w := World (sample_statvars ++ [[("populationType", PyStr "CriminalIncidents")]])
                 [] (Some "old") in
  _create_mcf [0; 1; 3; 2] w = (Raise (KeyError (PyStr "Node")), w).
Proof.
  intros w.
  destruct (create_mcf_without_identifier w [0; 1; 3; 2] [0; 1] [2] 3
              (take 2 sample_statvars) [("populationType", PyStr "CriminalIncidents")])
    as [Hmissing _].
  - reflexivity.
  - repeat constructor.
  - repeat constructor; eexists; reflexivity.
  - reflexivity.
  - apply Hmissing. reflexivity.
Defined.

(** ** Statvars whose identifiers are known *)

Lemma create_mcf_loop_covers (l : list ref) :
  forall (dcid_set dcid_set' : gset pyval) (t t' : string) (w w' : world),
    foldM _create_mcf_step (dcid_set, t) l w = (Ok (dcid_set', t'), w') ->
    forall r sv, In r l -> heap w !! r = Some sv ->
      exists v, dict_get "Node" sv = Some v /\ v ∈ dcid_set'.
Proof.
  induction l as [|r0 l IH]; intros S S' t t' w w' Hloop r sv Hin Hsv; [destruct Hin|].
  cbn [foldM] in Hloop. unfold bind at 1 in Hloop.
  pose proof (create_mcf_step_world (S, t) r0 w) as Hw1.
  destruct (_create_mcf_step (S, t) r0 w) as [[[S1 t1]|e] w1] eqn:Hstep; [|discriminate].
  cbn [snd] in Hw1. subst w1.
  destruct Hin as [<-|Hin].
  - destruct (create_mcf_step_adds _ _ _ _ _ _ _ _ Hsv Hstep) as [_ (v & Hv & Hin1)].
    exists v. split; [exact Hv|].
    pose proof (create_mcf_loop_mono _ _ _ _ _ _ _ Hloop) as Hmono.
    apply Hmono. exact Hin1.
  - eapply IH; eassumption.
Qed.

Lemma create_mcf_loop_known (l : list ref) (dcid_set : gset pyval) (t : string)
    (w : world) :
  (forall r, In r l ->
     exists sv v, heap w !! r = Some sv /\ dict_get "Node" sv = Some v /\ v ∈ dcid_set) ->
  foldM _create_mcf_step (dcid_set, t) l w = (Ok (dcid_set, t), w).
Proof.
  induction l as [|r l IH]; intros Hknown; [reflexivity|].
  cbn [foldM]. unfold bind at 1.
  destruct (Hknown r (or_introl eq_refl)) as (sv & v & Hsv & Hv & Hin).
  rewrite (create_mcf_step_seen dcid_set t r sv v w Hsv Hv Hin).
  apply IH. intros r' Hr'. apply Hknown. right. exact Hr'.
Qed.

(** X10.  Statvars at the end of the list whose identifiers are those of
    statvars before them change nothing: [_create_mcf] writes the same
    file, or raises the same exception, as without them.  The statvars of
    a second year that repeat those of the first add nothing to the MCF
    file. *)
Theorem create_mcf_known_identifiers_add_nothing (w : world) (l1 l2 : list ref) :
  (forall r2, In r2 l2 ->
     exists r1 sv1 sv2,
       In r1 l1 /\ heap w !! r1 = Some sv1 /\ heap w !! r2 = Some sv2
       /\ dict_get "Node" sv2 = dict_get "Node" sv1) ->
  _create_mcf (l1 ++ l2) w = _create_mcf l1 w.
Proof.
  intros Hknown.
  assert (Hloop2 : foldM _create_mcf_step (∅, EmptyString) (l1 ++ l2) w
                   = foldM _create_mcf_step (∅, EmptyString) l1 w).
  { rewrite foldM_app. unfold bind.
    pose proof (create_mcf_loop_world l1 (∅, EmptyString) w) as Hw1.
    destruct (foldM _create_mcf_step (∅, EmptyString) l1 w) as [[[S' t']|e] w1] eqn:Hloop;
      cbn [snd] in Hw1; subst w1; [|reflexivity].
    apply create_mcf_loop_known.
    intros r2 Hr2.
    destruct (Hknown r2 Hr2) as (r1 & sv1 & sv2 & Hr1 & Hsv1 & Hsv2 & Hnode).
    destruct (create_mcf_loop_covers l1 _ _ _ _ _ _ Hloop r1 sv1 Hr1 Hsv1)
      as (v & Hv & Hin).
    exists sv2, v. split; [exact Hsv2|]. split; [congruence | exact Hin]. }
  unfold _create_mcf, bind. rewrite Hloop2. reflexivity.
Qed.

Lemma create_mcf_known_identifiers_add_nothing_witness :
  _create_mcf ([0; 1] ++ [2; 1; 0]) (World sample_statvars [] None)
  = _create_mcf [0; 1] (World sample_statvars [] None).
Proof.
  apply create_mcf_known_identifiers_add_nothing.
  intros r2 [<-|[<-|[<-|[]]]].
  - exists 0. do 2 eexists. split; [left; reflexivity|]. repeat split; reflexivity.
  - exists 1. do 2 eexists. split; [right; left; reflexivity|]. repeat split; reflexivity.
  - exists 0. do 2 eexists. split; [left; reflexivity|]. repeat split; reflexivity.
Defined.

(** ** The two files after a run of the main block *)

Section Outputs.
Context {G : DcidGenerator}.

Lemma pipeline_outputs (write : DictReader -> M (list ref))
    (csv_files : list DictReader) (w : world) :
  (forall (I : world -> Prop),
     (forall w1 h', I w1 -> I (World h' (cleaned_csv w1) (output_mcf w1))) ->
     (forall w1 line, I w1 -> I (World (heap w1) (cleaned_csv w1 ++ [line]) (output_mcf w1))) ->
     forall reader, keeps I (write reader)) ->
  let run :=
    (let* statvars :=
       (let* _ := open_cleaned_csv in
        let* _ := writeheader in
        foldM (fun statvars reader =>
                 let* statvars_list := write reader in
                 ret (statvars ++ statvars_list))
              [] csv_files) in
     _create_mcf statvars) w in
  (exists lines, cleaned_csv run.2 = CsvHeader OUTPUT_COLUMNS :: lines)
  /\ (forall e, run.1 = Raise e -> output_mcf run.2 = output_mcf w)
  /\ (forall u, run.1 = Ok u -> is_Some (output_mcf run.2)).
Proof.
  intros Hwrite run.
  set (I := fun w' => (exists lines, cleaned_csv w' = CsvHeader OUTPUT_COLUMNS :: lines)
                      /\ output_mcf w' = output_mcf w).
  assert (Hheap : forall w1 h', I w1 -> I (World h' (cleaned_csv w1) (output_mcf w1))).
  { intros w1 h' Hw1. exact Hw1. }
  assert (Hrow : forall w1 line,
             I w1 -> I (World (heap w1) (cleaned_csv w1 ++ [line]) (output_mcf w1))).
  { intros w1 line [[lines Hcsv] Hmcf]. split; [|exact Hmcf].
    cbn [cleaned_csv]. rewrite Hcsv. exists (lines ++ [line]). reflexivity. }
  pose proof (keeps_files I write csv_files [] (Hwrite I Hheap Hrow)
                (World (heap w) [CsvHeader OUTPUT_COLUMNS] (output_mcf w))) as Hfiles.
  assert (Hrun : run
                 = match foldM (fun statvars reader =>
                                  let* statvars_list := write reader in
                                  ret (statvars ++ statvars_list))
                               [] csv_files
                               (World (heap w) [CsvHeader OUTPUT_COLUMNS] (output_mcf w)) with
                   | (Ok statvars, w2) => _create_mcf statvars w2
                   | (Raise e, w2) => (Raise e, w2)
                   end) by reflexivity.
  clearbody run. subst run.
  match type of Hfiles with
  | _ -> match ?m ?w1 with _ => _ end => destruct (m w1) as [[statvars|e] w2]
  end.
  - destruct Hfiles as [[lines Hcsv] Hmcf]; [split; [eauto | reflexivity]|].
    pose proof (create_mcf_fate statvars w2) as Hfate.
    destruct (_create_mcf statvars w2) as [[[]|e] w3]; cbn [fst snd].
    + destruct Hfate as (_ & Hcsv3 & Hsome). split; [|split].
      * exists lines. congruence.
      * discriminate.
      * intros _ _. exact Hsome.
    + subst w3. split; [|split].
      * exists lines. exact Hcsv.
      * intros _ _. exact Hmcf.
      * discriminate.
  - destruct Hfiles as [[lines Hcsv] Hmcf]; [split; [eauto | reflexivity]|].
    cbn [fst snd]. split; [|split].
    + exists lines. exact Hcsv.
    + intros _ _. exact Hmcf.
    + discriminate.
Qed.
End Outputs.

(** X11.  After the end of the main block, whether it returned or raised,
    in table 5 and in table 8: the cleaned CSV begins with the header
    [Year,StatVar,Quantity], so what it held before the run is gone; the
    MCF file holds what it held before when the run raised, and is written
    when the run returned. *)
Theorem main_outputs_after_any_run (G : DcidGenerator) (csv_files : list DictReader)
    (cfg : config) (w : world) :
  ((exists lines,
       cleaned_csv (Table5.main_outputs csv_files cfg w).2
       = CsvHeader OUTPUT_COLUMNS :: lines)
   /\ (forall e, (Table5.main_outputs csv_files cfg w).1 = Raise e ->
                 output_mcf (Table5.main_outputs csv_files cfg w).2 = output_mcf w)
   /\ (forall u, (Table5.main_outputs csv_files cfg w).1 = Ok u ->
                 is_Some (output_mcf (Table5.main_outputs csv_files cfg w).2)))
  /\ ((exists lines,
          cleaned_csv (Table8.main_outputs csv_files cfg w).2
          = CsvHeader OUTPUT_COLUMNS :: lines)
      /\ (forall e, (Table8.main_outputs csv_files cfg w).1 = Raise e ->
                    output_mcf (Table8.main_outputs csv_files cfg w).2 = output_mcf w)
      /\ (forall u, (Table8.main_outputs csv_files cfg w).1 = Ok u ->
                    is_Some (output_mcf (Table8.main_outputs csv_files cfg w).2))).
Proof.
  split.
  - apply (pipeline_outputs (fun reader => Table5._write_output_csv reader cfg) csv_files w).
    intros I Hheap Hrow reader. apply keeps_table5_write_output_csv; assumption.
  - apply (pipeline_outputs (fun reader => Table8._write_output_csv reader cfg) csv_files w).
    intros I Hheap Hrow reader. apply keeps_table8_write_output_csv; assumption.
Qed.

(** ** Canonical files, from the header of the cleaned CSV to the MCF file *)

Section CanonicalFiles.
Context {G : DcidGenerator}.
Variable cfg : config.
Variable h : list (dict pyval).

Lemma length_row_statvars (columns : list string) (table : list (dict pyval)) :
  length (flat_map (fun crime => map (resolved_statvar cfg h crime) columns) table)
  = length table * length columns.
Proof.
  induction table as [|crime table IH]; [reflexivity|].
  cbn [flat_map length]. rewrite length_app, length_map, IH. reflexivity.
Qed.

Lemma resolved_statvar_carries_node (crime : dict pyval) (c : string) :
  carries_node (resolved_statvar cfg h crime c).
Proof. eexists. unfold resolved_statvar. cbv zeta. apply dict_get_set_eq. Qed.

Lemma files_statvars_carry_nodes (columns_of : DictReader -> list string)
    (csv_files : list DictReader) :
  Forall carries_node (files_statvars cfg h columns_of csv_files).
Proof.
  apply List.Forall_forall. intros sv Hsv. unfold files_statvars in Hsv.
  apply in_flat_map in Hsv as (reader & _ & Hsv).
  apply in_flat_map in Hsv as (crime & _ & Hsv).
  apply in_map_iff in Hsv as (c & <- & _). apply resolved_statvar_carries_node.
Qed.

Variable columns_of : DictReader -> list string.
Variable write : DictReader -> M (list ref).
Variable file_ok : DictReader -> Prop.

Hypothesis write_canonical :
  forall reader ext csv mcf,
    file_ok reader ->
    write reader (World (h ++ ext) csv mcf)
    = (Ok (seq (length (h ++ ext)) (length (rows reader) * length (columns_of reader))),
       World ((h ++ ext)
              ++ flat_map (fun crime =>
                             map (resolved_statvar cfg h crime) (columns_of reader))
                          (rows reader))
             (csv ++ observations cfg h (columns_of reader) (rows reader)) mcf).

Lemma write_files_canonical (csv_files : list DictReader) :
  Forall file_ok csv_files ->
  forall (ext : list (dict pyval)) (csv : list csv_line) (mcf : option string)
         (acc : list ref),
    foldM (fun statvars reader =>
             let* statvars_list := write reader in
             ret (statvars ++ statvars_list))
          acc csv_files (World (h ++ ext) csv mcf)
    = (Ok (acc ++ seq (length (h ++ ext))
                      (length (files_statvars cfg h columns_of csv_files))),
       World ((h ++ ext) ++ files_statvars cfg h columns_of csv_files)
             (csv ++ files_observations cfg h columns_of csv_files) mcf).
Proof.
  induction 1 as [|reader csv_files Hreader _ IH]; intros ext csv mcf acc.
  - cbn. rewrite !app_nil_r. reflexivity.
  - cbn [foldM]. unfold bind at 1. unfold bind at 1.
    rewrite (write_canonical reader ext csv mcf Hreader).
    unfold ret at 1. rewrite <- (app_assoc h ext), IH.
    unfold files_statvars, files_observations. cbn [flat_map].
    rewrite !length_app, length_row_statvars, <- !app_assoc.
    rewrite seq_app, Nat.add_assoc. reflexivity.
Qed.

Lemma lookup_fresh_seq (base svs : list (dict pyval)) :
  Forall2 (fun r sv => (base ++ svs) !! r = Some sv) (seq (length base) (length svs)) svs.
Proof.
  revert base. induction svs as [|sv svs IH]; intros base; [constructor|].
  cbn [length seq]. constructor.
  - rewrite lookup_app_r by lia. rewrite Nat.sub_diag. reflexivity.
  - specialize (IH (base ++ [sv])). rewrite length_app in IH. cbn [length] in IH.
    rewrite Nat.add_1_r, <- app_assoc in IH. exact IH.
Qed.

Lemma pipeline_canonical (csv_files : list DictReader) (csv : list csv_line)
    (mcf : option string) :
  Forall file_ok csv_files ->
  (let* statvars :=
     (let* _ := open_cleaned_csv in
      let* _ := writeheader in
      foldM (fun statvars reader =>
               let* statvars_list := write reader in
               ret (statvars ++ statvars_list))
            [] csv_files) in
   _create_mcf statvars) (World h csv mcf)
  = (Ok tt,
     World (h ++ files_statvars cfg h columns_of csv_files)
           (CsvHeader OUTPUT_COLUMNS :: files_observations cfg h columns_of csv_files)
           (Some (mcf_text (first_seen (files_statvars cfg h columns_of csv_files))))).
Proof.
  intros Hfiles.
  pose proof (write_files_canonical csv_files Hfiles [] [CsvHeader OUTPUT_COLUMNS] mcf [])
    as Hloop.
  rewrite app_nil_r in Hloop. cbn [app] in Hloop.
  unfold bind at 1. unfold bind at 1. unfold open_cleaned_csv at 1.
  unfold bind at 1. unfold writeheader at 1. cbn [heap cleaned_csv output_mcf app].
  rewrite Hloop.
  rewrite (create_mcf_run _ _ (files_statvars cfg h columns_of csv_files)).
  - reflexivity.
  - cbn [heap]. apply lookup_fresh_seq.
  - apply files_statvars_carry_nodes.
Qed.
End CanonicalFiles.

(** X12.  The main block on canonical files, started with the heap [h] of
    the configuration: it returns; the cleaned CSV is the header followed
    by the observations of the files, file after file; the heap received
    the statvars of the rows, and no object of [h] changed; the MCF file is
    the text of the first-seen statvars among them.  In table 5 the fact
    columns of a file are those of its header, in table 8 the seven fixed
    columns. *)
Theorem main_outputs_of_canonical_files (G : DcidGenerator)
    (csv_files : list DictReader) (cfg : config) (w : world) :
  let h := heap w in
  let outputs (columns_of : DictReader -> list string) :=
    (Ok tt,
     World (h ++ files_statvars cfg h columns_of csv_files)
           (CsvHeader OUTPUT_COLUMNS :: files_observations cfg h columns_of csv_files)
           (Some (mcf_text (first_seen (files_statvars cfg h columns_of csv_files))))) in
  (Forall (fun reader =>
             table5_header_ok reader
             /\ canonical_file cfg h (fun r => fact_columns (fieldnames r)) reader)
          csv_files ->
   Table5.main_outputs csv_files cfg w
   = outputs (fun r => fact_columns (fieldnames r)))
  /\ (Forall (canonical_file cfg h (fun _ => table8_columns)) csv_files ->
      Table8.main_outputs csv_files cfg w = outputs (fun _ => table8_columns)).
Proof.
  intros h outputs. destruct w as [h0 csv mcf]. cbn [heap] in h. subst h outputs.
  split; intros Hfiles.
  - apply (pipeline_canonical cfg h0 (fun r => fact_columns (fieldnames r))
             (fun reader => Table5._write_output_csv reader cfg)
             (fun reader =>
                table5_header_ok reader
                /\ canonical_file cfg h0 (fun r => fact_columns (fieldnames r)) reader));
      [|exact Hfiles].
    intros reader ext csv' mcf' [(Hnd & Hbias & Hyear) Hrows].
    destruct (fact_columns_remove (fieldnames reader) Hnd Hbias Hyear)
      as (cols1 & H1 & H2).
    unfold Table5._write_output_csv. cbv zeta. unfold bind, lift. rewrite H1, H2.
    unfold process_reader.
    exact (process_rows_canonical cfg h0 _ (rows reader) Hrows ext csv' mcf' []).
  - apply (pipeline_canonical cfg h0 (fun _ => table8_columns)
             (fun reader => Table8._write_output_csv reader cfg)
             (canonical_file cfg h0 (fun _ => table8_columns)));
      [|exact Hfiles].
    intros reader ext csv' mcf' Hrows. rewrite table8_write_output_csv.
    unfold process_reader.
    exact (process_rows_canonical cfg h0 _ (rows reader) Hrows ext csv' mcf' []).
Qed.

Lemma main_outputs_of_canonical_files_witness :
  @Table5.main_outputs sample_dcid [sample_reader; sample_reader] sample_config
     (World sample_heap [CsvRow []] (Some "old"))
  = (Ok tt,
     World (sample_heap
            ++ files_statvars (G := sample_dcid) sample_config sample_heap
                 (fun r => fact_columns (fieldnames r)) [sample_reader; sample_reader])
           (CsvHeader OUTPUT_COLUMNS
            :: files_observations (G := sample_dcid) sample_config sample_heap
                 (fun r => fact_columns (fieldnames r)) [sample_reader; sample_reader])
           (Some ("Node: dcid:CriminalIncidents_White_Jewish" +:+ nl
                  +:+ "populationType: dcs:CriminalIncidents" +:+ nl
                  +:+ "offenderRace: dcs:White" +:+ nl
                  +:+ "biasMotivation: dcs:religion" +:+ nl
                  +:+ "targetedReligion: dcs:Jewish" +:+ nl +:+ nl
                  +:+ "Node: dcid:CriminalIncidents_BlackOrAfricanAmerican_Jewish" +:+ nl
                  +:+ "populationType: dcs:CriminalIncidents" +:+ nl
                  +:+ "offenderRace: dcs:BlackOrAfricanAmerican" +:+ nl
                  +:+ "biasMotivation: dcs:religion" +:+ nl
                  +:+ "targetedReligion: dcs:Jewish" +:+ nl +:+ nl
                  +:+ "Node: dcid:CriminalIncidents_White_gender" +:+ nl
                  +:+ "populationType: dcs:CriminalIncidents" +:+ nl
                  +:+ "offenderRace: dcs:White" +:+ nl
                  +:+ "biasMotivation: dcs:gender" +:+ nl +:+ nl
                  +:+ "Node: dcid:CriminalIncidents_BlackOrAfricanAmerican_gender" +:+ nl
                  +:+ "populationType: dcs:CriminalIncidents" +:+ nl
                  +:+ "offenderRace: dcs:BlackOrAfricanAmerican" +:+ nl
                  +:+ "biasMotivation: dcs:gender" +:+ nl +:+ nl))).
Proof.
  destruct (main_outputs_of_canonical_files sample_dcid [sample_reader; sample_reader]
              sample_config (World sample_heap [CsvRow []] (Some "old"))) as [H5 _].
  rewrite H5.
  - vm_compute. reflexivity.
  - assert (Hok : table5_header_ok sample_reader
                   /\ canonical_file (G := sample_dcid) sample_config sample_heap
                        (fun r => fact_columns (fieldnames r)) sample_reader).
    { split.
      - split; [|split].
        + refine (bool_decide_unpack _ _). vm_compute. exact I.
        + cbn. tauto.
        + cbn. tauto.
      - unfold canonical_file. cbn beta.
        change (fact_columns (fieldnames sample_reader))
          with ["white"; "black or african american"].
        unfold sample_reader, sample_config, sample_heap.
        cbn [rows heap]. canonical_rows. }
    constructor; [exact Hok|]. constructor; [exact Hok|]. constructor.
Defined.

(** ** Cleaning a label that is clean *)

Lemma str_all_filter (p : ascii -> bool) (s : string) :
  str_all p (str_filter p s) = true.
Proof.
  induction s as [|c s IH]; [reflexivity|]. cbn [str_filter].
  destruct (p c) eqn:Hc; [cbn [str_all]; rewrite Hc; exact IH | exact IH].
Qed.

Lemma str_all_filter_id (p : ascii -> bool) (s : string) :
  str_all p s = true -> str_filter p s = s.
Proof.
  induction s as [|c s IH]; [reflexivity|]. cbn [str_all str_filter].
  intros H. apply andb_prop in H as [Hc Hs]. rewrite Hc, (IH Hs). reflexivity.
Qed.

Lemma str_all_app (p : ascii -> bool) (a b : string) :
  str_all p (a +:+ b) = str_all p a && str_all p b.
Proof.
  induction a as [|c a IH]; [rewrite str_app_nil_l; reflexivity|].
  rewrite str_app_cons. cbn [str_all]. rewrite IH, andb_assoc. reflexivity.
Qed.

Lemma str_filter_none_all (p : ascii -> bool) (s : string) :
  str_filter p s = EmptyString -> str_all (fun c => negb (p c)) s = true.
Proof.
  induction s as [|c s IH]; [reflexivity|]. cbn [str_filter str_all].
  destruct (p c); [discriminate|]. intros H. rewrite (IH H). reflexivity.
Qed.

Lemma words_all (p : ascii -> bool) (s : string) :
  str_all p s = true -> Forall (fun w => str_all p w = true) (words s).
Proof.
  induction s as [|c s IH]; [constructor|]. cbn [str_all words].
  intros H. apply andb_prop in H as [Hc Hs]. specialize (IH Hs).
  destruct (is_space c); [exact IH|].
  destruct (starts_with_space s).
  - constructor; [cbn [str_all]; rewrite Hc; reflexivity | exact IH].
  - destruct (words s) as [|w ws].
    + constructor; [cbn [str_all]; rewrite Hc; reflexivity | constructor].
    + apply Forall_cons in IH as [Hw Hws].
      constructor; [cbn [str_all]; rewrite Hc; exact Hw | exact Hws].
Qed.

Lemma concat_cons2 (sep x y : string) (l : list string) :
  String.concat sep (x :: y :: l) = x +:+ sep +:+ String.concat sep (y :: l).
Proof. reflexivity. Qed.

Lemma concat_all (p : ascii -> bool) (ws : list string) :
  p " "%char = true ->
  Forall (fun w => str_all p w = true) ws ->
  str_all p (String.concat " " ws) = true.
Proof.
  intros Hsp. induction 1 as [|w ws Hw Hws IH]; [reflexivity|].
  destruct ws as [|w2 ws]; [exact Hw|].
  rewrite concat_cons2, !str_all_app, Hw, IH. cbn [str_all]. rewrite Hsp. reflexivity.
Qed.

Lemma words_single (w : string) :
  w <> EmptyString ->
  str_all (fun c => negb (is_space c)) w = true ->
  words w = [w].
Proof.
  induction w as [|c w IH]; [congruence|]. intros _ H. cbn [str_all] in H.
  apply andb_prop in H as [Hc Hw]. apply negb_true_iff in Hc.
  cbn [words]. rewrite Hc. destruct w as [|c' w]; [reflexivity|].
  assert (Hc' : is_space c' = false).
  { cbn [str_all] in Hw. apply andb_prop in Hw as [Hc' _].
    apply negb_true_iff in Hc'. exact Hc'. }
  cbn [starts_with_space]. rewrite Hc'. rewrite IH by (congruence || exact Hw).
  reflexivity.
Qed.

Lemma words_app_space (w rest : string) :
  w <> EmptyString ->
  str_all (fun c => negb (is_space c)) w = true ->
  words (w +:+ String " " rest) = w :: words rest.
Proof.
  induction w as [|c w IH]; [congruence|]. intros _ H. cbn [str_all] in H.
  apply andb_prop in H as [Hc Hw]. apply negb_true_iff in Hc.
  rewrite str_app_cons. cbn [words]. rewrite Hc. destruct w as [|c' w].
  - rewrite str_app_nil_l. cbn [starts_with_space words]. rewrite is_space_space.
    reflexivity.
  - assert (Hc' : is_space c' = false).
    { cbn [str_all] in Hw. apply andb_prop in Hw as [Hc' _].
      apply negb_true_iff in Hc'. exact Hc'. }
    rewrite IH by (congruence || exact Hw).
    rewrite str_app_cons. cbn [starts_with_space]. rewrite Hc'. reflexivity.
Qed.

(** The words of words joined by single spaces are these words. *)
Lemma words_concat_words (ws : list string) :
  Forall (fun w => w <> EmptyString) ws ->
  Forall (fun w => str_all (fun c => negb (is_space c)) w = true) ws ->
  words (String.concat " " ws) = ws.
Proof.
  induction ws as [|w ws IH]; intros Hne Hns; [reflexivity|].
  apply Forall_cons in Hne as [Hw Hne]. apply Forall_cons in Hns as [Hw' Hns].
  destruct ws as [|w2 ws]; [apply words_single; assumption|].
  rewrite concat_cons2.
  change (" " +:+ String.concat " " (w2 :: ws))
    with (String " " (String.concat " " (w2 :: ws))).
  rewrite (words_app_space w _ Hw Hw'), IH by assumption. reflexivity.
Qed.

Lemma clean_label_fixed (s : string) : clean_label (clean_label s) = clean_label s.
Proof.
  rewrite (clean_label_words (clean_label s)), (clean_label_words s).
  set (nd := fun c => negb (is_digit_or_colon c)).
  set (ws := words (str_filter nd s)).
  assert (Hdigits : str_filter nd (String.concat " " ws) = String.concat " " ws).
  { apply str_all_filter_id, concat_all; [reflexivity|].
    apply words_all, str_all_filter. }
  rewrite Hdigits. f_equal. apply words_concat_words.
  - apply words_nonempty.
  - eapply Forall_impl; [apply words_no_space|]. cbn beta.
    intros w Hw. apply str_filter_none_all. exact Hw.
Qed.

Lemma clean_row_fixed (row : list cell) : clean_row (clean_row row) = clean_row row.
Proof.
  destruct row as [|[s|z|] rest]; cbn [clean_row clean_cell]; try reflexivity.
  rewrite clean_label_fixed. reflexivity.
Qed.

(** X13.  The three statements of [_clean_dataframe] on a label that they
    already cleaned change nothing: a cleaned label has no digit and no
    colon left, and is its words joined by single spaces. *)
Theorem clean_label_idempotent (s : string) :
  clean_label (clean_label s) = clean_label s
  /\ str_all (fun c => negb (is_digit_or_colon c)) (clean_label s) = true
  /\ words (clean_label s) = words (str_filter (fun c => negb (is_digit_or_colon c)) s)
  /\ String.concat " " (words (clean_label s)) = clean_label s.
Proof.
  split; [apply clean_label_fixed|].
  assert (Hwords : words (clean_label s)
                   = words (str_filter (fun c => negb (is_digit_or_colon c)) s)).
  { rewrite clean_label_words. apply words_concat_words.
    - apply words_nonempty.
    - eapply Forall_impl; [apply words_no_space|]. cbn beta.
      intros w Hw. apply str_filter_none_all. exact Hw. }
  split; [|split].
  - rewrite clean_label_words. apply concat_all; [reflexivity|].
    apply words_all, str_all_filter.
  - exact Hwords.
  - rewrite Hwords. symmetry. apply clean_label_words.
Qed.

(** ** The frame of a year *)

Lemma clean_row_map_label (row : list cell) : clean_row row = map_label clean_cell row.
Proof. destruct row; reflexivity. Qed.

Lemma label_column_ok_cleaned (layout : list string) (table : list (list cell)) :
  has_label table -> label_column_ok (Frame layout (map clean_row table)).
Proof.
  intros Hok. unfold label_column_ok. cbn [df_rows].
  rewrite (map_ext _ _ clean_row_map_label).
  apply (has_label_map_label clean_cell table); [|exact Hok].
  intros s. eexists. reflexivity.
Qed.

(** A frame to which a layout was given and whose label column was cleaned. *)
Lemma clean_dataframe_layout_Ok (layout names : list string) (df df' : DataFrame) :
  layout = "bias motivation" :: names ->
  match set_columns layout df with
  | Raise e => Raise e
  | Ok df1 => clean_bias_motivation df1
  end = Ok df' ->
  label_column_ok df
  /\ length (df_columns df) = length layout
  /\ df' = Frame layout (map clean_row (df_rows df))
  /\ match set_columns layout df' with
     | Raise e => Raise e
     | Ok df1 => clean_bias_motivation df1
     end = Ok df'.
Proof.
  intros Hlayout Hrun. unfold set_columns in Hrun.
  destruct (decide (length layout = length (df_columns df))) as [Hlen|]; [|discriminate].
  apply (clean_bias_motivation_Ok _ _ names) in Hrun as [Hok ->]; [|exact Hlayout].
  cbn [df_columns df_rows] in *.
  split; [exact Hok|]. split; [symmetry; exact Hlen|]. split; [reflexivity|].
  rewrite (clean_dataframe_layout layout names); [| exact Hlayout | reflexivity |].
  - cbn [df_rows]. rewrite map_map. f_equal. f_equal.
    apply map_ext. intros row. apply clean_row_fixed.
  - apply label_column_ok_cleaned. exact Hok.
Qed.

Lemma df_insert_year (year : string) (layout : list string) (table : list (list cell)) :
  ~ In "Year" layout ->
  df_insert YEAR_INDEX "Year" (CStr year) (Frame layout table)
  = Ok (Frame ("Year" :: layout) (map (fun row => CStr year :: row) table)).
Proof.
  intros Hyear. unfold df_insert, YEAR_INDEX. cbn [df_columns df_rows].
  rewrite bool_decide_eq_false_2
    by (intros Hin; apply Hyear, list_elem_of_In; exact Hin).
  destruct (decide (0 <= length layout)) as [_|Hneg]; [|lia].
  reflexivity.
Qed.

Lemma filter_ext_In {A : Type} (P Q : A -> Prop) `{!forall x, Decision (P x)}
    `{!forall x, Decision (Q x)} (l : list A) :
  (forall x, In x l -> (P x <-> Q x)) -> filter P l = filter Q l.
Proof.
  induction l as [|x l IH]; intros Hext; [reflexivity|].
  rewrite !filter_cons.
  rewrite IH by (intros y Hy; apply Hext; right; exact Hy).
  destruct (Hext x (or_introl eq_refl)) as [HPQ HQP].
  destruct (decide (P x)), (decide (Q x)); tauto || reflexivity.
Qed.

Lemma year_header_columns (layout : list string) :
  NoDup layout ->
  ~ In "Year" layout ->
  In "bias motivation" layout ->
  NoDup ("Year" :: layout)
  /\ (exists cols1,
        list_remove "bias motivation" ("Year" :: layout) = Ok cols1
        /\ list_remove "Year" cols1 = Ok (fact_columns ("Year" :: layout)))
  /\ fact_columns ("Year" :: layout) = filter (fun c => c <> "bias motivation") layout.
Proof.
  intros Hnd Hyear Hbias.
  assert (Hnd' : NoDup ("Year" :: layout)).
  { apply NoDup_cons. split; [|exact Hnd].
    intros Hin. apply Hyear, list_elem_of_In. exact Hin. }
  split; [exact Hnd'|]. split.
  - apply fact_columns_remove; [exact Hnd' | right; exact Hbias | left; reflexivity].
  - unfold fact_columns. rewrite filter_cons_False by (intros [_ H]; apply H; reflexivity).
    apply filter_ext_In. intros c Hin. split; [tauto|]. intros Hc. split; [exact Hc|].
    intros ->. contradiction.
Qed.

(** X14.  What follows when [_clean_dataframe] of table 5 returns: the
    frame had as many columns as the layout of the year; the result has
    that layout, the labels cleaned and every other cell as it was;
    cleaning the result again gives the result; [insert] of the year column
    in the main block cannot fail; and the header of the CSV of the year,
    the year column and the layout, is one from which [_write_output_csv]
    removes its two columns, which leaves the layout without the label
    column as fact columns. *)
Theorem table5_frame_of_year (df df' : DataFrame) (year : string) :
  Table5._clean_dataframe df year = Ok df' ->
  let layout :=
    if decide (year ∈ table5_new_years)
    then table5_columns_2013 else table5_columns_2004 in
  length (df_columns df) = length layout
  /\ df' = Frame layout (map clean_row (df_rows df))
  /\ Table5._clean_dataframe df' year = Ok df'
  /\ table5_read_file df year
     = Ok (Frame ("Year" :: layout)
                 (map (fun row => CStr year :: clean_row row) (df_rows df)))
  /\ (exists cols1,
        list_remove "bias motivation" ("Year" :: layout) = Ok cols1
        /\ list_remove "Year" cols1 = Ok (tail layout)).
Proof.
  intros Hrun layout.
  assert (Hlayout : exists names,
             layout = "bias motivation" :: names
             /\ NoDup layout /\ ~ In "Year" layout
             /\ (forall d, Table5._clean_dataframe d year
                           = match set_columns layout d with
                             | Raise e => Raise e
                             | Ok df1 => clean_bias_motivation df1
                             end)).
  { unfold layout. destruct (decide (year ∈ table5_new_years)) as [Hnew|Hold].
    - eexists. split; [reflexivity|]. split; [|split].
      + refine (bool_decide_unpack _ _). vm_compute. exact I.
      + intros Hin. cbn in Hin. repeat (destruct Hin as [Hin|Hin]; [discriminate|]). exact Hin.
      + intros d. apply table5_clean_dataframe_new. exact Hnew.
    - eexists. split; [reflexivity|]. split; [|split].
      + refine (bool_decide_unpack _ _). vm_compute. exact I.
      + intros Hin. cbn in Hin. repeat (destruct Hin as [Hin|Hin]; [discriminate|]). exact Hin.
      + intros d. apply table5_clean_dataframe_old. exact Hold. }
  destruct Hlayout as (names & Hnames & Hnd & Hyear & Hclean).
  rewrite Hclean in Hrun.
  destruct (clean_dataframe_layout_Ok layout names df df' Hnames Hrun)
    as (Hok & Hlen & Hdf' & Hagain).
  split; [exact Hlen|]. split; [exact Hdf'|].
  split; [rewrite Hclean; exact Hagain|]. split.
  - unfold table5_read_file. rewrite Hclean, Hrun, Hdf'.
    rewrite (df_insert_year year layout _ Hyear), map_map. reflexivity.
  - destruct (year_header_columns layout Hnd Hyear) as (_ & (cols1 & H1 & H2) & Hfact).
    { rewrite Hnames. left. reflexivity. }
    exists cols1. split; [exact H1|]. rewrite H2, Hfact. f_equal.
    rewrite Hnames in *. cbn [tail].
    rewrite filter_cons_False by (intros H; apply H; reflexivity).
    apply filter_all. intros c Hc ->.
    apply NoDup_cons in Hnd as [Hnot _]. apply Hnot, list_elem_of_In. exact Hc.
Qed.

Lemma table5_frame_of_year_witness :
  table5_read_file sample_frame5 "2012"
  = Ok (Frame ("Year" :: table5_columns_2004)
              (map (fun row => CStr "2012" :: clean_row row) (df_rows sample_frame5)))
  /\ exists cols1,
       list_remove "bias motivation" ("Year" :: table5_columns_2004) = Ok cols1
       /\ list_remove "Year" cols1 = Ok (tail table5_columns_2004).
Proof.
  destruct (table5_frame_of_year sample_frame5
              (Frame table5_columns_2004 (map clean_row (df_rows sample_frame5))) "2012")
    as (_ & _ & _ & Hread & Hcols).
  - vm_compute. reflexivity.
  - split; [exact Hread | exact Hcols].
Defined.

(** X15.  What follows when [_clean_dataframe] of table 8 returns, its
    layout being the same for every year: the frame had eight columns; the
    result has the layout, the labels cleaned and every other cell as it
    was; cleaning the result again, for any year, gives the result;
    [insert] of the year column cannot fail; and the fact columns of the
    header of the CSV of the year are the seven columns that
    [_write_output_csv] of table 8 reads. *)
Theorem table8_frame_of_year (df df' : DataFrame) (year : string) :
  Table8._clean_dataframe df year = Ok df' ->
  length (df_columns df) = 8
  /\ df' = Frame table8_layout (map clean_row (df_rows df))
  /\ (forall year', Table8._clean_dataframe df' year' = Ok df')
  /\ table8_read_file df year
     = Ok (Frame ("Year" :: table8_layout)
                 (map (fun row => CStr year :: clean_row row) (df_rows df)))
  /\ (exists cols1,
        list_remove "bias motivation" ("Year" :: table8_layout) = Ok cols1
        /\ list_remove "Year" cols1 = Ok table8_columns).
Proof.
  intros Hrun.
  assert (Hclean : forall d y, Table8._clean_dataframe d y
                               = match set_columns table8_layout d with
                                 | Raise e => Raise e
                                 | Ok df1 => clean_bias_motivation df1
                                 end) by reflexivity.
  rewrite Hclean in Hrun.
  destruct (clean_dataframe_layout_Ok table8_layout _ df df' eq_refl Hrun)
    as (Hok & Hlen & Hdf' & Hagain).
  split; [exact Hlen|]. split; [exact Hdf'|].
  split; [intros year'; rewrite Hclean; exact Hagain|]. split.
  - unfold table8_read_file. rewrite Hclean, Hrun, Hdf'.
    rewrite (df_insert_year year table8_layout); [rewrite map_map; reflexivity|].
    intros Hin. cbn in Hin. repeat (destruct Hin as [Hin|Hin]; [discriminate|]). exact Hin.
  - eexists. split; reflexivity.
Qed.

Lemma table8_frame_of_year_witness :
  table8_read_file sample_frame8 "2019"
  = Ok (Frame ("Year" :: table8_layout)
              [ [CStr "2019"; CStr "Race / Ethnicity motivation"; CNum 10; CNum 1; CNum 2;
                 CNum 3; CNum 4; CNum 0; CNum 0] ]).
Proof.
  destruct (table8_frame_of_year sample_frame8
              (Frame table8_layout (map clean_row (df_rows sample_frame8))) "2019")
    as (_ & _ & _ & Hread & _).
  - vm_compute. reflexivity.
  - rewrite Hread. vm_compute. reflexivity.
Defined.

(** ** The ignore list follows the rules *)

(** X16.  [_get_dpv] goes through the rules once, in order: the ignore
    list is a sublist of the dependent properties of the rules, in the
    order of the rules, so it is no longer than the rules are many; a
    statvar that has no controlling property of any rule gets the empty
    list. *)
Theorem get_dpv_follows_rules (sv : dict pyval) (cfg : config) :
  _get_dpv sv cfg `sublist_of` map dpv_prop (dpv cfg)
  /\ length (_get_dpv sv cfg) <= length (dpv cfg)
  /\ ((forall spec, In spec (dpv cfg) -> dict_get (cprop spec) sv = None) ->
      _get_dpv sv cfg = []).
Proof.
  rewrite get_dpv_flat_map. generalize (dpv cfg) as rules.
  induction rules as [|spec rules (IHsub & IHlen & IHnone)].
  - repeat split; [constructor | cbn; lia].
  - cbn [flat_map map length].
    destruct (dict_mem (cprop spec) sv) eqn:Hmem.
    + destruct (decide (dpv_val spec = dict_get_default (dpv_prop spec) PyNone sv)).
      * cbn [app]. split; [apply sublist_skip; exact IHsub|]. split; [cbn [length]; lia|].
        intros Hnone. specialize (Hnone spec (or_introl eq_refl)).
        unfold dict_mem in Hmem. rewrite Hnone in Hmem. discriminate.
      * cbn [app]. split; [apply sublist_cons; exact IHsub|]. split; [lia|].
        intros Hnone. apply IHnone. intros spec' Hin. apply Hnone. right. exact Hin.
    + cbn [app]. split; [apply sublist_cons; exact IHsub|]. split; [lia|].
      intros Hnone. apply IHnone. intros spec' Hin. apply Hnone. right. exact Hin.
Qed.

(** ** The files that the test of the subject tables finds *)

Module SubjectTableFacts.
Import SubjectTable.

Lemma last_match_cons (p : string -> bool) (x : string) (l : list string) :
  last_match p (x :: l)
  = match last_match p l with
    | Some y => Some y
    | None => if p x then Some x else None
    end.
Proof.
  unfold last_match. cbn [List.filter]. destruct (p x); [|destruct (last _); reflexivity].
  destruct (List.filter p l) as [|y l']; [reflexivity|].
  change (last (x :: y :: l')) with (last (y :: l')).
  destruct (last (y :: l')) eqn:Hlast; [reflexivity|].
  apply last_None in Hlast. discriminate.
Qed.

Lemma last_match_None (p : string -> bool) (l : list string) :
  last_match p l = None <-> forall x, In x l -> p x = false.
Proof.
  induction l as [|x l IH]; [split; [intros _ x [] | reflexivity]|].
  rewrite last_match_cons. destruct (last_match p l) as [y|].
  - split; [discriminate|]. intros H.
    exfalso. assert (Hl : Some y = None); [|discriminate].
    apply IH. intros z Hz. apply H. right. exact Hz.
  - destruct (p x) eqn:Hx.
    + split; [discriminate|]. intros H. rewrite (H x (or_introl eq_refl)) in Hx.
      discriminate.
    + split; [|reflexivity]. intros _ z [<-|Hz]; [exact Hx|].
      apply (proj1 IH eq_refl z Hz).
Qed.

Lemma last_match_Some (p : string -> bool) (l : list string) (x : string) :
  last_match p l = Some x -> In x l /\ p x = true.
Proof.
  induction l as [|y l IH]; [discriminate|]. rewrite last_match_cons.
  destruct (last_match p l) as [z|].
  - intros [= ->]. destruct (IH eq_refl) as [Hin Hp]. split; [right|]; assumption.
  - destruct (p y) eqn:Hy; [|discriminate]. intros [= ->]. split; [left; reflexivity|].
    exact Hy.
Qed.

Lemma spec_loop (dir : string) (l : list string) (acc : option string) :
  fold_left
    (fun _SPEC_PATH filename =>
       if str_contains "_spec.json" filename
       then Some (path_join dir filename)
       else _SPEC_PATH)
    l acc
  = match last_match is_spec l with
    | Some x => Some (path_join dir x)
    | None => acc
    end.
Proof.
  revert acc. induction l as [|x l IH]; intros acc; [reflexivity|].
  cbn [fold_left]. rewrite IH, last_match_cons. unfold is_spec at 3.
  destruct (last_match is_spec l); [reflexivity|].
  destruct (str_contains "_spec.json" x); reflexivity.
Qed.

Lemma testdata_loop (td : string) (l : list string) (found : testdata) :
  let pick p acc :=
    match last_match p l with
    | Some x => Some (path_join td x)
    | None => acc
    end in
  fold_left
    (fun found filename =>
       if str_contains "_cleaned.csv" filename then
         Testdata (Some (path_join td filename))
                  (_STATVAR_MCF_PATH found) (_COLUMN_MAP_PATH found)
                  (_ZIP_PATH found)
       else if str_contains "_output.mcf" filename then
         Testdata (_CSV_PATH found)
                  (Some (path_join td filename))
                  (_COLUMN_MAP_PATH found) (_ZIP_PATH found)
       else if str_contains "column_map.json" filename then
         Testdata (_CSV_PATH found) (_STATVAR_MCF_PATH found)
                  (Some (path_join td filename))
                  (_ZIP_PATH found)
       else if str_endswith ".zip" filename then
         Testdata (_CSV_PATH found) (_STATVAR_MCF_PATH found)
                  (_COLUMN_MAP_PATH found)
                  (Some (path_join td filename))
       else found)
    l found
  = Testdata (pick is_csv (_CSV_PATH found))
             (pick is_statvar_mcf (_STATVAR_MCF_PATH found))
             (pick is_column_map (_COLUMN_MAP_PATH found))
             (pick is_zip (_ZIP_PATH found)).
Proof.
  cbv zeta. revert found. induction l as [|x l IH]; intros found.
  - destruct found. reflexivity.
  - cbn [fold_left]. rewrite IH, !last_match_cons. clear IH.
    destruct (last_match is_csv l), (last_match is_statvar_mcf l),
             (last_match is_column_map l), (last_match is_zip l);
      unfold is_statvar_mcf, is_column_map, is_zip, is_csv;
      destruct (str_contains "_cleaned.csv" x), (str_contains "_output.mcf" x),
               (str_contains "column_map.json" x), (str_endswith ".zip" x);
      reflexivity.
Qed.

(** What [main] returns: the last names of the listings that the branches
    take, joined to their directories. *)
Lemma main_run (listdir : string -> list string) (dir : string) :
  main listdir dir
  = let td := path_join dir "testdata" in
    match last_match is_spec (listdir dir) with
    | None => None
    | Some fs =>
        match last_match is_csv (listdir td) with
        | None => None
        | Some fc =>
            match last_match is_statvar_mcf (listdir td) with
            | None => None
            | Some fm =>
                match last_match is_column_map (listdir td) with
                | None => None
                | Some fcm =>
                    match last_match is_zip (listdir td) with
                    | None => None
                    | Some fz =>
                        Some (path_join dir fs, path_join td fc, path_join td fm,
                              path_join td fcm, path_join td fz)
                    end
                end
            end
        end
    end.
Proof.
  unfold main. cbv zeta. rewrite spec_loop.
  destruct (last_match is_spec (listdir dir)) as [fs|]; [|reflexivity].
  pose proof (testdata_loop (path_join dir "testdata")
                (listdir (path_join dir "testdata")) (Testdata None None None None))
    as Hloop.
  cbv beta zeta in Hloop. rewrite Hloop.
  cbn [_CSV_PATH _STATVAR_MCF_PATH _COLUMN_MAP_PATH _ZIP_PATH].
  destruct (last_match is_csv (listdir (path_join dir "testdata"))),
           (last_match is_statvar_mcf (listdir (path_join dir "testdata"))),
           (last_match is_column_map (listdir (path_join dir "testdata"))),
           (last_match is_zip (listdir (path_join dir "testdata"))); reflexivity.
Qed.
End SubjectTableFacts.

(** X17.  When [main] of the test of the subject tables returns, each path
    is a name of the listing joined to its directory: the specification is
    the last name of the table directory that contains ['_spec.json']; in
    the [testdata] directory, the CSV is the last name that contains
    ['_cleaned.csv'], the MCF the last other name that contains
    ['_output.mcf'], the column map the last name besides those that
    contains ['column_map.json'], and the archive the last name besides all
    those that ends in ['.zip']. *)
Theorem main_returns_listed_files (listdir : string -> list string) (dir : string)
    (spec csv mcf cmap zip : string) :
  SubjectTable.main listdir dir = Some (spec, csv, mcf, cmap, zip) ->
  let td := SubjectTable.path_join dir "testdata" in
  exists fs fc fm fcm fz,
    (SubjectTable.last_match SubjectTable.is_spec (listdir dir) = Some fs
     /\ In fs (listdir dir) /\ spec = SubjectTable.path_join dir fs)
    /\ (SubjectTable.last_match SubjectTable.is_csv (listdir td) = Some fc
        /\ In fc (listdir td) /\ csv = SubjectTable.path_join td fc)
    /\ (SubjectTable.last_match SubjectTable.is_statvar_mcf (listdir td) = Some fm
        /\ In fm (listdir td) /\ mcf = SubjectTable.path_join td fm)
    /\ (SubjectTable.last_match SubjectTable.is_column_map (listdir td) = Some fcm
        /\ In fcm (listdir td) /\ cmap = SubjectTable.path_join td fcm)
    /\ (SubjectTable.last_match SubjectTable.is_zip (listdir td) = Some fz
        /\ In fz (listdir td) /\ zip = SubjectTable.path_join td fz
        /\ SubjectTable.is_csv fz = false).
Proof.
  rewrite SubjectTableFacts.main_run. cbv zeta. intros Hrun.
  destruct (SubjectTable.last_match SubjectTable.is_spec (listdir dir))
    as [fs|] eqn:Hs; [|discriminate].
  set (L := listdir (SubjectTable.path_join dir "testdata")) in *.
  destruct (SubjectTable.last_match SubjectTable.is_csv L) as [fc|] eqn:Hc; [|discriminate].
  destruct (SubjectTable.last_match SubjectTable.is_statvar_mcf L)
    as [fm|] eqn:Hm; [|discriminate].
  destruct (SubjectTable.last_match SubjectTable.is_column_map L)
    as [fcm|] eqn:Hcm; [|discriminate].
  destruct (SubjectTable.last_match SubjectTable.is_zip L) as [fz|] eqn:Hz; [|discriminate].
  injection Hrun as <- <- <- <- <-.
  exists fs, fc, fm, fcm, fz.
  pose proof (SubjectTableFacts.last_match_Some _ _ _ Hs) as [Hs' _].
  pose proof (SubjectTableFacts.last_match_Some _ _ _ Hc) as [Hc' _].
  pose proof (SubjectTableFacts.last_match_Some _ _ _ Hm) as [Hm' _].
  pose proof (SubjectTableFacts.last_match_Some _ _ _ Hcm) as [Hcm' _].
  pose proof (SubjectTableFacts.last_match_Some _ _ _ Hz) as [Hz' Hzip].
  repeat split; try assumption; try reflexivity.
  unfold SubjectTable.is_zip in Hzip.
  destruct (SubjectTable.is_csv fz); [discriminate | reflexivity].
Qed.

Lemma main_returns_listed_files_witness :
  SubjectTable.main SubjectTable.sample_listdir "S2702"
  = Some ("S2702/S2702_spec.json", "S2702/testdata/old_cleaned.csv.zip",
          "S2702/testdata/S2702_output.mcf", "S2702/testdata/column_map.json",
          "S2702/testdata/S2702.zip")
  /\ exists fz,
       SubjectTable.last_match SubjectTable.is_zip
         (SubjectTable.sample_listdir "S2702/testdata") = Some fz
       /\ SubjectTable.is_csv fz = false.
Proof.
  assert (Hrun : SubjectTable.main SubjectTable.sample_listdir "S2702"
                 = Some ("S2702/S2702_spec.json", "S2702/testdata/old_cleaned.csv.zip",
                         "S2702/testdata/S2702_output.mcf",
                         "S2702/testdata/column_map.json", "S2702/testdata/S2702.zip"))
    by (vm_compute; reflexivity).
  split; [exact Hrun|].
  destruct (main_returns_listed_files SubjectTable.sample_listdir "S2702" _ _ _ _ _ Hrun)
    as (fs & fc & fm & fcm & fz & _ & _ & _ & _ & Hz & _ & _ & Hzip).
  exists fz. split; [exact Hz | exact Hzip].
Defined.

(** X18.  [main] of the test of the subject tables fails an [assert]
    exactly when a kind of file is missing: no name of the table directory
    contains ['_spec.json'], or the [testdata] directory has no name that
    the branch of the CSV, of the MCF, of the column map or of the archive
    takes.  A name taken by an earlier branch does not count for a later
    one. *)
Theorem main_fails_when_file_missing (listdir : string -> list string) (dir : string) :
  let td := SubjectTable.path_join dir "testdata" in
  SubjectTable.main listdir dir = None
  <-> (forall f, In f (listdir dir) -> SubjectTable.is_spec f = false)
      \/ (forall f, In f (listdir td) -> SubjectTable.is_csv f = false)
      \/ (forall f, In f (listdir td) -> SubjectTable.is_statvar_mcf f = false)
      \/ (forall f, In f (listdir td) -> SubjectTable.is_column_map f = false)
      \/ (forall f, In f (listdir td) -> SubjectTable.is_zip f = false).
Proof.
  cbv zeta. rewrite SubjectTableFacts.main_run. cbv zeta.
  rewrite <- !SubjectTableFacts.last_match_None.
  destruct (SubjectTable.last_match SubjectTable.is_spec (listdir dir));
    [|split; [auto | reflexivity]].
  set (L := listdir (SubjectTable.path_join dir "testdata")).
  destruct (SubjectTable.last_match SubjectTable.is_csv L);
    [|split; [auto | reflexivity]].
  destruct (SubjectTable.last_match SubjectTable.is_statvar_mcf L);
    [|split; [auto | reflexivity]].
  destruct (SubjectTable.last_match SubjectTable.is_column_map L);
    [|split; [auto | reflexivity]].
  destruct (SubjectTable.last_match SubjectTable.is_zip L);
    [|split; [auto 6 | reflexivity]].
  split; [discriminate|]. intros [H|[H|[H|[H|H]]]]; discriminate.
Qed.

(** ** The outputs of table 8 *)

